(** * HubSpot deals ETL: the resumable paginated extraction engine

    A shallow embedding of [services/data_source.py] (record
    transformation and the generator [get_hubspot_deals]) and of the
    request path of [services/hubspot_api_service.py]
    ([_wait_for_rate_limit], [_handle_rate_limit_response],
    [_make_request], [get_deals]), with the properties of the extraction
    engine stated over it.

    Conventions.
    - Python exceptions are values of [exn]; a computation that may raise
      returns a [result].
    - Everything the program obtains from outside (the caller's callbacks,
      the HTTP session, the clocks, the UUID generator) is an oracle: a
      function of the number of earlier calls to that same oracle.  The
      program state carries one call counter per oracle.
    - The generator is observed through the list of [event]s of a run in
      which the consumer pulls until the generator stops. *)

From Stdlib Require Import ZArith QArith Qround Ascii String List Bool Lia.
From stdpp Require Import base gmap strings list.
Import ListNotations.

Local Open Scope string_scope.
Local Open Scope list_scope.
Local Open Scope Z_scope.

(** ** Exceptions and results *)

(** The exception classes the two modules distinguish.  All of them are
    subclasses of Python's [Exception]; [HTTPError] (raised by
    [raise_for_status]) and [RequestException] (connection errors,
    timeouts) are the ones [except requests.exceptions.RequestException]
    catches. *)
Inductive exn : Type :=
| ValueError (msg : string)
| OverflowError (msg : string)
| RequestException (msg : string)
| HTTPError (status : Z)
| Exception (msg : string).

Definition is_request_exception (e : exn) : bool :=
  match e with
  | RequestException _ | HTTPError _ => true
  | ValueError _ | OverflowError _ | Exception _ => false
  end.

Inductive result (A : Type) : Type :=
| Ok (a : A)
| Raise (e : exn).
Arguments Ok {A} a.
Arguments Raise {A} e.

Definition is_ok {A} (r : result A) : bool :=
  match r with Ok _ => true | Raise _ => false end.

(** ** Python built-ins used by the transformation

    [float(s)], [int(s)], [datetime.fromisoformat(s)] and
    [datetime.isoformat()] are library functions, not code of the
    repository: they are an interface here.  A parser returns [None]
    where Python raises [ValueError]. *)
Class PyBuiltins : Type := {
  float : Type;
  datetime : Type;
  float_of_str : string -> option float;
  float_div_100 : float -> float;
  int_of_str : string -> option Z;
  fromisoformat : string -> option datetime;
  isoformat : datetime -> string;
}.

(** [s.replace('Z', '+00:00')] *)
Fixpoint replace_Z (s : string) : string :=
  match s with
  | EmptyString => EmptyString
  | String c rest =>
      if Ascii.eqb c "Z"%char then "+00:00" +:+ replace_Z rest
      else String c (replace_Z rest)
  end.

(** Truthiness of [properties.get(key)] for string-valued properties:
    present and not the empty string. *)
Definition truthy (v : option string) : bool :=
  match v with
  | Some s => negb (String.eqb s "")
  | None => false
  end.

(** ** Data model *)

(** A raw deal of the paging envelope: [id], [properties], [archived]. *)
Record raw_deal : Type := {
  rd_id : option string;
  rd_properties : option (gmap string string);
  rd_archived : option bool;
}.

Section Transformation.
Context `{PyBuiltins}.

(** The output row; [row_id] is the key ["id"] of the dictionary. *)
Record transformed_deal : Type := {
  row_id : string;
  deal_id : option string;
  deal_name : option string;
  amount : option float;
  deal_stage : option string;
  close_date : option datetime;
  pipeline : option string;
  deal_type : option string;
  hubspot_owner_id : option string;
  deal_stage_probability : option float;
  description : option string;
  analytics_source : option string;
  num_associated_contacts : Z;
  priority : option string;
  next_step : option string;
  forecast_amount : option float;
  forecast_probability : option float;
  hubspot_created_at : option datetime;
  hubspot_updated_at : option datetime;
  archived : bool;
  raw_properties : gmap string string;
  _extracted_at : datetime;
  _scan_id : string;
  _tenant_id : option string;
  _page_number : Z;
  _source_service : string;
}.

(** [deal.get("properties", {})] *)
Definition properties_of (deal : raw_deal) : gmap string string :=
  default ∅ (rd_properties deal).

(** The guarded parse of [amount]:
    [if properties.get("amount"): try float(..) except: None]. *)
Definition parse_amount (properties : gmap string string) : option float :=
  if truthy (properties !! "amount")
  then match properties !! "amount" with
       | Some s => float_of_str s
       | None => None
       end
  else None.

(** The local function [parse_date]. *)
Definition parse_date (date_str : option string) : option datetime :=
  if truthy date_str
  then match date_str with
       | Some s => fromisoformat (replace_Z s)
       | None => None
       end
  else None.

(** The guarded parse of [hs_deal_stage_probability]. *)
Definition parse_probability (properties : gmap string string) : option float :=
  if truthy (properties !! "hs_deal_stage_probability")
  then match properties !! "hs_deal_stage_probability" with
       | Some s => float_div_100 <$> float_of_str s
       | None => None
       end
  else None.

(** [int(properties.get(k, 0)) if properties.get(k) else 0]: the call of
    [int] is not inside a [try]. *)
Definition int_field (properties : gmap string string) (key : string) : result Z :=
  if truthy (properties !! key)
  then match properties !! key with
       | Some s =>
           match int_of_str s with
           | Some n => Ok n
           | None => Raise (ValueError ("invalid literal for int(): " +:+ s))
           end
       | None => Ok 0
       end
  else Ok 0.

(** [float(properties.get(k)) if properties.get(k) else None]: the call
    of [float] is not inside a [try]. *)
Definition float_field (properties : gmap string string) (key : string)
  : result (option float) :=
  if truthy (properties !! key)
  then match properties !! key with
       | Some s =>
           match float_of_str s with
           | Some x => Ok (Some x)
           | None => Raise (ValueError ("could not convert string to float: " +:+ s))
           end
       | None => Ok None
       end
  else Ok None.

(** [transform_hubspot_deal].  [uuid] is the value of [uuid.uuid4()] and
    [now] the value of [datetime.now(timezone.utc)] of this call.  The
    entries of the returned dictionary are evaluated in the order they
    are written, so the first failing conversion is the one that
    raises. *)
Definition transform_hubspot_deal (deal : raw_deal) (scan_id : string)
    (tenant_id : option string) (page_number : Z)
    (uuid : string) (now : datetime) : result transformed_deal :=
  let properties := properties_of deal in
  let amount := parse_amount properties in
  let probability := parse_probability properties in
  match int_field properties "num_associated_contacts" with
  | Raise e => Raise e
  | Ok contacts =>
  match float_field properties "hs_forecast_amount" with
  | Raise e => Raise e
  | Ok f_amount =>
  match float_field properties "hs_forecast_probability" with
  | Raise e => Raise e
  | Ok f_probability =>
      Ok {| row_id := uuid;
            deal_id := rd_id deal;
            deal_name := properties !! "dealname";
            amount := amount;
            deal_stage := properties !! "dealstage";
            close_date := parse_date (properties !! "closedate");
            pipeline := properties !! "pipeline";
            deal_type := properties !! "dealtype";
            hubspot_owner_id := properties !! "hubspot_owner_id";
            deal_stage_probability := probability;
            description := properties !! "description";
            analytics_source := properties !! "hs_analytics_source";
            num_associated_contacts := contacts;
            priority := properties !! "hs_priority";
            next_step := properties !! "hs_next_step";
            forecast_amount := f_amount;
            forecast_probability := f_probability;
            hubspot_created_at := parse_date (properties !! "createdate");
            hubspot_updated_at := parse_date (properties !! "hs_lastmodifieddate");
            archived := default false (rd_archived deal);
            raw_properties := properties;
            _extracted_at := now;
            _scan_id := scan_id;
            _tenant_id := tenant_id;
            _page_number := page_number;
            _source_service := "hubspot_deals" |}
  end end end.

End Transformation.

(** ** The paging envelope and HTTP responses *)

(** [paging.next.after]; each level may be absent. *)
Record paging_next : Type := { next_after : option string }.
Record paging_info : Type := { paging_next_of : option paging_next }.

(** The decoded JSON body of a "list deals" response. *)
Record deals_page : Type := {
  results : list raw_deal;
  paging : option paging_info;
}.

(** [paging.get("next") and paging["next"].get("after")], followed by
    [paging["next"]["after"]]: the next cursor the engine reads from a
    page.  An empty string is falsy and counts as no cursor. *)
Definition next_cursor (data : deals_page) : option string :=
  match paging data with
  | Some p =>
      match paging_next_of p with
      | Some n => if truthy (next_after n) then next_after n else None
      | None => None
      end
  | None => None
  end.

(** What the client reads from a [requests.Response]. *)
Record response : Type := {
  status_code : Z;
  retry_after_header : option string;
  json : deals_page;
}.

(** The query parameters [get_deals] builds. *)
Record request_params : Type := {
  p_limit : Z;
  p_archived : string;
  p_after : option string;
  p_properties : string;
}.

(** One call of [session.request]: a response, or a
    [requests.exceptions.RequestException] (connection error, timeout). *)
Inductive http_outcome : Type :=
| Responded (r : response)
| RequestFailed (msg : string).

(** The network as the client sees it: the outcome of the [k]-th request
    and the value of the [k]-th call of [time.time()]. *)
Record network : Type := {
  session_request : nat -> request_params -> http_outcome;
  time_time : nat -> Q;
}.

(** The mutable part of a [HubSpotAPIService] instance, with the call
    counters of the two oracles. *)
Record client : Type := {
  n_request : nat;
  n_time : nat;
  last_request_time : Q;
}.

(** The three places where the client sleeps: the rate floor of
    [_wait_for_rate_limit], the [Retry-After] of a 429 response, and the
    back-off after a request exception. *)
Inductive sleep_reason : Type := RateFloor | RetryAfter | Backoff.

(** What a request does that can be observed from outside. *)
Inductive client_event : Type :=
| CSleep (why : sleep_reason) (seconds : Q)
| CRequest (params : request_params) (outcome : http_outcome).

(** ** The API client *)

Section ApiClient.
Context `{PyBuiltins}.
Variable net : network.

Definition rate_limit : Z := 150.
Definition rate_period : Z := 10.
Definition request_interval : Q := (inject_Z rate_period / inject_Z rate_limit)%Q.
Definition max_retries : nat := 3.

(** [_wait_for_rate_limit].  The sleep is taken only when
    [time_since_last < request_interval], so its argument is positive;
    it is within the range of [time.sleep] unless the clock runs
    backwards by some 292 years, a case that is left out. *)
Definition _wait_for_rate_limit (cl : client) : list client_event * client :=
  let current_time := time_time net (n_time cl) in
  let time_since_last := (current_time - last_request_time cl)%Q in
  let slept :=
    if Qlt_le_dec time_since_last request_interval
    then [CSleep RateFloor (request_interval - time_since_last)%Q]
    else [] in
  (slept,
   {| n_request := n_request cl;
      n_time := S (S (n_time cl));
      last_request_time := time_time net (S (n_time cl)) |}).

(** The largest number of seconds [time.sleep] accepts: the argument is
    converted to a signed 64-bit count of nanoseconds. *)
Definition max_sleep_seconds : Z := 9223372036.

(** [time.sleep(retry_after)] for an integer argument: [OverflowError]
    if the argument does not fit the 64-bit count of nanoseconds,
    [ValueError] if it is negative. *)
Definition time_sleep (seconds : Z) : result client_event :=
  if (seconds <? - max_sleep_seconds) || (max_sleep_seconds <? seconds)
  then Raise (OverflowError "timestamp too large to convert to C _PyTime_t")
  else if seconds <? 0 then Raise (ValueError "sleep length must be non-negative")
  else Ok (CSleep RetryAfter (inject_Z seconds)).

(** [_handle_rate_limit_response]: on status 429 sleep for
    [int(response.headers.get('Retry-After', 1))] seconds and return
    [True]; otherwise return [False]. *)
Definition _handle_rate_limit_response (r : response)
  : result (bool * list client_event) :=
  if status_code r =? 429 then
    match (match retry_after_header r with
           | Some s =>
               match int_of_str s with
               | Some n => Ok n
               | None => Raise (ValueError ("invalid literal for int(): " +:+ s))
               end
           | None => Ok 1
           end) with
    | Raise e => Raise e
    | Ok retry_after =>
        match time_sleep retry_after with
        | Raise e => Raise e
        | Ok ev => Ok (true, [ev])
        end
    end
  else Ok (false, []).

(** [response.raise_for_status()] raises [HTTPError] for 4xx and 5xx. *)
Definition raise_for_status (r : response) : result unit :=
  if (400 <=? status_code r) && (status_code r <? 600)
  then Raise (HTTPError (status_code r))
  else Ok tt.

(** [time.time() % 1] *)
Definition fractional_part (t : Q) : Q := (t - inject_Z (Qfloor t))%Q.

(** [(2 ** attempt) + (time.time() % 1)] *)
Definition wait_time (attempt : nat) (t : Q) : Q :=
  (inject_Z (2 ^ Z.of_nat attempt) + fractional_part t)%Q.

Definition tick_request (cl : client) : client :=
  {| n_request := S (n_request cl);
     n_time := n_time cl;
     last_request_time := last_request_time cl |}.

Definition tick_time (cl : client) : client :=
  {| n_request := n_request cl;
     n_time := S (n_time cl);
     last_request_time := last_request_time cl |}.

(** The body of [for attempt in range(max_retries)] of [_make_request],
    over the attempts that remain; falling out of the loop reaches the
    final [raise Exception("Max retries (3) exceeded")]. *)
Fixpoint request_attempts (attempts : list nat) (params : request_params)
    (cl : client) : list client_event * client * result response :=
  match attempts with
  | [] => ([], cl, Raise (Exception "Max retries (3) exceeded"))
  | attempt :: rest =>
      let '(waited, cl1) := _wait_for_rate_limit cl in
      let outcome := session_request net (n_request cl1) params in
      let cl2 := tick_request cl1 in
      let sent := waited ++ [CRequest params outcome] in
      (* the handler of [except requests.exceptions.RequestException] *)
      let on_request_exception (e : exn) :=
        if (attempt =? max_retries - 1)%nat then (sent, cl2, Raise e)
        else
          let pause := CSleep Backoff (wait_time attempt (time_time net (n_time cl2))) in
          let '(evs, cl3, res) := request_attempts rest params (tick_time cl2) in
          (sent ++ pause :: evs, cl3, res) in
      match outcome with
      | RequestFailed msg => on_request_exception (RequestException msg)
      | Responded r =>
          match _handle_rate_limit_response r with
          | Raise e => (sent, cl2, Raise e)
          | Ok (true, slept) =>
              let '(evs, cl3, res) := request_attempts rest params cl2 in
              (sent ++ slept ++ evs, cl3, res)
          | Ok (false, _) =>
              match raise_for_status r with
              | Raise e => on_request_exception e
              | Ok _ => (sent, cl2, Ok r)
              end
          end
      end
  end.

(** [_make_request] *)
Definition _make_request (params : request_params) (cl : client)
  : list client_event * client * result response :=
  request_attempts (seq 0 max_retries) params cl.

Definition default_properties : list string :=
  ["dealname"; "amount"; "dealstage"; "closedate"; "pipeline";
   "dealtype"; "hubspot_owner_id"; "description"; "createdate";
   "hs_lastmodifieddate"; "hs_deal_stage_probability"].

(** The parameters [get_deals] sends. *)
Definition deals_params (limit : Z) (after : option string)
    (properties : option (list string)) (archived : bool) : request_params :=
  {| p_limit := Z.min limit 100;
     p_archived := if archived then "true" else "false";
     p_after := if truthy after then after else None;
     p_properties :=
       match properties with
       | Some (p :: ps) => String.concat "," (p :: ps)
       | Some [] | None => String.concat "," default_properties
       end |}.

(** [get_deals]: one page, or the exception [_make_request] raised
    (logged and re-raised). *)
Definition get_deals (limit : Z) (after : option string)
    (properties : option (list string)) (archived : bool) (cl : client)
  : list client_event * client * result deals_page :=
  let '(evs, cl', res) := _make_request (deals_params limit after properties archived) cl in
  (evs, cl', match res with Ok r => Ok (json r) | Raise e => Raise e end).

End ApiClient.

(** ** Checkpoints, events and the state of a run *)

(** The [phase] strings ["hubspot_deals_processing"], [.._paused],
    [.._paused_mid_page], [.._cancelled], [.._completed], [.._error]. *)
Inductive phase : Type :=
| PhProcessing | PhPaused | PhPausedMidPage | PhCancelled | PhCompleted | PhError.

(** The phase-specific dictionary [checkpoint_data] (the constant entries
    [service], [*_reason] and [completion_status] are left out). *)
Inductive checkpoint_payload : Type :=
| CancelledData (cancelled_at_page : Z)
| PausedData (paused_at_page : Z) (paused_at : string)
| MidPageData (paused_at_page : Z) (records_completed_in_page : Z) (paused_at : string)
| ProcessingData (pages_processed : Z) (last_page_records : Z) (has_more_pages : bool)
| CompletedData (total_pages : Z) (final_total : Z)
| ErrorData (error : exn) (error_page : Z) (recovery_cursor : option string).

Record checkpoint : Type := {
  cp_phase : phase;
  records_processed : Z;
  cursor : option string;
  page_number : Z;
  batch_size_of : Z;
  checkpoint_data : checkpoint_payload;
}.

(** The optional argument [resume_from] with its three optional keys. *)
Record resume_state : Type := {
  rs_cursor : option string;
  rs_page_number : option Z;
  rs_records_processed : option Z;
}.

(** The values [create_data_source] reads from [job_config] and
    [filters]. *)
Record config : Type := {
  tenant_id : option string;
  scan_id : string;
  properties : option (list string);
  archived_filter : bool;
  deal_stages : option (list string);
  pipelines : option (list string);
}.

(** The local variables of [get_hubspot_deals] that live across loop
    iterations, the client, and the call counters of the oracles. *)
Record state : Type := {
  after : option string;
  page_count : Z;
  total_records : Z;
  n_cancel : nat;
  n_pause : nat;
  n_checkpoint : nat;
  n_uuid : nat;
  n_now : nat;
  api_service : client;
}.

Inductive exit_reason : Type :=
| ExitCancelled | ExitPaused | ExitPausedMidPage | ExitCompleted | ExitPageLimit.

(** How the generator ends: it stops (by [break], [return] or a false
    loop condition), or an exception leaves it. *)
Inductive run_outcome : Type :=
| Stopped (why : exit_reason)
| Failed (e : exn)
| OutOfFuel.

Section Engine.
Context `{PyBuiltins}.

(** The caller's callbacks, the network and the two system oracles. *)
Record environment : Type := {
  check_cancel_callback : option (nat -> result bool);
  check_pause_callback : option (nat -> result bool);
  checkpoint_callback : option (nat -> checkpoint -> result unit);
  net : network;
  datetime_now : nat -> datetime;
  uuid4 : nat -> string;
}.

Inductive event : Type :=
| EvCancelCheck (r : result bool)
| EvPauseCheck (r : result bool)
| EvRecordPauseCheck (r : result bool)
| EvFetch (after : option string) (io : list client_event) (r : result deals_page)
| EvTransform (deal : raw_deal) (r : result transformed_deal)
| EvYield (row : transformed_deal)
| EvCheckpoint (cp : checkpoint) (r : result unit).

Variable env : environment.
Variable cfg : config.

Definition checkpoint_interval : Z := 5.
Definition cancel_check_interval : Z := 1.
Definition pause_check_interval : Z := 1.
Definition batch_size : Z := 100.
Definition page_limit : Z := 1000.

(** *** State updates *)

Definition bump_cancel (s : state) : state :=
  {| after := after s; page_count := page_count s; total_records := total_records s;
     n_cancel := S (n_cancel s); n_pause := n_pause s; n_checkpoint := n_checkpoint s;
     n_uuid := n_uuid s; n_now := n_now s; api_service := api_service s |}.

Definition bump_pause (s : state) : state :=
  {| after := after s; page_count := page_count s; total_records := total_records s;
     n_cancel := n_cancel s; n_pause := S (n_pause s); n_checkpoint := n_checkpoint s;
     n_uuid := n_uuid s; n_now := n_now s; api_service := api_service s |}.

Definition bump_checkpoint (s : state) : state :=
  {| after := after s; page_count := page_count s; total_records := total_records s;
     n_cancel := n_cancel s; n_pause := n_pause s; n_checkpoint := S (n_checkpoint s);
     n_uuid := n_uuid s; n_now := n_now s; api_service := api_service s |}.

Definition bump_uuid (s : state) : state :=
  {| after := after s; page_count := page_count s; total_records := total_records s;
     n_cancel := n_cancel s; n_pause := n_pause s; n_checkpoint := n_checkpoint s;
     n_uuid := S (n_uuid s); n_now := n_now s; api_service := api_service s |}.

Definition bump_now (s : state) : state :=
  {| after := after s; page_count := page_count s; total_records := total_records s;
     n_cancel := n_cancel s; n_pause := n_pause s; n_checkpoint := n_checkpoint s;
     n_uuid := n_uuid s; n_now := S (n_now s); api_service := api_service s |}.

Definition set_api_service (cl : client) (s : state) : state :=
  {| after := after s; page_count := page_count s; total_records := total_records s;
     n_cancel := n_cancel s; n_pause := n_pause s; n_checkpoint := n_checkpoint s;
     n_uuid := n_uuid s; n_now := n_now s; api_service := cl |}.

(** [total_records += page_records; page_count += 1] *)
Definition update_counters (page_records : Z) (s : state) : state :=
  {| after := after s; page_count := page_count s + 1;
     total_records := total_records s + page_records;
     n_cancel := n_cancel s; n_pause := n_pause s; n_checkpoint := n_checkpoint s;
     n_uuid := n_uuid s; n_now := n_now s; api_service := api_service s |}.

(** [after = paging["next"]["after"]] *)
Definition set_after (c : string) (s : state) : state :=
  {| after := Some c; page_count := page_count s; total_records := total_records s;
     n_cancel := n_cancel s; n_pause := n_pause s; n_checkpoint := n_checkpoint s;
     n_uuid := n_uuid s; n_now := n_now s; api_service := api_service s |}.

(** *** Polling the caller's predicates

    [cb and cb(scan_id)]: an absent callback is not called and counts as
    false. *)

Definition poll_cancel (s : state) : list event * state * result bool :=
  match check_cancel_callback env with
  | None => ([], s, Ok false)
  | Some cb => let r := cb (n_cancel s) in ([EvCancelCheck r], bump_cancel s, r)
  end.

Definition poll_pause (s : state) : list event * state * result bool :=
  match check_pause_callback env with
  | None => ([], s, Ok false)
  | Some cb => let r := cb (n_pause s) in ([EvPauseCheck r], bump_pause s, r)
  end.

Definition poll_record_pause (s : state) : list event * state * result bool :=
  match check_pause_callback env with
  | None => ([], s, Ok false)
  | Some cb => let r := cb (n_pause s) in ([EvRecordPauseCheck r], bump_pause s, r)
  end.

(** *** Saving a checkpoint

    [if checkpoint_callback: try: cp = {...}; checkpoint_callback(scan_id, cp)
     except Exception: log].  The dictionary is built inside the [if], so
    [build] may read the clock; the outcome of the callback is recorded in
    the event and is otherwise not used. *)
Definition save_checkpoint (build : state -> checkpoint * state) (s : state)
  : list event * state :=
  match checkpoint_callback env with
  | None => ([], s)
  | Some cb =>
      let '(cp, s1) := build s in
      ([EvCheckpoint cp (cb (n_checkpoint s1) cp)], bump_checkpoint s1)
  end.

Definition cancel_checkpoint (s : state) : checkpoint * state :=
  ({| cp_phase := PhCancelled;
      records_processed := total_records s;
      cursor := after s;
      page_number := page_count s;
      batch_size_of := batch_size;
      checkpoint_data := CancelledData (page_count s) |}, s).

Definition pause_checkpoint (s : state) : checkpoint * state :=
  ({| cp_phase := PhPaused;
      records_processed := total_records s;
      cursor := after s;
      page_number := page_count s;
      batch_size_of := batch_size;
      checkpoint_data :=
        PausedData (page_count s) (isoformat (datetime_now env (n_now s))) |},
   bump_now s).

Definition mid_page_checkpoint (page_records : Z) (s : state) : checkpoint * state :=
  ({| cp_phase := PhPausedMidPage;
      records_processed := total_records s + page_records;
      cursor := after s;
      page_number := page_count s;
      batch_size_of := batch_size;
      checkpoint_data :=
        MidPageData (page_count s) page_records
                    (isoformat (datetime_now env (n_now s))) |},
   bump_now s).

(** The periodic checkpoint, named [checkpoint_data] in the source. *)
Definition processing_checkpoint (data : deals_page) (page_records : Z) (s : state)
  : checkpoint * state :=
  let next_cursor := next_cursor data in
  ({| cp_phase := PhProcessing;
      records_processed := total_records s;
      cursor := next_cursor;
      page_number := page_count s;
      batch_size_of := batch_size;
      checkpoint_data :=
        ProcessingData (page_count s) page_records (bool_decide (next_cursor <> None)) |},
   s).

Definition final_checkpoint (s : state) : checkpoint * state :=
  ({| cp_phase := PhCompleted;
      records_processed := total_records s;
      cursor := None;
      page_number := page_count s;
      batch_size_of := batch_size;
      checkpoint_data := CompletedData (page_count s) (total_records s) |}, s).

Definition error_checkpoint (e : exn) (s : state) : checkpoint * state :=
  ({| cp_phase := PhError;
      records_processed := total_records s;
      cursor := after s;
      page_number := page_count s;
      batch_size_of := batch_size;
      checkpoint_data := ErrorData e (page_count s + 1) (after s) |}, s).

(** *** Filters *)

(** [allow and value not in allow]: the record is discarded. *)
Definition filtered_out (allow : option (list string)) (value : option string) : bool :=
  match allow with
  | Some (a :: l) =>
      match value with
      | Some v => negb (existsb (String.eqb v) (a :: l))
      | None => true
      end
  | Some [] | None => false
  end.

(** Neither [continue] is taken. *)
Definition qualifies (row : transformed_deal) : bool :=
  negb (filtered_out (deal_stages cfg) (deal_stage row))
  && negb (filtered_out (pipelines cfg) (pipeline row)).

(** *** The loop over the records of one page *)

Inductive records_outcome : Type :=
| RecordsDone (page_records : Z)
| RecordsPaused
| RecordsRaised (e : exn).

(** [for deal in deals: ...] with [page_records] as accumulator. *)
Fixpoint process_deals (deals : list raw_deal) (page_records : Z) (s : state)
  : list event * state * records_outcome :=
  match deals with
  | [] => ([], s, RecordsDone page_records)
  | deal :: rest =>
      let '(polled, s1, paused) := poll_record_pause s in
      match paused with
      | Raise e => (polled, s1, RecordsRaised e)
      | Ok true =>
          let '(saved, s2) := save_checkpoint (mid_page_checkpoint page_records) s1 in
          (polled ++ saved, s2, RecordsPaused)
      | Ok false =>
          let transformed :=
            transform_hubspot_deal deal (scan_id cfg) (tenant_id cfg) (page_count s + 1)
              (uuid4 env (n_uuid s1)) (datetime_now env (n_now s1)) in
          match transformed with
          | Raise e =>
              (polled ++ [EvTransform deal transformed], bump_uuid s1, RecordsRaised e)
          | Ok row =>
              let s2 := bump_now (bump_uuid s1) in
              if qualifies row then
                let '(evs, s3, out) := process_deals rest (page_records + 1) s2 in
                (polled ++ EvTransform deal transformed :: EvYield row :: evs, s3, out)
              else
                let '(evs, s3, out) := process_deals rest page_records s2 in
                (polled ++ EvTransform deal transformed :: evs, s3, out)
          end
      end
  end.

(** *** One iteration of the [while] loop *)

Inductive try_outcome : Type :=
| TryContinue
| TryBreak (why : exit_reason)
| TryReturn
| TryRaise (e : exn).

(** The periodic checkpoint of step 5. *)
Definition periodic_checkpoint (data : deals_page) (page_records : Z) (s : state)
  : list event * state :=
  if page_count s mod checkpoint_interval =? 0
  then save_checkpoint (processing_checkpoint data page_records) s
  else ([], s).

(** The part of the iteration after a page has been fetched. *)
Definition process_page (data : deals_page) (s : state)
  : list event * state * try_outcome :=
  let '(r_evs, s1, out) := process_deals (results data) 0 s in
  match out with
  | RecordsRaised e => (r_evs, s1, TryRaise e)
  | RecordsPaused => (r_evs, s1, TryReturn)
  | RecordsDone page_records =>
      let s2 := update_counters page_records s1 in
      let '(saved, s3) := periodic_checkpoint data page_records s2 in
      match next_cursor data with
      | Some c => (r_evs ++ saved, set_after c s3, TryContinue)
      | None =>
          let '(final, s4) := save_checkpoint final_checkpoint s3 in
          (r_evs ++ saved ++ final, s4, TryBreak ExitCompleted)
      end
  end.

(** The [try] block. *)
Definition loop_try (s : state) : list event * state * try_outcome :=
  let '(c_evs, s1, cancelled) :=
    if page_count s mod cancel_check_interval =? 0 then poll_cancel s
    else ([], s, Ok false) in
  match cancelled with
  | Raise e => (c_evs, s1, TryRaise e)
  | Ok true =>
      let '(saved, s2) := save_checkpoint cancel_checkpoint s1 in
      (c_evs ++ saved, s2, TryBreak ExitCancelled)
  | Ok false =>
      let '(p_evs, s2, paused) :=
        if page_count s mod pause_check_interval =? 0 then poll_pause s1
        else ([], s1, Ok false) in
      match paused with
      | Raise e => (c_evs ++ p_evs, s2, TryRaise e)
      | Ok true =>
          let '(saved, s3) := save_checkpoint pause_checkpoint s2 in
          (c_evs ++ p_evs ++ saved, s3, TryBreak ExitPaused)
      | Ok false =>
          let '(io, cl, fetched) :=
            get_deals (net env) batch_size (after s2) (properties cfg)
                      (archived_filter cfg) (api_service s2) in
          let s3 := set_api_service cl s2 in
          let fetch := EvFetch (after s2) io fetched in
          match fetched with
          | Raise e => (c_evs ++ p_evs ++ [fetch], s3, TryRaise e)
          | Ok data =>
              let '(evs, s4, out) := process_page data s3 in
              (c_evs ++ p_evs ++ fetch :: evs, s4, out)
          end
      end
  end.

(** The [try] block with its [except Exception as e] handler: an error
    checkpoint is saved and [e] is raised again. *)
Definition loop_body (s : state) : list event * state * try_outcome :=
  let '(evs, s1, out) := loop_try s in
  match out with
  | TryRaise e =>
      let '(saved, s2) := save_checkpoint (error_checkpoint e) s1 in
      (evs ++ saved, s2, TryRaise e)
  | _ => (evs, s1, out)
  end.

(** [while page_count < 1000: ...] *)
Fixpoint while_loop (fuel : nat) (s : state) : list event * state * run_outcome :=
  match fuel with
  | O => ([], s, OutOfFuel)
  | S fuel' =>
      if page_count s <? page_limit then
        let '(evs, s1, out) := loop_body s in
        match out with
        | TryContinue =>
            let '(evs', s2, res) := while_loop fuel' s1 in
            (evs ++ evs', s2, res)
        | TryBreak why => (evs, s1, Stopped why)
        | TryReturn => (evs, s1, Stopped ExitPausedMidPage)
        | TryRaise e => (evs, s1, Failed e)
        end
      else ([], s, Stopped ExitPageLimit)
  end.

(** Every continuing iteration adds one to [page_count], so this many
    iterations reach the loop condition's end. *)
Definition fuel_for (s : state) : nat := S (Z.to_nat (page_limit - page_count s)).

Definition run (s : state) : list event * state * run_outcome :=
  while_loop (fuel_for s) s.

(** The initialisation: [if resume_from: ... else: ...].  [cl] is the
    client as [create_data_source] leaves it. *)
Definition initial_state (resume_from : option resume_state) (cl : client) : state :=
  let '(after, page_count, total_records) :=
    match resume_from with
    | Some r => (rs_cursor r, default 0 (rs_page_number r),
                 default 0 (rs_records_processed r))
    | None => (None, 0, 0)
    end in
  {| after := after; page_count := page_count; total_records := total_records;
     n_cancel := 0; n_pause := 0; n_checkpoint := 0; n_uuid := 0; n_now := 0;
     api_service := cl |}.

(** [get_hubspot_deals], run until the generator ends. *)
Definition get_hubspot_deals (resume_from : option resume_state) (cl : client)
  : list event * state * run_outcome :=
  run (initial_state resume_from cl).

(** *** Reading a trace *)

Definition yielded (tr : list event) : list transformed_deal :=
  omap (fun ev => match ev with EvYield row => Some row | _ => None end) tr.

Definition fetched (tr : list event) : list (option string) :=
  omap (fun ev => match ev with EvFetch c _ _ => Some c | _ => None end) tr.

Definition checkpoints (tr : list event) : list checkpoint :=
  omap (fun ev => match ev with EvCheckpoint cp _ => Some cp | _ => None end) tr.

Definition transformed (tr : list event) : list raw_deal :=
  omap (fun ev => match ev with EvTransform d _ => Some d | _ => None end) tr.

(** The answers of the pause predicate to the checks made before
    records. *)
Definition record_checks (tr : list event) : list (result bool) :=
  omap (fun ev => match ev with EvRecordPauseCheck r => Some r | _ => None end) tr.

(** No checkpoint, no pause and no failed transformation in [tr]. *)
Definition uneventful (tr : list event) : Prop :=
  checkpoints tr = []
  /\ ~ In (EvRecordPauseCheck (Ok true)) tr
  /\ (forall d e, ~ In (EvTransform d (Raise e)) tr).

(** A step that leaves the three loop variables alone. *)
Definition same_vars (s s' : state) : Prop :=
  after s' = after s /\ page_count s' = page_count s
  /\ total_records s' = total_records s.

End Engine.

(** ** Vocabulary of the properties *)

Section RetryPolicy.
Context `{PyBuiltins}.

(** What one answer of the server means for the retry policy: success,
    HTTP 429 with its delay ([Retry-After], 1 if absent), a request
    exception (a network error, or a 4xx/5xx status raised by
    [raise_for_status]), or an exception of another class (a
    [Retry-After] that is not an integer [time.sleep] accepts). *)
Inductive verdict : Type :=
| Succeeds (r : response)
| RateLimited (seconds : Z)
| Fails (e : exn)
| Aborts (e : exn).

Definition verdict_of (o : http_outcome) : verdict :=
  match o with
  | RequestFailed msg => Fails (RequestException msg)
  | Responded r =>
      if status_code r =? 429 then
        match retry_after_header r with
        | None => RateLimited 1
        | Some s =>
            match int_of_str s with
            | Some n =>
                if (n <? - max_sleep_seconds) || (max_sleep_seconds <? n)
                then Aborts (OverflowError "timestamp too large to convert to C _PyTime_t")
                else if n <? 0
                     then Aborts (ValueError "sleep length must be non-negative")
                     else RateLimited n
            | None => Aborts (ValueError ("invalid literal for int(): " +:+ s))
            end
        end
      else if (400 <=? status_code r) && (status_code r <? 600)
           then Fails (HTTPError (status_code r))
           else Succeeds r
  end.

Definition retryable (v : verdict) : Prop :=
  match v with
  | RateLimited _ | Fails _ => True
  | Succeeds _ | Aborts _ => False
  end.

(** The requests of a client trace, in order. *)
Definition requests_sent (evs : list client_event) : list (request_params * http_outcome) :=
  omap (fun ev => match ev with CRequest p o => Some (p, o) | CSleep _ _ => None end) evs.

(** The sleeps of the retry policy (the rate floor left out). *)
Definition policy_sleeps (evs : list client_event) : list (sleep_reason * Q) :=
  omap (fun ev => match ev with
                  | CSleep RateFloor _ | CRequest _ _ => None
                  | CSleep why d => Some (why, d)
                  end) evs.

(** The sleep the policy takes after the answer [v] to attempt number
    [attempt] (counted from 0). *)
Definition sleep_after (attempt : nat) (v : verdict) (sl : sleep_reason * Q) : Prop :=
  match v with
  | RateLimited d => sl = (RetryAfter, inject_Z d)
  | Fails _ =>
      fst sl = Backoff
      /\ (inject_Z (2 ^ Z.of_nat attempt) <= snd sl)%Q
      /\ (snd sl < inject_Z (2 ^ Z.of_nat attempt) + 1)%Q
  | Succeeds _ | Aborts _ => False
  end.

(** The error of a request whose third answer is [v]. *)
Definition final_error (v : verdict) : exn :=
  match v with
  | Fails e | Aborts e => e
  | RateLimited _ | Succeeds _ => Exception "Max retries (3) exceeded"
  end.

(** The policy sleeps after every retryable answer, except that a
    request exception at the last attempt is raised at once. *)
Definition sleeps_after_attempt (attempt : nat) (v : verdict) : bool :=
  match v with
  | RateLimited _ => true
  | Fails _ => negb (attempt =? max_retries - 1)%nat
  | Succeeds _ | Aborts _ => false
  end.

(** The answers followed by a sleep, with their attempt numbers, among
    the answers [vs] to the attempts numbered from [attempt] on. *)
Fixpoint sleeping (attempt : nat) (vs : list verdict) : list (nat * verdict) :=
  match vs with
  | [] => []
  | v :: rest =>
      (if sleeps_after_attempt attempt v then [(attempt, v)] else [])
      ++ sleeping (S attempt) rest
  end.

(** What the last answer received decides. *)
Definition policy_result (last : verdict) : result response :=
  match last with
  | Succeeds r => Ok r
  | v => Raise (final_error v)
  end.

(** The first [n] answers the network gives to a client in state [cl]
    that keeps sending [params]. *)
Definition answers (net : network) (params : request_params) (cl : client) (n : nat)
  : list http_outcome :=
  map (fun i => session_request net (n_request cl + i) params) (seq 0 n).

End RetryPolicy.

Section EngineVocabulary.
Context `{PyBuiltins}.
Variable env : environment.
Variable cfg : config.

(** A predicate of the caller that is absent or answers false at every
    call. *)
Definition never_true (cb : option (nat -> result bool)) : Prop :=
  match cb with
  | None => True
  | Some f => forall k, f k = Ok false
  end.

(** A predicate of the caller that is absent or answers false at its
    [n]-th call. *)
Definition not_now (cb : option (nat -> result bool)) (n : nat) : Prop :=
  match cb with
  | None => True
  | Some f => f n = Ok false
  end.

(** The network answers every request with a success status and the page
    [server] holds for the cursor sent. *)
Definition reliable (server : option string -> deals_page) (n : network) : Prop :=
  forall k p, exists r,
    session_request n k p = Responded r
    /\ status_code r <> 429
    /\ (status_code r < 400 \/ 600 <= status_code r)
    /\ json r = server (p_after p).

(** The cursor [get_deals] sends for [after]. *)
Definition sent_cursor (after : option string) : option string :=
  if truthy after then after else None.

(** [chain server c pages]: asked with cursor [c], the server returns the
    first page of [pages]; each page's next cursor leads to the following
    page, and the last page has none. *)
Inductive chain (server : option string -> deals_page)
  : option string -> list deals_page -> Prop :=
| chain_last c page :
    server (sent_cursor c) = page ->
    next_cursor page = None ->
    chain server c [page]
| chain_next c page c' rest :
    server (sent_cursor c) = page ->
    next_cursor page = Some c' ->
    chain server (Some c') rest ->
    chain server c (page :: rest).

(** Every conversion of [transform_hubspot_deal] that is not inside a
    [try] succeeds on [deal]. *)
Definition convertible (deal : raw_deal) : bool :=
  is_ok (int_field (properties_of deal) "num_associated_contacts")
  && is_ok (float_field (properties_of deal) "hs_forecast_amount")
  && is_ok (float_field (properties_of deal) "hs_forecast_probability").

(** The qualifying rows of the records [deals] of page [page_no], in
    array order; the record at position [i] is stamped with the
    [(u + i)]-th UUID and the [(w + i)]-th clock reading. *)
Fixpoint rows_of_deals (deals : list raw_deal) (page_no : Z) (u w : nat)
  : list transformed_deal :=
  match deals with
  | [] => []
  | deal :: rest =>
      match transform_hubspot_deal deal (scan_id cfg) (tenant_id cfg) page_no
              (uuid4 env u) (datetime_now env w) with
      | Ok row =>
          (if qualifies cfg row then [row] else []) ++ rows_of_deals rest page_no (S u) (S w)
      | Raise _ => rows_of_deals rest page_no (S u) (S w)
      end
  end.

(** The qualifying rows of consecutive pages, the first of which is page
    number [page_no + 1]. *)
Fixpoint rows_of_pages (pages : list deals_page) (page_no : Z) (u w : nat)
  : list transformed_deal :=
  match pages with
  | [] => []
  | page :: rest =>
      rows_of_deals (results page) (page_no + 1) u w
      ++ rows_of_pages rest (page_no + 1)
           (u + length (results page)) (w + length (results page))
  end.

(** [iterates s tr s']: from the loop head in state [s], some number of
    complete iterations (each ending in the next loop head) produce the
    events [tr] and reach the loop head in state [s']. *)
Inductive iterates : state -> list event -> state -> Prop :=
| iterates_refl s : iterates s [] s
| iterates_step s evs s1 tr s2 :
    page_count s < page_limit ->
    loop_body env cfg s = (evs, s1, TryContinue) ->
    iterates s1 tr s2 ->
    iterates s (evs ++ tr) s2.

(** The first [n] iterations from the loop head in state [s], if each of
    them is entered and ends in the next loop head: their events and the
    state reached. *)
Fixpoint iterations (n : nat) (s : state) : option (list event * state) :=
  match n with
  | O => Some ([], s)
  | S n' =>
      if page_count s <? page_limit then
        match loop_body env cfg s with
        | (evs, s1, TryContinue) =>
            match iterations n' s1 with
            | Some (tr, s2) => Some (evs ++ tr, s2)
            | None => None
            end
        | _ => None
        end
      else None
  end.

(** The events of a record whose transformation gives [row]. *)
Definition record_events (deal : raw_deal) (row : transformed_deal) : list event :=
  EvTransform deal (Ok row) :: (if qualifies cfg row then [EvYield row] else []).

(** Only page-boundary checks that answered false. *)
Definition polls_only (evs : list event) : Prop :=
  Forall (fun ev => ev = EvCancelCheck (Ok false) \/ ev = EvPauseCheck (Ok false)) evs.

(** The periodic checkpoint saved after a page with next cursor
    [next], when the loop variables were those of [s] before the page
    and [page_records] records of the page were emitted. *)
Definition processing_checkpoint_after (s : state) (page_records : Z)
    (next : option string) : checkpoint :=
  {| cp_phase := PhProcessing;
     records_processed := total_records s + page_records;
     cursor := next;
     page_number := page_count s + 1;
     batch_size_of := batch_size;
     checkpoint_data :=
       ProcessingData (page_count s + 1) page_records (bool_decide (next <> None)) |}.

(** The final checkpoint after the last page. *)
Definition final_checkpoint_after (s : state) (page_records : Z) : checkpoint :=
  {| cp_phase := PhCompleted;
     records_processed := total_records s + page_records;
     cursor := None;
     page_number := page_count s + 1;
     batch_size_of := batch_size;
     checkpoint_data :=
       CompletedData (page_count s + 1) (total_records s + page_records) |}.

(** The completed checkpoint of a run that ends after [pages_done] pages
    and [records] records. *)
Definition completed_checkpoint (pages_done records : Z) : checkpoint :=
  {| cp_phase := PhCompleted;
     records_processed := records;
     cursor := None;
     page_number := pages_done;
     batch_size_of := batch_size;
     checkpoint_data := CompletedData pages_done records |}.

(** The seed a caller builds from a saved checkpoint: its cursor, its
    page number and its record count. *)
Definition resume_from_checkpoint (cp : checkpoint) : resume_state :=
  {| rs_cursor := cursor cp;
     rs_page_number := Some (page_number cp);
     rs_records_processed := Some (records_processed cp) |}.

(** [saved] is what saving [cp] leaves in the trace: one event if there
    is a checkpoint callback, nothing otherwise. *)
Definition saved_as (saved : list event) (cp : checkpoint) : Prop :=
  match checkpoint_callback env with
  | None => saved = []
  | Some _ => exists r, saved = [EvCheckpoint cp r]
  end.

(** What makes the iteration from the loop head [s] raise [e], read off
    the answers of the caller's predicates, of the client and of the
    transformation: a predicate raises at a boundary check; the fetch
    raises; or, after the page was fetched and its records [done] were
    processed, the pause predicate raises at the check before the next
    record, or the transformation of that record raises. *)
Inductive raises_in_iteration (s : state) (e : exn) : list raw_deal -> Prop :=
| cancel_check_raises f :
    check_cancel_callback env = Some f ->
    f (n_cancel s) = Raise e ->
    raises_in_iteration s e []
| pause_check_raises f :
    not_now (check_cancel_callback env) (n_cancel s) ->
    check_pause_callback env = Some f ->
    f (n_pause s) = Raise e ->
    raises_in_iteration s e []
| fetch_raises io cl :
    not_now (check_cancel_callback env) (n_cancel s) ->
    not_now (check_pause_callback env) (n_pause s) ->
    get_deals (net env) batch_size (after s) (properties cfg) (archived_filter cfg)
              (api_service s) = (io, cl, Raise e) ->
    raises_in_iteration s e []
| record_check_raises f io cl data done deal rest :
    not_now (check_cancel_callback env) (n_cancel s) ->
    check_pause_callback env = Some f ->
    (forall i, (i <= length done)%nat -> f (n_pause s + i)%nat = Ok false) ->
    f (n_pause s + S (length done))%nat = Raise e ->
    get_deals (net env) batch_size (after s) (properties cfg) (archived_filter cfg)
              (api_service s) = (io, cl, Ok data) ->
    results data = done ++ deal :: rest ->
    Forall (fun d => convertible d = true) done ->
    raises_in_iteration s e done
| transformation_raises io cl data done deal rest :
    not_now (check_cancel_callback env) (n_cancel s) ->
    (forall i, (i <= S (length done))%nat ->
               not_now (check_pause_callback env) (n_pause s + i)) ->
    get_deals (net env) batch_size (after s) (properties cfg) (archived_filter cfg)
              (api_service s) = (io, cl, Ok data) ->
    results data = done ++ deal :: rest ->
    Forall (fun d => convertible d = true) done ->
    transform_hubspot_deal deal (scan_id cfg) (tenant_id cfg) (page_count s + 1)
      (uuid4 env (n_uuid s + length done)) (datetime_now env (n_now s + length done))
    = Raise e ->
    raises_in_iteration s e done.

(** The run's last event is the checkpoint [cp]. *)
Definition ends_with_checkpoint (tr : list event) (cp : checkpoint) : Prop :=
  exists tr' r, tr = tr' ++ [EvCheckpoint cp r].

(** The event with the outcome of the checkpoint callback forgotten. *)
Definition forget_outcome (ev : event) : event :=
  match ev with
  | EvCheckpoint cp _ => EvCheckpoint cp (Ok tt)
  | _ => ev
  end.

(** Two results that differ at most in the recorded outcomes of the
    checkpoint callback. *)
Definition same_but_outcomes {A} (x y : list event * state * A) : Prop :=
  List.map forget_outcome (fst (fst x)) = List.map forget_outcome (fst (fst y))
  /\ snd (fst x) = snd (fst y) /\ snd x = snd y.

(** The environment with another checkpoint callback. *)
Definition with_checkpoint_callback (cb : nat -> checkpoint -> result unit)
  : environment :=
  {| check_cancel_callback := check_cancel_callback env;
     check_pause_callback := check_pause_callback env;
     checkpoint_callback := Some cb;
     net := net env;
     datetime_now := datetime_now env;
     uuid4 := uuid4 env |}.

End EngineVocabulary.

(** ** A concrete setting for the examples

    An instance of the built-ins that reads plain decimal literals, and
    servers, networks and callbacks to run the engine on. *)

Module Examples.

Definition digit_value (c : ascii) : option Z :=
  let n := Z.of_N (N_of_ascii c) in
  if (48 <=? n) && (n <=? 57) then Some (n - 48) else None.

Fixpoint digits_value (s : string) (acc : Z) : option Z :=
  match s with
  | EmptyString => Some acc
  | String c rest =>
      match digit_value c with
      | Some d => digits_value rest (10 * acc + d)
      | None => None
      end
  end.

(** A non-empty string of decimal digits. *)
Definition natural_of_str (s : string) : option Z :=
  match s with
  | EmptyString => None
  | _ => digits_value s 0
  end.

(** An optional sign and decimal digits. *)
Definition decimal_int (s : string) : option Z :=
  match s with
  | String "-" rest => Z.opp <$> natural_of_str rest
  | String "+" rest => natural_of_str rest
  | _ => natural_of_str s
  end.

(** The part before the first dot, and the part after it if there is
    one. *)
Fixpoint split_dot (s : string) : string * option string :=
  match s with
  | EmptyString => (EmptyString, None)
  | String c rest =>
      if Ascii.eqb c "."%char then (EmptyString, Some rest)
      else let '(a, b) := split_dot rest in (String c a, b)
  end.

Definition unsigned_decimal (s : string) : option Q :=
  match split_dot s with
  | (whole, None) => inject_Z <$> natural_of_str whole
  | (whole, Some frac) =>
      match natural_of_str whole, natural_of_str frac with
      | Some w, Some f =>
          Some (inject_Z w + inject_Z f / inject_Z (10 ^ Z.of_nat (String.length frac)))%Q
      | _, _ => None
      end
  end.

(** An optional sign, digits, and optionally a dot and digits. *)
Definition decimal_float (s : string) : option Q :=
  match s with
  | String "-" rest => Qopp <$> unsigned_decimal rest
  | String "+" rest => unsigned_decimal rest
  | _ => unsigned_decimal s
  end.

(** A date is accepted if it starts like [YYYY-MM-DD]. *)
Definition iso_date (s : string) : option string :=
  match s with
  | String y1 (String y2 (String y3 (String y4 (String "-"
      (String m1 (String m2 (String "-" (String d1 (String d2 _))))))))) =>
      match digits_value (String y1 (String y2 (String y3 (String y4
               (String m1 (String m2 (String d1 (String d2 EmptyString)))))))) 0 with
      | Some _ => Some s
      | None => None
      end
  | _ => None
  end.

#[export] Instance decimal_builtins : PyBuiltins := {|
  float := Q;
  datetime := string;
  float_of_str := decimal_float;
  float_div_100 := fun x => (x / 100)%Q;
  int_of_str := decimal_int;
  fromisoformat := iso_date;
  isoformat := fun d => d;
|}.

(** *** Deals *)

Definition deal (id stage : string) (extra : list (string * string)) : raw_deal :=
  {| rd_id := Some id;
     rd_properties := Some (list_to_map (("dealstage", stage) :: extra));
     rd_archived := None |}.

Definition won (id : string) : raw_deal :=
  deal id "closedwon" [("amount", "1250.50"); ("hs_deal_stage_probability", "100")].

Definition lost (id : string) : raw_deal :=
  deal id "closedlost" [("amount", "N/A")].

Definition bad_forecast (id : string) : raw_deal :=
  deal id "closedwon" [("hs_forecast_amount", "N/A")].

(** *** Servers

    The cursor of page [k >= 1] is the string of [k] letters [x]; the
    first page is the one asked for without a cursor. *)

Fixpoint cursor_of (k : nat) : string :=
  match k with
  | O => EmptyString
  | S k' => String "x" (cursor_of k')
  end.

Definition page_index (after : option string) : nat :=
  match after with
  | None => 0
  | Some c => String.length c
  end.

(** A server with [count] pages, page [k] holding [records k]. *)
Definition paged_server (records : nat -> list raw_deal) (count : nat)
    (after : option string) : deals_page :=
  let k := page_index after in
  {| results := records k;
     paging :=
       if (S k <? count)%nat
       then Some {| paging_next_of := Some {| next_after := Some (cursor_of (S k)) |} |}
       else None |}.

Definition ok_response (data : deals_page) : response :=
  {| status_code := 200; retry_after_header := None; json := data |}.

Definition rate_limited (retry_after : option string) : response :=
  {| status_code := 429; retry_after_header := retry_after;
     json := {| results := []; paging := None |} |}.

(** A network that always answers, at once. *)
Definition reliable_net (server : option string -> deals_page) : network :=
  {| session_request := fun _ p => Responded (ok_response (server (p_after p)));
     time_time := fun k => inject_Z (Z.of_nat k) |}.

(** A network whose requests number [from], [from+1], ... [from+len-1]
    fail with a connection error. *)
Definition flaky_net (server : option string -> deals_page) (from len : nat) : network :=
  {| session_request := fun k p =>
       if ((from <=? k) && (k <? from + len))%nat
       then RequestFailed "connection reset"
       else Responded (ok_response (server (p_after p)));
     time_time := fun k => inject_Z (Z.of_nat k) |}.

(** A network that answers 429 to its first [len] requests. *)
Definition throttled_net (server : option string -> deals_page) (len : nat)
    (retry_after : option string) : network :=
  {| session_request := fun k p =>
       if (k <? len)%nat then Responded (rate_limited retry_after)
       else Responded (ok_response (server (p_after p)));
     time_time := fun k => (inject_Z (Z.of_nat k) + (1 # 4))%Q |}.

(** *** Callbacks, environments, configuration *)

Definition never : nat -> result bool := fun _ => Ok false.
Definition at_call (n : nat) : nat -> result bool := fun k => Ok (k =? n)%nat.
Definition accepting : nat -> checkpoint -> result unit := fun _ _ => Ok tt.
Definition failing : nat -> checkpoint -> result unit :=
  fun _ _ => Raise (Exception "checkpoint store unavailable").

Definition environment_of (cancel pause : option (nat -> result bool))
    (save : option (nat -> checkpoint -> result unit)) (n : network) : environment :=
  {| check_cancel_callback := cancel;
     check_pause_callback := pause;
     checkpoint_callback := save;
     net := n;
     datetime_now := fun k => "2024-01-01T00:00:00+00:00";
     uuid4 := fun k => cursor_of k |}.

Definition only_won : config :=
  {| tenant_id := Some "tenant";
     scan_id := "scan";
     properties := None;
     archived_filter := false;
     deal_stages := Some ["closedwon"];
     pipelines := None |}.

Definition fresh_client : client :=
  {| n_request := 0; n_time := 0; last_request_time := 0 |}.

Definition list_params : request_params :=
  deals_params 100 None None false.

(** Page [k] holds two deals, one won and one lost. *)
Definition two_per_page (k : nat) : list raw_deal :=
  [won (cursor_of k); lost (cursor_of k)].

(** The second record of the second page has a forecast amount that is
    not a number. *)
Definition second_page_bad (k : nat) : list raw_deal :=
  if (k =? 1)%nat then [won "a"; bad_forecast "b"; won "c"] else [won "d"].

(** Empty pages, except that page 1000 holds one deal. *)
Definition only_last_page (k : nat) : list raw_deal :=
  if (k =? 1000)%nat then [won "last"] else [].

(** The cursor with which page [k] is asked for. *)
Definition cursor_at (k : nat) : option string :=
  match k with
  | O => None
  | S _ => Some (cursor_of k)
  end.

(** The pages [k], [k+1], ... of a server with [count] pages. *)
Definition pages_from (records : nat -> list raw_deal) (count k : nat)
  : list deals_page :=
  map (fun i => paged_server records count (cursor_at i)) (seq k (count - k)).

Definition pages_of (records : nat -> list raw_deal) (count : nat) : list deals_page :=
  pages_from records count 0.

(** Nothing interrupts: no predicates, a callback that accepts every
    checkpoint, a network that always answers. *)
Definition quiet_env (server : option string -> deals_page) : environment :=
  environment_of None None (Some accepting) (reliable_net server).

(** The state in which a fresh run starts. *)
Definition fresh : state := initial_state None fresh_client.

(** The events of the first [n] iterations from [s] and the loop head
    they reach. *)
Definition head_after (env : environment) (cfg : config) (n : nat) (s : state)
  : list event * state :=
  default ([], s) (iterations env cfg n s).

(** The first [n] iterations from [s] are all entered and all end in the
    next loop head. *)
Definition reaches (env : environment) (cfg : config) (n : nat) (s : state) : bool :=
  match iterations env cfg n s with
  | Some _ => true
  | None => false
  end.

(** All records of all pages convert. *)
Definition all_convertible (pages : list deals_page) : bool :=
  forallb (fun p => forallb convertible (results p)) pages.

(** *** A run of seven pages, looked at around its fifth page *)

Definition seven_pages : environment := quiet_env (paged_server two_per_page 7).

(** The first four iterations of a fresh run. *)
Definition four_pages_in : list event * state := head_after seven_pages only_won 4 fresh.

(** The fifth iteration. *)
Definition fifth_iteration : list event * state * try_outcome :=
  loop_body seven_pages only_won (snd four_pages_in).

(** The periodic checkpoint the fifth iteration saves. *)
Definition fifth_page_checkpoint : checkpoint :=
  {| cp_phase := PhProcessing;
     records_processed := 5;
     cursor := Some (cursor_of 5);
     page_number := 5;
     batch_size_of := batch_size;
     checkpoint_data := ProcessingData 5 1 true |}.

(** *** Runs of three pages that something interrupts at the second page *)

Definition three_pages : option string -> deals_page := paged_server two_per_page 3.

(** Both predicates answer true at the check that opens the second
    iteration: the cancel predicate at its second call, the pause
    predicate at its fourth (it was asked once before the first page and
    once before each of its two records). *)
Definition cancel_env : environment :=
  environment_of (Some (at_call 1)) (Some (at_call 3)) (Some accepting)
    (reliable_net three_pages).

Definition before_cancel : list event * state := head_after cancel_env only_won 1 fresh.

(** The three attempts to fetch the second page meet a connection
    error. *)
Definition flaky_env : environment :=
  environment_of (Some never) (Some never) (Some accepting) (flaky_net three_pages 1 3).

Definition before_failure : list event * state := head_after flaky_env only_won 1 fresh.

Definition connection_reset : exn := RequestException "connection reset".

(** The second record of the second page does not convert. *)
Definition bad_env : environment := quiet_env (paged_server second_page_bad 3).

Definition before_bad_page : list event * state := head_after bad_env only_won 1 fresh.

Definition not_a_number : exn := ValueError "could not convert string to float: N/A".

(** The pause predicate answers true at its sixth call, the check before
    the second record of the second page. *)
Definition pause_env : environment :=
  environment_of None (Some (at_call 5)) (Some accepting) (reliable_net three_pages).

Definition before_pause : list event * state := head_after pause_env only_won 1 fresh.

(** The fetch of the second page in that run. *)
Definition paused_page_fetch : list client_event * client * result deals_page :=
  get_deals (net pause_env) batch_size (after (snd before_pause)) (properties only_won)
            (archived_filter only_won) (api_service (snd before_pause)).

(** *** Networks that answer 429 *)

Definition empty_server : option string -> deals_page := paged_server (fun _ => []) 1.



(** *** A run of five pages *)

Definition five_pages : environment := quiet_env (paged_server two_per_page 5).

(** The periodic checkpoint saved after the fifth and last page. *)
Definition last_page_checkpoint : checkpoint :=
  {| cp_phase := PhProcessing;
     records_processed := 5;
     cursor := None;
     page_number := 5;
     batch_size_of := batch_size;
     checkpoint_data := ProcessingData 5 1 false |}.

(** *** Runs without a checkpoint callback *)

(** The same environment when the caller supplies no checkpoint
    callback, the default of [create_data_source]. *)
Definition without_callback (env : environment) : environment :=
  {| check_cancel_callback := check_cancel_callback env;
     check_pause_callback := check_pause_callback env;
     checkpoint_callback := None;
     net := net env;
     datetime_now := datetime_now env;
     uuid4 := uuid4 env |}.

(** *** A chain of 1001 pages *)

Definition long_chain : environment := quiet_env (paged_server only_last_page 1001).

(** A seed whose page number is negative. *)
Definition negative_seed : resume_state :=
  {| rs_cursor := None; rs_page_number := Some (-1); rs_records_processed := Some 0 |}.

End Examples.

(** ** Further vocabulary *)

(** The clock of the network never runs backwards. *)
Definition clock_monotone (net : network) : Prop :=
  forall i j, (i <= j)%nat -> (time_time net i <= time_time net j)%Q.

(** The client's record of its last request is not ahead of the clock. *)
Definition clock_ahead (net : network) (cl : client) : Prop :=
  (last_request_time cl <= time_time net (n_time cl))%Q.

(** A sleep for the rate floor is positive and no longer than the
    interval between two requests, a fifteenth of a second. *)
Definition floor_sleep_bounded (ev : client_event) : Prop :=
  forall d, ev = CSleep RateFloor d -> (0 < d)%Q /\ (d <= request_interval)%Q.

Section RowVocabulary.
Context `{PyBuiltins}.
Variable env : environment.
Variable cfg : config.

(** [row] is the transformation of one of the records [deals], stamped
    with the page number [page_no], and it passes both filters. *)
Definition row_of (deals : list raw_deal) (page_no : Z) (row : transformed_deal) : Prop :=
  qualifies cfg row = true
  /\ exists deal u w,
       In deal deals
       /\ transform_hubspot_deal deal (scan_id cfg) (tenant_id cfg) page_no
            (uuid4 env u) (datetime_now env w) = Ok row.

(** What a run guarantees of a row it emits. *)
Definition well_emitted (first_page : Z) (row : transformed_deal) : Prop :=
  qualifies cfg row = true
  /\ _scan_id row = scan_id cfg
  /\ _tenant_id row = tenant_id cfg
  /\ first_page < _page_number row <= page_limit
  /\ exists deal u w,
       transform_hubspot_deal deal (scan_id cfg) (tenant_id cfg) (_page_number row)
         (uuid4 env u) (datetime_now env w) = Ok row.

End RowVocabulary.

Section CheckpointVocabulary.
Context `{PyBuiltins}.

(** What a run guarantees of a processing checkpoint it saves: its page
    number is a multiple of five between the seed's page number and the
    ceiling, and it says that more pages follow exactly when it carries
    a cursor. *)
Definition periodic (first_page : Z) (cp : checkpoint) : Prop :=
  cp_phase cp = PhProcessing ->
  page_number cp mod checkpoint_interval = 0
  /\ first_page < page_number cp <= page_limit
  /\ batch_size_of cp = batch_size
  /\ exists k, 0 <= k
       /\ checkpoint_data cp
          = ProcessingData (page_number cp) k (bool_decide (cursor cp <> None)).

End CheckpointVocabulary.

Section FilterVocabulary.
Context `{PyBuiltins}.

(** What a filter list lets through: everything if the list is absent
    or empty, otherwise the values present in the list. *)
Definition allows (allow : option (list string)) (value : option string) : Prop :=
  match allow with
  | Some (a :: l) => exists v, value = Some v /\ In v (a :: l)
  | Some [] | None => True
  end.

(** The same configuration with no stage filter and no pipeline
    filter. *)
Definition without_filters (cfg : config) : config :=
  {| tenant_id := tenant_id cfg;
     scan_id := scan_id cfg;
     properties := properties cfg;
     archived_filter := archived_filter cfg;
     deal_stages := None;
     pipelines := None |}.

End FilterVocabulary.

(** ** [HubSpotAPIService.get_all_deals]

    The generator that pages through all deals, called without
    additional keyword filters and consumed to its end.  Its counters
    [page_count] and [total_deals] are only logged and are left out. *)

(** What can leave [get_all_deals]: an exception of [get_deals], or the
    [KeyError] of [paging['next']['after']]. *)
Inductive listing_exn : Type :=
| ClientError (e : exn)
| KeyError (key : string).

Inductive listing_event : Type :=
| LFetch (after : option string) (io : list client_event) (r : result deals_page)
| LYield (deal : raw_deal).

(** How the generator ends: the loop is left by [break], an exception
    leaves it, or it is still running when the fuel is used up. *)
Inductive listing_outcome : Type :=
| ListingDone
| ListingFailed (e : listing_exn)
| ListingOutOfFuel.

Section Listing.
Context `{PyBuiltins}.
Variable net : network.
Variable properties : option (list string).
Variable archived : bool.

(** [while True: ...], from the iteration that asks with [after]. *)
Fixpoint get_all_deals_from (fuel : nat) (after : option string) (cl : client)
  : list listing_event * client * listing_outcome :=
  match fuel with
  | O => ([], cl, ListingOutOfFuel)
  | S fuel' =>
      let '(io, cl1, response) := get_deals net 100 after properties archived cl in
      let fetch := LFetch after io response in
      match response with
      | Raise e => ([fetch], cl1, ListingFailed (ClientError e))
      | Ok data =>
          match results data with
          | [] => ([fetch], cl1, ListingDone)
          | _ :: _ =>
              let emitted := fetch :: List.map LYield (results data) in
              match paging data with
              | None => (emitted, cl1, ListingDone)
              | Some p =>
                  match paging_next_of p with
                  | None => (emitted, cl1, ListingDone)
                  | Some next =>
                      match next_after next with
                      | None => (emitted, cl1, ListingFailed (KeyError "after"))
                      | Some a =>
                          let '(evs, cl2, out) :=
                            get_all_deals_from fuel' (Some a) cl1 in
                          (emitted ++ evs, cl2, out)
                      end
                  end
              end
          end
      end
  end.

(** [get_all_deals]: [after = None] at the start. *)
Definition get_all_deals (fuel : nat) (cl : client)
  : list listing_event * client * listing_outcome :=
  get_all_deals_from fuel None cl.

End Listing.

(** The deals a listing yields, and the cursors it asks with. *)
Definition listed (evs : list listing_event) : list raw_deal :=
  omap (fun ev => match ev with LYield d => Some d | LFetch _ _ _ => None end) evs.

Definition asked (evs : list listing_event) : list (option string) :=
  omap (fun ev => match ev with LFetch c _ _ => Some c | LYield _ => None end) evs.

(** The page has a [next] entry under [paging]. *)
Definition next_entry (page : deals_page) : option paging_next :=
  match paging page with
  | Some p => paging_next_of p
  | None => None
  end.

(** [listing_chain server c pages]: asked with [c], the server returns
    the first page of [pages]; each page but the last has records and a
    [next] entry whose [after] leads to the following page; the last
    page has no records, or no [next] entry. *)
Inductive listing_chain (server : option string -> deals_page)
  : option string -> list deals_page -> Prop :=
| listing_empty c page :
    server (sent_cursor c) = page ->
    results page = [] ->
    listing_chain server c [page]
| listing_last c page :
    server (sent_cursor c) = page ->
    next_entry page = None ->
    listing_chain server c [page]
| listing_next c page next a rest :
    server (sent_cursor c) = page ->
    results page <> [] ->
    next_entry page = Some next ->
    next_after next = Some a ->
    listing_chain server (Some a) rest ->
    listing_chain server c (page :: rest).

(** ** The service as [create_data_source] sets it up

    [_make_request(method, url, **kwargs)] serves every endpoint.  Above
    it is embedded for the requests of [get_deals], which are described
    by their [request_params].  Here it is embedded for any request, so
    that [validate_credentials] and [create_data_source] can be stated;
    the requests of [get_deals] are the instance [listing_request]. *)

(** The value of a query parameter. *)
Inductive param_value : Type :=
| PInt (n : Z)
| PStr (s : string).

(** What [session.request(method, url, params=...)] sends, with the
    [Authorization] header the session adds. *)
Record http_request : Type := {
  rq_method : string;
  rq_url : string;
  rq_authorization : string;
  rq_params : list (string * param_value);
}.

(** The outside of the session: the outcome of the [k]-th request and
    the value of the [k]-th call of [time.time()]. *)
Record wire : Type := {
  wire_request : nat -> http_request -> http_outcome;
  wire_time : nat -> Q;
}.

(** What a request does that can be observed. *)
Inductive wire_event : Type :=
| WSleep (why : sleep_reason) (seconds : Q)
| WRequest (q : http_request) (outcome : http_outcome).

(** The fields [__init__] sets from its arguments. *)
Record service : Type := {
  base_url : string;
  access_token : string;
}.

(** [base_url.rstrip('/')] *)
Fixpoint rstrip_slash (s : string) : string :=
  match s with
  | EmptyString => EmptyString
  | String c rest =>
      match rstrip_slash rest with
      | EmptyString => if Ascii.eqb c "/"%char then EmptyString else String c EmptyString
      | kept => String c kept
      end
  end.

Definition default_base_url : string := "https://api.hubapi.com".

(** [HubSpotAPIService.__init__] *)
Definition new_service (access_token base_url : string) : service :=
  {| base_url := rstrip_slash base_url; access_token := access_token |}.

(** The mutable part of a new instance: no request made, no clock
    reading taken, [last_request_time = 0]. *)
Definition new_client : client :=
  {| n_request := 0; n_time := 0; last_request_time := 0 |}.

(** [f"{self.base_url}/crm/v3/objects/deals"] *)
Definition deals_url (svc : service) : string :=
  base_url svc +:+ "/crm/v3/objects/deals".

(** The header [f'Bearer {access_token}']. *)
Definition authorization (svc : service) : string :=
  "Bearer " +:+ access_token svc.

(** The request [get_deals] makes for the parameters [p], the entries of
    [params] in the order they are set. *)
Definition listing_request (svc : service) (p : request_params) : http_request :=
  {| rq_method := "GET";
     rq_url := deals_url svc;
     rq_authorization := authorization svc;
     rq_params :=
       [("limit", PInt (p_limit p)); ("archived", PStr (p_archived p))]
       ++ match p_after p with
          | Some a => [("after", PStr a)]
          | None => []
          end
       ++ [("properties", PStr (p_properties p))] |}.

(** The request [validate_credentials] makes: [params = {'limit': 1}]. *)
Definition validation_request (svc : service) : http_request :=
  {| rq_method := "GET";
     rq_url := deals_url svc;
     rq_authorization := authorization svc;
     rq_params := [("limit", PInt 1)] |}.

(** The network as the listing requests of the service see it. *)
Definition network_of (w : wire) (svc : service) : network :=
  {| session_request := fun k p => wire_request w k (listing_request svc p);
     time_time := wire_time w |}.

(** The network as the repetitions of one request [q] see it. *)
Definition network_for (w : wire) (q : http_request) : network :=
  {| session_request := fun k _ => wire_request w k q;
     time_time := wire_time w |}.

(** A client event as an event of the wire, for the request [q]. *)
Definition on_wire (q : http_request) (ev : client_event) : wire_event :=
  match ev with
  | CSleep why d => WSleep why d
  | CRequest _ o => WRequest q o
  end.

Module Service.
Section Service.
Context `{PyBuiltins}.
Variable w : wire.

(** [_wait_for_rate_limit] *)
Definition _wait_for_rate_limit (cl : client) : list wire_event * client :=
  let current_time := wire_time w (n_time cl) in
  let time_since_last := (current_time - last_request_time cl)%Q in
  let slept :=
    if Qlt_le_dec time_since_last request_interval
    then [WSleep RateFloor (request_interval - time_since_last)%Q]
    else [] in
  (slept,
   {| n_request := n_request cl;
      n_time := S (S (n_time cl));
      last_request_time := wire_time w (S (n_time cl)) |}).

(** The body of [for attempt in range(max_retries)] of [_make_request],
    for the request [q]. *)
Fixpoint request_attempts (attempts : list nat) (q : http_request) (cl : client)
  : list wire_event * client * result response :=
  match attempts with
  | [] => ([], cl, Raise (Exception "Max retries (3) exceeded"))
  | attempt :: rest =>
      let '(waited, cl1) := _wait_for_rate_limit cl in
      let outcome := wire_request w (n_request cl1) q in
      let cl2 := tick_request cl1 in
      let sent := waited ++ [WRequest q outcome] in
      let on_request_exception (e : exn) :=
        if (attempt =? max_retries - 1)%nat then (sent, cl2, Raise e)
        else
          let pause := WSleep Backoff (wait_time attempt (wire_time w (n_time cl2))) in
          let '(evs, cl3, res) := request_attempts rest q (tick_time cl2) in
          (sent ++ pause :: evs, cl3, res) in
      match outcome with
      | RequestFailed msg => on_request_exception (RequestException msg)
      | Responded r =>
          match _handle_rate_limit_response r with
          | Raise e => (sent, cl2, Raise e)
          | Ok (true, slept) =>
              let '(evs, cl3, res) := request_attempts rest q cl2 in
              (sent ++ List.map (on_wire q) slept ++ evs, cl3, res)
          | Ok (false, _) =>
              match raise_for_status r with
              | Raise e => on_request_exception e
              | Ok _ => (sent, cl2, Ok r)
              end
          end
      end
  end.

(** [_make_request] *)
Definition _make_request (q : http_request) (cl : client)
  : list wire_event * client * result response :=
  request_attempts (seq 0 max_retries) q cl.

(** [validate_credentials]: the token is valid when the response has
    status 200; a request exception is logged and gives [False]; any
    other exception is not caught. *)
Definition validate_credentials (svc : service) (cl : client)
  : list wire_event * client * result bool :=
  let '(evs, cl', res) := _make_request (validation_request svc) cl in
  match res with
  | Ok response => (evs, cl', Ok (status_code response =? 200))
  | Raise e =>
      if is_request_exception e then (evs, cl', Ok false) else (evs, cl', Raise e)
  end.

End Service.
End Service.

(** The requests of a wire trace, in order. *)
Definition wire_requests (evs : list wire_event) : list (http_request * http_outcome) :=
  omap (fun ev => match ev with WRequest q o => Some (q, o) | WSleep _ _ => None end) evs.

(** *** [create_data_source] *)








Section DataSource.
Context `{PyBuiltins}.
Variable w : wire.


End DataSource.

(** ** Further example data *)

Module FurtherExamples.
Import Examples.

(** A value of [Retry-After] in its date form. *)
Definition http_date : string := "Wed, 21 Oct 2015 07:28:00 GMT".

(** One 429 whose [Retry-After] is a date, then the page. *)
Definition throttled_until_date : network :=
  throttled_net empty_server 1 (Some http_date).

(** The pause predicate answers true at its fourth call, the check
    that opens the second iteration; there is no cancel predicate. *)
Definition boundary_pause_env : environment :=
  environment_of None (Some (at_call 3)) (Some accepting) (reliable_net three_pages).

Definition before_boundary_pause : list event * state :=
  head_after boundary_pause_env only_won 1 fresh.





(** A server that rejects the token: every answer is a 401. *)
Definition unauthorized : response :=
  {| status_code := 401; retry_after_header := None;
     json := {| results := []; paging := None |} |}.

Definition rejecting_wire : wire :=
  {| wire_request := fun _ _ => Responded unauthorized;
     wire_time := fun k => inject_Z (Z.of_nat k) |}.

Definition example_service : service := new_service "pat-na1-example" default_base_url.

End FurtherExamples.

(** ** Tactics of the proofs *)

(** Destructs the scrutinee of the first binding or test in [H]. *)
Ltac break_let H :=
  match type of H with
  | context [let '(_, _) := ?x in _] => destruct x as [? ?] eqn:?
  | context [match ?x with (_, _) => _ end] => destruct x as [? ?] eqn:?
  | context [match ?x with Ok _ => _ | Raise _ => _ end] => destruct x as [[|]|?] eqn:?
  | context [match ?x with Ok _ => _ | Raise _ => _ end] => destruct x as [?|?] eqn:?
  | context [if ?x then _ else _] => destruct x eqn:?
  | context [match ?x with Some _ => _ | None => _ end] => destruct x as [?|] eqn:?
  end.

Ltac pair_inv H := injection H as ? ? ?; subst.

(** Closes an equation between closed terms by evaluating both sides. *)
Ltac evaluate :=
  lazymatch goal with
  | |- ?l = ?r => exact (eq_refl r <: l = r)
  end.

(** The same for a conjunction of such equations. *)
Ltac evaluate_each :=
  lazymatch goal with
  | |- _ /\ _ => split; [evaluate | evaluate_each]
  | |- _ => evaluate
  end.

(** * Facts about the API client *)

Section ClientFacts.
Context `{PyBuiltins}.
Variable net : network.

Lemma wait_for_rate_limit_requests cl :
  n_request (snd (_wait_for_rate_limit net cl)) = n_request cl
  /\ requests_sent (fst (_wait_for_rate_limit net cl)) = []
  /\ policy_sleeps (fst (_wait_for_rate_limit net cl)) = [].
Proof.
  unfold _wait_for_rate_limit; cbn.
  destruct (Qlt_le_dec _ _); cbn; auto.
Qed.

Lemma handle_rate_limit_verdict r :
  _handle_rate_limit_response r =
  match verdict_of (Responded r) with
  | RateLimited d => Ok (true, [CSleep RetryAfter (inject_Z d)])
  | Aborts e => Raise e
  | Succeeds _ | Fails _ => Ok (false, [])
  end.
Proof.
  unfold _handle_rate_limit_response, verdict_of, time_sleep.
  destruct (status_code r =? 429) eqn:E429.
  - destruct (retry_after_header r) as [s|]; cbn; [|reflexivity].
    destruct (int_of_str s) as [n|]; [|reflexivity].
    destruct ((n <? - max_sleep_seconds) || (max_sleep_seconds <? n));
      destruct (n <? 0); reflexivity.
  - destruct ((400 <=? status_code r) && (status_code r <? 600)); reflexivity.
Qed.

Lemma raise_for_status_verdict r :
  (status_code r =? 429) = false ->
  raise_for_status r =
  match verdict_of (Responded r) with
  | Fails e => Raise e
  | _ => Ok tt
  end.
Proof.
  intros E. unfold raise_for_status, verdict_of. rewrite E.
  destruct ((400 <=? status_code r) && (status_code r <? 600)); reflexivity.
Qed.

(** One attempt, read through the verdict on its answer. *)
Lemma request_attempts_step attempt rest params cl :
  let waited := fst (_wait_for_rate_limit net cl) in
  let cl1 := snd (_wait_for_rate_limit net cl) in
  let o := session_request net (n_request cl) params in
  let cl2 := tick_request cl1 in
  let sent := waited ++ [CRequest params o] in
  request_attempts net (attempt :: rest) params cl =
  match verdict_of o with
  | Succeeds r => (sent, cl2, Ok r)
  | Aborts e => (sent, cl2, Raise e)
  | RateLimited d =>
      let '(evs, cl3, res) := request_attempts net rest params cl2 in
      (sent ++ [CSleep RetryAfter (inject_Z d)] ++ evs, cl3, res)
  | Fails e =>
      if (attempt =? max_retries - 1)%nat then (sent, cl2, Raise e)
      else
        let '(evs, cl3, res) := request_attempts net rest params (tick_time cl2) in
        (sent ++ [CSleep Backoff (wait_time attempt (time_time net (n_time cl2)))] ++ evs,
         cl3, res)
  end.
Proof.
  cbn zeta.
  destruct (wait_for_rate_limit_requests cl) as (Hn & _ & _).
  cbn [request_attempts].
  destruct (_wait_for_rate_limit net cl) as [waited cl1] eqn:Ew. cbn [fst snd] in *.
  rewrite Hn.
  destruct (session_request net (n_request cl) params) as [r|msg] eqn:Eo.
  - rewrite handle_rate_limit_verdict.
    destruct (status_code r =? 429) eqn:E429.
    + unfold verdict_of. rewrite E429.
      destruct (retry_after_header r) as [s|]; [|reflexivity].
      destruct (int_of_str s) as [n|]; [|reflexivity].
      destruct ((n <? - max_sleep_seconds) || (max_sleep_seconds <? n));
      destruct (n <? 0); reflexivity.
    + rewrite (raise_for_status_verdict r E429).
      unfold verdict_of. rewrite E429.
      destruct ((400 <=? status_code r) && (status_code r <? 600)); reflexivity.
  - reflexivity.
Qed.
End ClientFacts.

Section Backoff.
Context `{PyBuiltins}.
Variable net : network.

Lemma fractional_part_bounds t :
  (0 <= fractional_part t)%Q /\ (fractional_part t < 1)%Q.
Proof.
  unfold fractional_part. split.
  - pose proof (Qfloor_le t) as Hle.
    apply (Qplus_le_l _ _ (inject_Z (Qfloor t))). ring_simplify. exact Hle.
  - pose proof (Qlt_floor t) as Hlt.
    rewrite inject_Z_plus in Hlt.
    apply (Qplus_lt_l _ _ (inject_Z (Qfloor t))). ring_simplify.
    exact Hlt.
Qed.

Lemma wait_time_bounds attempt t :
  (inject_Z (2 ^ Z.of_nat attempt) <= wait_time attempt t)%Q
  /\ (wait_time attempt t < inject_Z (2 ^ Z.of_nat attempt) + 1)%Q.
Proof.
  destruct (fractional_part_bounds t) as [H0 H1]. unfold wait_time. split.
  - rewrite <- (Qplus_0_r (inject_Z _)) at 1. apply Qplus_le_r. exact H0.
  - apply Qplus_lt_r. exact H1.
Qed.
End Backoff.

Section RetryPolicyFacts.
Context `{PyBuiltins}.
Variable net : network.
Variable params : request_params.

Lemma answers_S cl cl' m :
  n_request cl' = S (n_request cl) ->
  answers net params cl (S m)
  = session_request net (n_request cl) params :: answers net params cl' m.
Proof.
  intros E. unfold answers. cbn [seq List.map].
  rewrite Nat.add_0_r. f_equal.
  rewrite <- seq_shift, List.map_map. apply List.map_ext. intros i.
  rewrite E. f_equal. lia.
Qed.

Lemma requests_sent_app evs evs' :
  requests_sent (evs ++ evs') = requests_sent evs ++ requests_sent evs'.
Proof. apply omap_app. Qed.

Lemma policy_sleeps_app evs evs' :
  policy_sleeps (evs ++ evs') = policy_sleeps evs ++ policy_sleeps evs'.
Proof. apply omap_app. Qed.

Lemma request_attempts_policy n : forall a cl k,
  (a + n = max_retries)%nat -> (k <= n)%nat ->
  Forall retryable (List.map verdict_of (answers net params cl k)) ->
  ((k < n)%nat ->
   ~ retryable (verdict_of (session_request net (n_request cl + k) params))) ->
  let '(evs, cl', res) := request_attempts net (seq a n) params cl in
  requests_sent evs = List.map (pair params) (answers net params cl (Nat.min (S k) n))
  /\ res = match n with
           | O => Raise (Exception "Max retries (3) exceeded")
           | S n' => policy_result
                       (verdict_of (session_request net (n_request cl + Nat.min k n') params))
           end
  /\ Forall2 (fun iv sl => sleep_after (fst iv) (snd iv) sl)
             (sleeping a (List.map verdict_of (answers net params cl k)))
             (policy_sleeps evs)
  /\ n_request cl' = (n_request cl + Nat.min (S k) n)%nat.
Proof.
  induction n as [|n IH]; intros a cl k Ha Hk Hretry Hstop.
  - assert (k = 0)%nat as -> by lia. cbn. repeat split; auto; constructor.
  - cbn [seq]. rewrite request_attempts_step.
    destruct (wait_for_rate_limit_requests net cl) as (Hn & Hreq & Hsl).
    set (waited := fst (_wait_for_rate_limit net cl)) in *.
    set (cl1 := snd (_wait_for_rate_limit net cl)) in *.
    cbn zeta.
    assert (Hcl2 : n_request (tick_request cl1) = S (n_request cl)) by (cbn; congruence).
    assert (Hcl2' : n_request (tick_time (tick_request cl1)) = S (n_request cl))
      by (cbn; congruence).
    destruct k as [|k].
    + (* the first answer is final *)
      specialize (Hstop ltac:(lia)). rewrite Nat.add_0_r in Hstop.
      rewrite Nat.add_0_r.
      change (Nat.min 1 (S n)) with 1%nat. cbn [answers seq List.map sleeping].
      rewrite Nat.add_0_r.
      destruct (verdict_of (session_request net (n_request cl) params)) eqn:Ev;
        cbn in Hstop; try tauto;
        rewrite requests_sent_app, policy_sleeps_app, Hreq, Hsl; cbn;
        repeat split; auto; try constructor; lia.
    + (* the first answer is retryable *)
      rewrite (answers_S cl (tick_request cl1) k Hcl2) in Hretry.
      cbn [List.map] in Hretry. apply Forall_cons in Hretry as [Hv0 Hretry].
      rewrite (answers_S cl (tick_request cl1) k Hcl2).
      change (Nat.min (S (S k)) (S n)) with (S (Nat.min (S k) n)).
      rewrite (answers_S cl (tick_request cl1) _ Hcl2).
      cbn [List.map sleeping].
      assert (Hstop' : (k < n)%nat ->
                ~ retryable (verdict_of
                    (session_request net (n_request (tick_request cl1) + k) params))).
      { intros Hlt. rewrite Hcl2.
        replace (S (n_request cl) + k)%nat with (n_request cl + S k)%nat by lia.
        apply Hstop. lia. }
      destruct (verdict_of (session_request net (n_request cl) params)) eqn:Ev;
        cbn in Hv0; try tauto.
      * (* 429 *)
        specialize (IH (S a) (tick_request cl1) k ltac:(lia) ltac:(lia) Hretry Hstop').
        destruct (request_attempts net (seq (S a) n) params (tick_request cl1))
          as [[evs cl3] res].
        destruct IH as (IH1 & IH2 & IH3 & IH4).
        rewrite !requests_sent_app, !policy_sleeps_app, Hreq, Hsl. cbn -[Nat.min].
        rewrite IH1, IH4, Hcl2. repeat split; try lia.
        -- subst res. destruct n as [|n'].
           ++ cbn. rewrite Nat.add_0_r, Ev. reflexivity.
           ++ rewrite Hcl2. f_equal. f_equal. f_equal. lia.
        -- constructor; [reflexivity | exact IH3].
      * (* request exception *)
        unfold sleeps_after_attempt.
        destruct (a =? max_retries - 1)%nat eqn:Ea.
        -- pose proof Ea as Ea'. apply Nat.eqb_eq in Ea'.
           assert (n = 0)%nat as -> by (unfold max_retries in *; lia).
           assert (k = 0)%nat as -> by lia.
           rewrite requests_sent_app, policy_sleeps_app, Hreq, Hsl. cbn.
           rewrite Nat.add_0_r, Ev. repeat split; auto; try constructor; lia.
        -- assert (Hretry' : Forall retryable
                     (List.map verdict_of (answers net params (tick_time (tick_request cl1)) k))).
           { unfold answers in *. rewrite Hcl2'. rewrite Hcl2 in Hretry. exact Hretry. }
           assert (Hstop'' : (k < n)%nat ->
                ~ retryable (verdict_of
                    (session_request net (n_request (tick_time (tick_request cl1)) + k) params))).
           { rewrite Hcl2', <- Hcl2. exact Hstop'. }
           specialize (IH (S a) (tick_time (tick_request cl1)) k
                          ltac:(lia) ltac:(lia) Hretry' Hstop'').
           destruct (request_attempts net (seq (S a) n) params (tick_time (tick_request cl1)))
             as [[evs cl3] res].
           destruct IH as (IH1 & IH2 & IH3 & IH4).
           rewrite !requests_sent_app, !policy_sleeps_app, Hreq, Hsl. cbn -[Nat.min].
           rewrite IH1, IH4. cbn [tick_time n_request]. rewrite Hcl2.
           assert (Eans : answers net params (tick_time (tick_request cl1))
                          = answers net params (tick_request cl1)).
           { unfold answers. rewrite Hcl2', Hcl2. reflexivity. }
           rewrite Eans in *.
           repeat split; try lia.
           ++ subst res. destruct n as [|n'].
              ** apply Nat.eqb_neq in Ea. unfold max_retries in *. lia.
              ** rewrite Hcl2'. f_equal. f_equal. f_equal. lia.
           ++ constructor; [|exact IH3].
              cbn. split; [reflexivity|]. apply wait_time_bounds.
Qed.
End RetryPolicyFacts.

(** * Facts about the extraction engine *)

(** ** The extraction engine: one iteration *)

Section EngineFacts.
Context `{PyBuiltins}.
Variable env : environment.
Variable cfg : config.

Lemma same_vars_refl s : same_vars s s.
Proof. repeat split. Qed.

Lemma same_vars_trans s1 s2 s3 :
  same_vars s1 s2 -> same_vars s2 s3 -> same_vars s1 s3.
Proof. unfold same_vars. intuition congruence. Qed.

Lemma yielded_app tr tr' : yielded (tr ++ tr') = yielded tr ++ yielded tr'.
Proof. apply omap_app. Qed.
Lemma fetched_app tr tr' : fetched (tr ++ tr') = fetched tr ++ fetched tr'.
Proof. apply omap_app. Qed.
Lemma checkpoints_app tr tr' : checkpoints (tr ++ tr') = checkpoints tr ++ checkpoints tr'.
Proof. apply omap_app. Qed.
Lemma transformed_app tr tr' : transformed (tr ++ tr') = transformed tr ++ transformed tr'.
Proof. apply omap_app. Qed.
Lemma record_checks_app tr tr' :
  record_checks (tr ++ tr') = record_checks tr ++ record_checks tr'.
Proof. apply omap_app. Qed.

Lemma poll_cancel_facts s evs s' r :
  poll_cancel env s = (evs, s', r) ->
  same_vars s s' /\ api_service s' = api_service s
  /\ n_uuid s' = n_uuid s /\ n_now s' = n_now s
  /\ (evs = [] /\ r = Ok false \/ evs = [EvCancelCheck r]).
Proof.
  unfold poll_cancel. destruct (check_cancel_callback env); intros E; pair_inv E;
    cbn; repeat split; auto.
Qed.

Lemma poll_pause_facts s evs s' r :
  poll_pause env s = (evs, s', r) ->
  same_vars s s' /\ api_service s' = api_service s
  /\ n_uuid s' = n_uuid s /\ n_now s' = n_now s
  /\ (evs = [] /\ r = Ok false \/ evs = [EvPauseCheck r]).
Proof.
  unfold poll_pause. destruct (check_pause_callback env); intros E; pair_inv E;
    cbn; repeat split; auto.
Qed.

Lemma poll_record_pause_facts s evs s' r :
  poll_record_pause env s = (evs, s', r) ->
  same_vars s s' /\ api_service s' = api_service s
  /\ n_uuid s' = n_uuid s /\ n_now s' = n_now s
  /\ (evs = [] /\ r = Ok false /\ check_pause_callback env = None
      \/ evs = [EvRecordPauseCheck r] /\ check_pause_callback env <> None).
Proof.
  unfold poll_record_pause. destruct (check_pause_callback env); intros E; pair_inv E;
    cbn; repeat split; auto.
Qed.

(** A saved checkpoint is one event, built from the state at the call. *)
Lemma save_checkpoint_facts build s evs s' :
  (forall s0, same_vars s0 (snd (build s0))
              /\ api_service (snd (build s0)) = api_service s0
              /\ n_uuid (snd (build s0)) = n_uuid s0) ->
  save_checkpoint env build s = (evs, s') ->
  same_vars s s' /\ api_service s' = api_service s /\ n_uuid s' = n_uuid s
  /\ match checkpoint_callback env with
     | None => evs = []
     | Some cb => exists r, evs = [EvCheckpoint (fst (build s)) r]
     end.
Proof.
  intros Hb. unfold save_checkpoint.
  destruct (checkpoint_callback env) as [cb|].
  - specialize (Hb s). destruct (build s) as [cp s1]. cbn [fst snd] in *.
    intros E. injection E as <- <-. destruct Hb as ((?&?&?)&?&?).
    cbn. repeat split; eauto.
  - intros E. injection E as <- <-. repeat split.
Qed.

Lemma builders_same_vars :
  (forall s0, same_vars s0 (snd (cancel_checkpoint s0))
              /\ api_service (snd (cancel_checkpoint s0)) = api_service s0
              /\ n_uuid (snd (cancel_checkpoint s0)) = n_uuid s0)
  /\ (forall s0, same_vars s0 (snd (pause_checkpoint env s0))
              /\ api_service (snd (pause_checkpoint env s0)) = api_service s0
              /\ n_uuid (snd (pause_checkpoint env s0)) = n_uuid s0)
  /\ (forall k s0, same_vars s0 (snd (mid_page_checkpoint env k s0))
              /\ api_service (snd (mid_page_checkpoint env k s0)) = api_service s0
              /\ n_uuid (snd (mid_page_checkpoint env k s0)) = n_uuid s0)
  /\ (forall d k s0, same_vars s0 (snd (processing_checkpoint d k s0))
              /\ api_service (snd (processing_checkpoint d k s0)) = api_service s0
              /\ n_uuid (snd (processing_checkpoint d k s0)) = n_uuid s0)
  /\ (forall s0, same_vars s0 (snd (final_checkpoint s0))
              /\ api_service (snd (final_checkpoint s0)) = api_service s0
              /\ n_uuid (snd (final_checkpoint s0)) = n_uuid s0)
  /\ (forall e s0, same_vars s0 (snd (error_checkpoint e s0))
              /\ api_service (snd (error_checkpoint e s0)) = api_service s0
              /\ n_uuid (snd (error_checkpoint e s0)) = n_uuid s0).
Proof. repeat split. Qed.

End EngineFacts.

Section RecordLoop.
Context `{PyBuiltins}.
Variable env : environment.
Variable cfg : config.

Lemma uneventful_nil : uneventful (@nil event).
Proof. repeat split; auto. Qed.

Lemma uneventful_app tr tr' :
  uneventful tr -> uneventful tr' -> uneventful (tr ++ tr').
Proof.
  intros (A1 & A2 & A3) (B1 & B2 & B3). repeat split.
  - rewrite checkpoints_app, A1, B1. reflexivity.
  - rewrite in_app_iff. tauto.
  - intros d e. rewrite in_app_iff. specialize (A3 d e). specialize (B3 d e). tauto.
Qed.

Lemma uneventful_app_inv tr tr' :
  uneventful (tr ++ tr') -> uneventful tr /\ uneventful tr'.
Proof.
  intros (A1 & A2 & A3). rewrite checkpoints_app in A1.
  apply app_eq_nil in A1 as [? ?]. rewrite in_app_iff in A2.
  repeat split; auto; intros d e Hin; apply (A3 d e); rewrite in_app_iff; auto.
Qed.

Lemma record_events_facts deal row :
  uneventful (record_events cfg deal row)
  /\ fetched (record_events cfg deal row) = []
  /\ transformed (record_events cfg deal row) = [deal]
  /\ record_checks (record_events cfg deal row) = []
  /\ yielded (record_events cfg deal row) = (if qualifies cfg row then [row] else []).
Proof.
  unfold record_events, uneventful.
  destruct (qualifies cfg row); cbn; repeat split; auto; intuition congruence.
Qed.

(** The loop over the records, one record unrolled. *)
Lemma process_deals_cons deal rest k s :
  process_deals env cfg (deal :: rest) k s =
  let '(polled, s1, paused) := poll_record_pause env s in
  match paused with
  | Raise e => (polled, s1, RecordsRaised e)
  | Ok true =>
      let '(saved, s2) := save_checkpoint env (mid_page_checkpoint env k) s1 in
      (polled ++ saved, s2, RecordsPaused)
  | Ok false =>
      match transform_hubspot_deal deal (scan_id cfg) (tenant_id cfg) (page_count s + 1)
              (uuid4 env (n_uuid s1)) (datetime_now env (n_now s1)) with
      | Raise e =>
          (polled ++ [EvTransform deal (Raise e)], bump_uuid s1, RecordsRaised e)
      | Ok row =>
          let '(evs, s3, out) :=
            process_deals env cfg rest (if qualifies cfg row then k + 1 else k)
                          (bump_now (bump_uuid s1)) in
          (polled ++ record_events cfg deal row ++ evs, s3, out)
      end
  end.
Proof.
  cbn [process_deals]. destruct (poll_record_pause env s) as [[polled s1] paused].
  destruct paused as [[|]|e]; try reflexivity.
  destruct (transform_hubspot_deal _ _ _ _ _ _) as [row|e]; try reflexivity.
  unfold record_events. destruct (qualifies cfg row); reflexivity.
Qed.

(** What the record loop does, by the way it ends. *)
Lemma process_deals_facts deals : forall k s evs s' out,
  process_deals env cfg deals k s = (evs, s', out) ->
  same_vars s s' /\ api_service s' = api_service s
  /\ fetched evs = []
  /\ match out with
     | RecordsDone k' =>
         k' = k + Z.of_nat (length (yielded evs))
         /\ uneventful evs
         /\ transformed evs = deals
         /\ (check_pause_callback env <> None ->
             length (record_checks evs) = length deals)
     | RecordsPaused =>
         exists before saved,
           evs = before ++ EvRecordPauseCheck (Ok true) :: saved
           /\ check_pause_callback env <> None
           /\ uneventful before
           /\ fetched before = []
           /\ (exists d rest, deals = transformed before ++ d :: rest)
           /\ length (record_checks before) = length (transformed before)
           /\ match checkpoint_callback env with
              | None => saved = []
              | Some cb =>
                  exists r paused_at,
                    saved = [EvCheckpoint
                      {| cp_phase := PhPausedMidPage;
                         records_processed :=
                           total_records s + (k + Z.of_nat (length (yielded before)));
                         cursor := after s;
                         page_number := page_count s;
                         batch_size_of := batch_size;
                         checkpoint_data :=
                           MidPageData (page_count s)
                             (k + Z.of_nat (length (yielded before))) paused_at |} r]
              end
     | RecordsRaised e =>
         checkpoints evs = []
         /\ ~ In (EvRecordPauseCheck (Ok true)) evs
         /\ (forall d e', In (EvTransform d (Raise e')) evs -> e' = e)
     end.
Proof.
  induction deals as [|deal rest IH]; intros k s evs s' out E.
  - cbn in E. pair_inv E. repeat split; auto. cbn. lia.
  - rewrite process_deals_cons in E.
    destruct (poll_record_pause env s) as [[polled s1] paused] eqn:Ep.
    apply poll_record_pause_facts in Ep as (Hv1 & Ha1 & Hu1 & Hn1 & Hpoll).
    destruct paused as [[|]|e].
    + (* the pause predicate answers true *)
      destruct (save_checkpoint env (mid_page_checkpoint env k) s1) as [saved s2] eqn:Es.
      pair_inv E.
      pose proof (save_checkpoint_facts env _ _ _ _
                    (proj1 (proj2 (proj2 (builders_same_vars env))) k) Es)
        as (Hv2 & Ha2 & _ & Hsaved).
      destruct Hpoll as [(_ & Hr & _)|(-> & Hcb)]; [discriminate|].
      split; [eapply same_vars_trans; eauto|]. split; [congruence|].
      split.
      { rewrite fetched_app. cbn.
        destruct (checkpoint_callback env); [destruct Hsaved as (rr & ->)|subst saved];
          reflexivity. }
      exists [], saved. cbn. repeat split; auto.
      * eauto.
      * destruct (checkpoint_callback env) as [cb|]; [|exact Hsaved].
        destruct Hsaved as (rr & ->). destruct Hv1 as (Hva & Hvp & Hvt).
        cbn. rewrite Hva, Hvp, Hvt, Z.add_0_r. eauto.
    + (* the record is processed *)
      assert (Hq : uneventful polled /\ fetched polled = [] /\ yielded polled = []
                   /\ transformed polled = []
                   /\ (check_pause_callback env <> None ->
                       length (record_checks polled) = 1%nat)
                   /\ (length (record_checks polled) <= 1)%nat).
      { destruct Hpoll as [(-> & _ & Hnone)|(-> & _)].
        - repeat split; auto. intros; contradiction.
        - repeat split; cbn; auto; intuition congruence. }
      destruct Hq as (Hq & Hpf & Hpy & Hpt & Hpc & Hpc').
      destruct (transform_hubspot_deal deal (scan_id cfg) (tenant_id cfg) (page_count s + 1)
                  (uuid4 env (n_uuid s1)) (datetime_now env (n_now s1)))
        as [row|e] eqn:Et.
      * destruct (record_events_facts deal row) as (Hru & Hrf & Hrt & Hrc & Hry).
        assert (Hv2 : same_vars s (bump_now (bump_uuid s1))) by exact Hv1.
        assert (Ha2 : api_service (bump_now (bump_uuid s1)) = api_service s) by exact Ha1.
        set (s2 := bump_now (bump_uuid s1)) in *. clearbody s2.
        set (k2 := if qualifies cfg row then k + 1 else k) in *.
        assert (Hk2 : k2 = k + Z.of_nat (length (yielded (record_events cfg deal row)))).
        { unfold k2. rewrite Hry. destruct (qualifies cfg row); cbn; lia. }
        clear Hry.
        clearbody k2.
        set (revs := record_events cfg deal row) in *. clearbody revs.
        destruct (process_deals env cfg rest k2 s2) as [[evs0 s3] out0] eqn:Er.
        pair_inv E. apply IH in Er as (Hv3 & Ha3 & Hf3 & Hout).
        split; [eapply same_vars_trans; eauto|]. split; [congruence|].
        split; [rewrite !fetched_app, Hpf, Hrf; exact Hf3|].
        destruct Hv2 as (Hsa & Hsp & Hst).
        destruct out as [k'| |e].
        -- destruct Hout as (Hk & Hu & Ht & Hc).
           rewrite !yielded_app, !transformed_app, Hpy, Hpt, Hrt. cbn [app].
           refine (conj _ (conj _ (conj _ _))).
           ++ rewrite Hk, length_app. lia.
           ++ apply uneventful_app; [exact Hq|]. apply uneventful_app; assumption.
           ++ cbn. f_equal. exact Ht.
           ++ intros Hcb. rewrite !record_checks_app, !length_app, Hrc, (Hc Hcb), (Hpc Hcb).
              reflexivity.
        -- destruct Hout as (before & saved & -> & Hcb & Hu & Hfb & (d & rest' & Hd) & Hlen & Hsaved).
           exists (polled ++ revs ++ before), saved.
           rewrite !yielded_app, !transformed_app, !fetched_app, !record_checks_app,
             Hpy, Hpt, Hpf, Hrf, Hrt, Hrc.
           cbn [app]. refine (conj _ (conj _ (conj _ (conj _ (conj _ (conj _ _)))))).
           ++ rewrite <- !app_assoc. reflexivity.
           ++ exact Hcb.
           ++ apply uneventful_app; [exact Hq|]. apply uneventful_app; assumption.
           ++ exact Hfb.
           ++ exists d, rest'. cbn. f_equal. exact Hd.
           ++ rewrite !length_app. cbn [length].
              rewrite (Hpc Hcb), Hlen. reflexivity.
           ++ rewrite Hsa, Hsp, Hst in Hsaved.
              destruct (checkpoint_callback env); [|exact Hsaved].
              destruct Hsaved as (rr & ts & ->). exists rr, ts.
              rewrite length_app, Nat2Z.inj_add.
              replace (k + (Z.of_nat (length (yielded revs))
                            + Z.of_nat (length (yielded before))))
                with (k + Z.of_nat (length (yielded revs))
                      + Z.of_nat (length (yielded before))) by lia.
              reflexivity.
        -- destruct Hout as (Hc & Hnp & Hraise).
           destruct Hq as (Hq1 & Hq2 & Hq3). destruct Hru as (Hr1 & Hr2 & Hr3).
           repeat split.
           ++ rewrite !checkpoints_app, Hq1, Hr1. exact Hc.
           ++ rewrite !in_app_iff. tauto.
           ++ intros d e'. rewrite !in_app_iff. intros [Hin|[Hin|Hin]].
              ** destruct (Hq3 _ _ Hin).
              ** destruct (Hr3 _ _ Hin).
              ** eauto.
      * pair_inv E. destruct Hq as (Hq1 & Hq2 & Hq3).
        split; [exact Hv1|]. split; [exact Ha1|].
        split; [rewrite fetched_app, Hpf; reflexivity|].
        repeat split.
        -- rewrite checkpoints_app, Hq1. reflexivity.
        -- rewrite in_app_iff. cbn. intuition congruence.
        -- intros d e'. rewrite in_app_iff. cbn. intros [Hin|[Hin|[]]].
           ++ destruct (Hq3 _ _ Hin).
           ++ congruence.
    + (* the pause predicate raises *)
      pair_inv E. split; [exact Hv1|]. split; [exact Ha1|].
      destruct Hpoll as [(_ & Hr & _)|(-> & _)]; [discriminate|].
      repeat split; cbn; intuition congruence.
Qed.
End RecordLoop.

Section PageFacts.
Context `{PyBuiltins}.
Variable env : environment.
Variable cfg : config.

Lemma saved_as_facts saved cp :
  saved_as env saved cp ->
  yielded saved = [] /\ fetched saved = [] /\ transformed saved = []
  /\ record_checks saved = []
  /\ ~ In (EvRecordPauseCheck (Ok true)) saved
  /\ (forall d e, ~ In (EvTransform d (Raise e)) saved)
  /\ (forall cp' r, In (EvCheckpoint cp' r) saved -> cp' = cp).
Proof.
  unfold saved_as. destruct (checkpoint_callback env) as [cb|].
  - intros (r & ->). cbn. repeat split; auto; try intuition congruence.
  - intros ->. cbn. repeat split; auto; tauto.
Qed.

Lemma periodic_checkpoint_facts data page_records s saved s' :
  periodic_checkpoint env data page_records s = (saved, s') ->
  same_vars s s' /\ api_service s' = api_service s
  /\ (saved = []
      \/ page_count s mod checkpoint_interval = 0
         /\ saved_as env saved (fst (processing_checkpoint data page_records s))).
Proof.
  unfold periodic_checkpoint.
  destruct (page_count s mod checkpoint_interval =? 0) eqn:Em.
  - intros Es.
    pose proof (save_checkpoint_facts env _ _ _ _
                  (proj1 (proj2 (proj2 (proj2 (builders_same_vars env))))
                     data page_records) Es) as (Hv & Ha & _ & Hs).
    repeat split; try apply Hv; auto. right. split; [lia|exact Hs].
  - intros E. injection E as <- <-. repeat split; auto.
Qed.

(** The part of an iteration that follows the fetch, by the way it
    ends. *)
Lemma process_page_facts data s evs s' out :
  process_page env cfg data s = (evs, s', out) ->
  api_service s' = api_service s
  /\ fetched evs = []
  /\ match out with
     | TryContinue =>
         exists r_evs saved c,
           evs = r_evs ++ saved
           /\ next_cursor data = Some c
           /\ after s' = Some c
           /\ page_count s' = page_count s + 1
           /\ total_records s' = total_records s + Z.of_nat (length (yielded r_evs))
           /\ uneventful r_evs
           /\ transformed r_evs = results data
           /\ (saved = []
               \/ (page_count s + 1) mod checkpoint_interval = 0
                  /\ saved_as env saved
                       (processing_checkpoint_after s
                          (Z.of_nat (length (yielded r_evs))) (Some c)))
     | TryBreak ExitCompleted =>
         exists r_evs saved final,
           evs = r_evs ++ saved ++ final
           /\ next_cursor data = None
           /\ after s' = after s
           /\ page_count s' = page_count s + 1
           /\ total_records s' = total_records s + Z.of_nat (length (yielded r_evs))
           /\ uneventful r_evs
           /\ transformed r_evs = results data
           /\ (saved = []
               \/ (page_count s + 1) mod checkpoint_interval = 0
                  /\ saved_as env saved
                       (processing_checkpoint_after s
                          (Z.of_nat (length (yielded r_evs))) None))
           /\ saved_as env final
                (final_checkpoint_after s (Z.of_nat (length (yielded r_evs))))
     | TryBreak _ => False
     | TryReturn =>
         same_vars s s'
         /\ exists before saved,
              evs = before ++ EvRecordPauseCheck (Ok true) :: saved
              /\ check_pause_callback env <> None
              /\ uneventful before
              /\ (exists d rest, results data = transformed before ++ d :: rest)
              /\ length (record_checks before) = length (transformed before)
              /\ exists paused_at,
                   saved_as env saved
                     {| cp_phase := PhPausedMidPage;
                        records_processed :=
                          total_records s + Z.of_nat (length (yielded before));
                        cursor := after s;
                        page_number := page_count s;
                        batch_size_of := batch_size;
                        checkpoint_data :=
                          MidPageData (page_count s)
                            (Z.of_nat (length (yielded before))) paused_at |}
     | TryRaise e =>
         same_vars s s'
         /\ checkpoints evs = []
         /\ ~ In (EvRecordPauseCheck (Ok true)) evs
         /\ (forall d e', In (EvTransform d (Raise e')) evs -> e' = e)
     end.
Proof.
  unfold process_page.
  destruct (process_deals env cfg (results data) 0 s) as [[r_evs s1] rout] eqn:Er.
  apply process_deals_facts in Er as (Hv1 & Ha1 & Hf1 & Hout).
  destruct rout as [page_records| |e].
  - destruct Hout as (Hk & Hu & Ht & _). rewrite Z.add_0_l in Hk. subst page_records.
    destruct (periodic_checkpoint env data _ (update_counters _ s1))
      as [saved s3] eqn:Ep.
    apply periodic_checkpoint_facts in Ep as (Hv3 & Ha3 & Hs3).
    destruct Hv1 as (Hva & Hvp & Hvt). destruct Hv3 as (Hwa & Hwp & Hwt).
    cbn [update_counters after page_count total_records api_service] in *.
    assert (Hsaved : forall next, next_cursor data = next ->
              saved = []
              \/ (page_count s + 1) mod checkpoint_interval = 0
                 /\ saved_as env saved (processing_checkpoint_after s
                                      (Z.of_nat (length (yielded r_evs))) next)).
    { intros next Hnext. destruct Hs3 as [->|(Hm & Hs)]; [left; reflexivity|right].
      split; [rewrite <- Hvp; exact Hm|].
      unfold processing_checkpoint, processing_checkpoint_after in *.
      cbn [fst update_counters after page_count total_records] in Hs.
      rewrite Hvp, Hvt, Hnext in Hs. exact Hs. }
    assert (Hfs : fetched saved = []).
    { destruct Hs3 as [->|(_ & Hs)]; [reflexivity|]. apply (saved_as_facts _ _ Hs). }
    destruct (next_cursor data) as [c|] eqn:En.
    + intros E. pair_inv E. cbn [set_after after page_count total_records api_service].
      split; [congruence|]. split; [rewrite fetched_app, Hf1, Hfs; reflexivity|].
      exists r_evs, saved, c.
      refine (conj eq_refl (conj eq_refl (conj eq_refl (conj _ (conj _ (conj Hu (conj Ht _))))))).
      * lia.
      * lia.
      * apply Hsaved. reflexivity.
    + destruct (save_checkpoint env final_checkpoint s3) as [final s4] eqn:Ef.
      pose proof (save_checkpoint_facts env _ _ _ _
                    (proj1 (proj2 (proj2 (proj2 (proj2 (builders_same_vars env)))))) Ef)
        as ((Hxa & Hxp & Hxt) & Ha4 & _ & Hs4).
      intros E. pair_inv E.
      assert (Hfinal : saved_as env final
                (final_checkpoint_after s (Z.of_nat (length (yielded r_evs))))).
      { unfold saved_as, final_checkpoint, final_checkpoint_after in *.
        cbn [fst] in Hs4. rewrite Hwp, Hwt, Hvp, Hvt in Hs4. exact Hs4. }
      split; [congruence|].
      split.
      { rewrite !fetched_app, Hf1, Hfs. apply (saved_as_facts _ _ Hfinal). }
      exists r_evs, saved, final.
      refine (conj eq_refl (conj eq_refl (conj _ (conj _ (conj _ (conj Hu (conj Ht (conj _ Hfinal)))))))).
      * congruence.
      * lia.
      * lia.
      * apply Hsaved. reflexivity.
  - intros E. pair_inv E.
    destruct Hout as (before & saved & -> & Hcb & Hu & Hfb & Hd & Hlen & Hsaved).
    split; [exact Ha1|]. split; [exact Hf1|]. split; [exact Hv1|].
    exists before, saved.
    refine (conj eq_refl (conj Hcb (conj Hu (conj Hd (conj Hlen _))))).
    unfold saved_as. destruct (checkpoint_callback env) as [cb|].
    + destruct Hsaved as (r & ts & ->). exists ts, r.
      rewrite !Z.add_0_l. reflexivity.
    + exists EmptyString. exact Hsaved.
  - intros E. pair_inv E. split; [exact Ha1|]. split; [exact Hf1|].
    split; [exact Hv1|]. exact Hout.
Qed.
End PageFacts.

Section IterationFacts.
Context `{PyBuiltins}.
Variable env : environment.
Variable cfg : config.

Lemma every_page_checked z : (z mod 1 =? 0) = true.
Proof. rewrite Z.mod_1_r. reflexivity. Qed.

Lemma polls_only_facts pre :
  polls_only pre ->
  yielded pre = [] /\ fetched pre = [] /\ transformed pre = []
  /\ checkpoints pre = [] /\ record_checks pre = []
  /\ ~ In (EvRecordPauseCheck (Ok true)) pre
  /\ (forall d e, ~ In (EvTransform d (Raise e)) pre)
  /\ ~ In (EvCancelCheck (Ok true)) pre.
Proof.
  induction 1 as [|ev pre Hev _ IH]; [cbn; repeat split; auto|].
  destruct IH as (?&?&?&?&?&?&Ht&?).
  destruct Hev as [-> | ->]; cbn; repeat split; auto.
  all: try (intros [?|?]; [discriminate | tauto]).
  all: intros d e [?|?]; [discriminate | eapply Ht; eauto].
Qed.

Lemma fetched_cons_fetch c io r tr :
  fetched (EvFetch c io r :: tr) = c :: fetched tr.
Proof. reflexivity. Qed.

(** The [try] block, by the way it ends. *)
Lemma loop_try_facts s evs s' out :
  loop_try env cfg s = (evs, s', out) ->
  match out with
  | TryBreak ExitCancelled =>
      same_vars s s' /\ api_service s' = api_service s
      /\ exists saved,
           evs = EvCancelCheck (Ok true) :: saved
           /\ saved_as env saved (fst (cancel_checkpoint s))
  | TryBreak ExitPaused =>
      same_vars s s' /\ api_service s' = api_service s
      /\ exists pre saved paused_at,
           evs = pre ++ EvPauseCheck (Ok true) :: saved
           /\ polls_only pre
           /\ saved_as env saved
                {| cp_phase := PhPaused;
                   records_processed := total_records s;
                   cursor := after s;
                   page_number := page_count s;
                   batch_size_of := batch_size;
                   checkpoint_data := PausedData (page_count s) paused_at |}
  | TryRaise e =>
      same_vars s s'
      /\ checkpoints evs = []
      /\ (length (fetched evs) <= 1)%nat
      /\ ~ In (EvRecordPauseCheck (Ok true)) evs
      /\ (forall d e', In (EvTransform d (Raise e')) evs -> e' = e)
  | _ =>
      exists pre io data evs' s3,
        evs = pre ++ EvFetch (after s) io (Ok data) :: evs'
        /\ polls_only pre
        /\ same_vars s s3
        /\ process_page env cfg data s3 = (evs', s', out)
  end.
Proof.
  unfold loop_try. unfold cancel_check_interval, pause_check_interval.
  rewrite !every_page_checked.
  destruct (poll_cancel env s) as [[c_evs s1] cancelled] eqn:Ec.
  apply poll_cancel_facts in Ec as (Hv1 & Ha1 & _ & _ & Hc).
  destruct cancelled as [[|]|e].
  - (* cancelled *)
    destruct (save_checkpoint env cancel_checkpoint s1) as [saved s2] eqn:Es.
    pose proof (save_checkpoint_facts env _ _ _ _
                  (proj1 (builders_same_vars env)) Es) as (Hv2 & Ha2 & _ & Hs).
    intros E. pair_inv E.
    destruct Hc as [(_ & ?)| ->]; [discriminate|].
    split; [eapply same_vars_trans; eauto|]. split; [congruence|].
    exists saved. split; [reflexivity|].
    destruct Hv1 as (Hva & Hvp & Hvt).
    unfold saved_as, cancel_checkpoint in *. cbn [fst] in *.
    rewrite Hva, Hvp, Hvt in Hs. exact Hs.
  - assert (Hpc : polls_only c_evs).
    { destruct Hc as [(-> & _)| ->]; [constructor|].
      constructor; [auto|constructor]. }
    destruct (poll_pause env s1) as [[p_evs s2] paused] eqn:Ep.
    apply poll_pause_facts in Ep as (Hv2 & Ha2 & _ & _ & Hp).
    pose proof (same_vars_trans _ _ _ Hv1 Hv2) as Hv12.
    destruct paused as [[|]|e].
    + (* paused at the page boundary *)
      destruct (save_checkpoint env (pause_checkpoint env) s2) as [saved s3] eqn:Es.
      pose proof (save_checkpoint_facts env _ _ _ _
                    (proj1 (proj2 (builders_same_vars env))) Es) as (Hv3 & Ha3 & _ & Hs).
      intros E. pair_inv E.
      destruct Hp as [(_ & ?)| ->]; [discriminate|].
      split; [eapply same_vars_trans; eauto|]. split; [congruence|].
      exists c_evs, saved, (isoformat (datetime_now env (n_now s2))).
      split; [reflexivity|]. split; [exact Hpc|].
      destruct Hv12 as (Hva & Hvp & Hvt).
      unfold saved_as, pause_checkpoint in *. cbn [fst] in *.
      rewrite Hva, Hvp, Hvt in Hs. exact Hs.
    + assert (Hpp : polls_only (c_evs ++ p_evs)).
      { apply Forall_app. split; [exact Hpc|].
        destruct Hp as [(-> & _)| ->]; [constructor|].
        constructor; [auto|constructor]. }
      destruct (get_deals (net env) batch_size (after s2) (properties cfg)
                  (archived_filter cfg) (api_service s2)) as [[io cl] fetched_page] eqn:Eg.
      destruct fetched_page as [data|e].
      * destruct (process_page env cfg data (set_api_service cl s2))
          as [[evs' s4] pout] eqn:Epage.
        intros E. pair_inv E.
        assert (Hgoal : exists pre io0 data0 evs0 s3,
                  c_evs ++ p_evs ++ EvFetch (after s2) io (Ok data) :: evs'
                  = pre ++ EvFetch (after s) io0 (Ok data0) :: evs0
                  /\ polls_only pre /\ same_vars s s3
                  /\ process_page env cfg data0 s3 = (evs0, s', out)).
        { exists (c_evs ++ p_evs), io, data, evs', (set_api_service cl s2).
          rewrite <- app_assoc. destruct Hv12 as (Hva & Hvp & Hvt).
          rewrite Hva. repeat split; auto. }
        pose proof (process_page_facts env cfg _ _ _ _ _ Epage) as (_ & _ & Hout).
        destruct out as [|[]| |e]; try exact Hgoal; try contradiction.
        destruct Hout as (Hv4 & Hck & Hnp & Hraise).
        destruct (polls_only_facts _ Hpp) as (_ & Hf & _ & Hcp & _ & Hnpp & Hnt & _).
        split; [eapply same_vars_trans; [exact Hv12|exact Hv4]|].
        pose proof (process_page_facts env cfg _ _ _ _ _ Epage) as (_ & Hfp & _).
        rewrite app_assoc.
        split; [rewrite checkpoints_app, Hcp; exact Hck|].
        split; [rewrite fetched_app, Hf, fetched_cons_fetch, Hfp; cbn; lia|].
        split.
        -- rewrite in_app_iff. cbn. intuition congruence.
        -- intros d e'. rewrite in_app_iff. cbn. intros [Hin|[Hin|Hin]].
           ++ destruct (Hnt _ _ Hin).
           ++ discriminate.
           ++ eauto.
      * (* the fetch raises *)
        intros E. pair_inv E.
        destruct (polls_only_facts _ Hpp) as (_ & Hf & _ & Hcp & _ & Hnpp & Hnt & _).
        split; [exact Hv12|]. rewrite app_assoc.
        split; [rewrite checkpoints_app, Hcp; reflexivity|].
        split; [rewrite fetched_app, Hf; cbn; lia|].
        split.
        -- rewrite in_app_iff. cbn. intuition congruence.
        -- intros d e'. rewrite in_app_iff. cbn. intros [Hin|[Hin|[]]].
           ++ destruct (Hnt _ _ Hin).
           ++ discriminate.
    + (* the pause predicate raises *)
      intros E. pair_inv E. split; [exact Hv12|].
      destruct Hp as [(_ & ?)| ->]; [discriminate|].
      destruct (polls_only_facts _ Hpc) as (_ & Hf & _ & Hcp & _ & Hnpp & Hnt & _).
      split; [rewrite checkpoints_app, Hcp; reflexivity|].
      split; [rewrite fetched_app, Hf; cbn; lia|].
      split.
      * rewrite in_app_iff. cbn. intuition congruence.
      * intros d e'. rewrite in_app_iff. cbn. intros [Hin|[Hin|[]]].
        -- destruct (Hnt _ _ Hin).
        -- discriminate.
  - (* the cancel predicate raises *)
    intros E. pair_inv E. split; [exact Hv1|].
    destruct Hc as [(_ & ?)| ->]; [discriminate|].
    cbn. repeat split; auto; try lia; intuition congruence.
Qed.

End IterationFacts.

Section RunFacts.
Context `{PyBuiltins}.
Variable env : environment.
Variable cfg : config.

(** The iteration with its handler: an exception adds the error
    checkpoint, every other ending is that of the [try] block. *)
Lemma loop_body_cases s evs s' out :
  loop_body env cfg s = (evs, s', out) ->
  match out with
  | TryRaise e =>
      exists evs0 s1 saved,
        loop_try env cfg s = (evs0, s1, TryRaise e)
        /\ evs = evs0 ++ saved
        /\ same_vars s s'
        /\ saved_as env saved (fst (error_checkpoint e s))
  | _ => loop_try env cfg s = (evs, s', out)
  end.
Proof.
  unfold loop_body. destruct (loop_try env cfg s) as [[evs0 s1] out0] eqn:Et.
  destruct out0 as [|why| |e]; try (intros E; pair_inv E; reflexivity).
  destruct (save_checkpoint env (error_checkpoint e) s1) as [saved s2] eqn:Es.
  pose proof (save_checkpoint_facts env _ _ _ _
                (proj2 (proj2 (proj2 (proj2 (proj2 (builders_same_vars env))))) e) Es)
    as (Hv2 & _ & _ & Hs).
  intros E. pair_inv E.
  pose proof (loop_try_facts env cfg _ _ _ _ Et) as (Hv1 & _).
  exists evs0, s1, saved. split; [reflexivity|]. split; [reflexivity|].
  split; [eapply same_vars_trans; eauto|].
  destruct Hv1 as (Hva & Hvp & Hvt).
  unfold saved_as, error_checkpoint in *. cbn [fst] in *.
  rewrite Hva, Hvp, Hvt in Hs. exact Hs.
Qed.

(** A continuing iteration fetches one page with the current cursor,
    counts it, adds its emitted records to the total and moves to the
    page's next cursor. *)
Lemma loop_body_continue s evs s' :
  loop_body env cfg s = (evs, s', TryContinue) ->
  page_count s' = page_count s + 1
  /\ total_records s' = total_records s + Z.of_nat (length (yielded evs))
  /\ fetched evs = [after s]
  /\ exists io data c,
       In (EvFetch (after s) io (Ok data)) evs
       /\ next_cursor data = Some c /\ after s' = Some c.
Proof.
  intros E. apply loop_body_cases in E. apply loop_try_facts in E.
  destruct E as (pre & io & data & evs' & s3 & -> & Hpre & (Hva & Hvp & Hvt) & Epage).
  apply process_page_facts in Epage as (_ & Hf & r_evs & saved & c & -> & Hn & Ha & Hp & Ht & _ & _ & Hs).
  destruct (polls_only_facts _ Hpre) as (Hy & Hfp & _).
  assert (Hys : yielded saved = [] /\ fetched saved = []).
  { destruct Hs as [->|(_ & Hs)]; [auto|].
    destruct (saved_as_facts env _ _ Hs) as (? & ? & _). auto. }
  destruct Hys as (Hys & Hfs).
  split; [lia|]. split.
  { rewrite yielded_app, Hy. cbn [app]. change (yielded (EvFetch (after s) io (Ok data) :: r_evs ++ saved))
      with (yielded (r_evs ++ saved)).
    rewrite yielded_app, Hys, app_nil_r. lia. }
  split.
  { rewrite fetched_app, Hfp, fetched_cons_fetch, Hf. reflexivity. }
  exists io, data, c. split; [|auto]. rewrite in_app_iff. right. left. reflexivity.
Qed.

(** An iteration fetches at most one page. *)
Lemma loop_body_fetches s evs s' out :
  loop_body env cfg s = (evs, s', out) ->
  (length (fetched evs) <= 1)%nat.
Proof.
  intros E. pose proof (loop_body_cases _ _ _ _ E) as Hc.
  assert (Hpage : forall pre io data evs' s3 o,
            evs = pre ++ EvFetch (after s) io (Ok data) :: evs' ->
            polls_only pre ->
            process_page env cfg data s3 = (evs', s', o) ->
            (length (fetched evs) <= 1)%nat).
  { intros pre io data evs' s3 o -> Hpre Epage.
    apply process_page_facts in Epage as (_ & Hf & _).
    destruct (polls_only_facts _ Hpre) as (_ & Hfp & _).
    rewrite fetched_app, Hfp, fetched_cons_fetch, Hf. cbn. lia. }
  destruct out as [|why| |e].
  - apply loop_try_facts in Hc as (pre & io & data & evs' & s3 & Hevs & Hpre & _ & Epage).
    eauto.
  - apply loop_try_facts in Hc. destruct why.
    + destruct Hc as (_ & _ & saved & -> & Hs).
      change (fetched (EvCancelCheck (Ok true) :: saved)) with (fetched saved).
      destruct (saved_as_facts env _ _ Hs) as (_ & -> & _). cbn. lia.
    + destruct Hc as (_ & _ & pre & saved & ts & -> & Hpre & Hs).
      rewrite fetched_app.
      change (fetched (EvPauseCheck (Ok true) :: saved)) with (fetched saved).
      destruct (saved_as_facts env _ _ Hs) as (_ & -> & _).
      destruct (polls_only_facts _ Hpre) as (_ & -> & _). cbn. lia.
    + destruct Hc as (pre & io & data & evs' & s3 & Hevs & Hpre & _ & Epage). eauto.
    + destruct Hc as (pre & io & data & evs' & s3 & Hevs & Hpre & _ & Epage). eauto.
    + destruct Hc as (pre & io & data & evs' & s3 & Hevs & Hpre & _ & Epage). eauto.
  - apply loop_try_facts in Hc as (pre & io & data & evs' & s3 & Hevs & Hpre & _ & Epage).
    eauto.
  - destruct Hc as (evs0 & s1 & saved & Et & -> & _ & Hs).
    apply loop_try_facts in Et as (_ & _ & Hf & _).
    rewrite fetched_app. destruct (saved_as_facts env _ _ Hs) as (_ & -> & _).
    rewrite app_nil_r. exact Hf.
Qed.

(** *** The loop *)

(** With fuel for every remaining page the loop does not depend on the
    fuel and does not run out of it. *)
Lemma while_loop_fuel n : forall fuel s,
  Z.to_nat (page_limit - page_count s) = n ->
  (n < fuel)%nat ->
  while_loop env cfg fuel s = run env cfg s
  /\ snd (run env cfg s) <> OutOfFuel.
Proof.
  induction n as [n IH] using lt_wf_ind. intros fuel s Hn Hfuel.
  unfold run, fuel_for. rewrite Hn.
  destruct fuel as [|fuel]; [lia|]. cbn [while_loop].
  destruct (page_count s <? page_limit) eqn:Elt; [|split; [reflexivity|discriminate]].
  apply Z.ltb_lt in Elt.
  destruct (loop_body env cfg s) as [[evs s1] out] eqn:Eb.
  destruct out as [|why| |e]; try (split; [reflexivity|discriminate]).
  apply loop_body_continue in Eb as (Hp & _).
  assert (Hn1 : Z.to_nat (page_limit - page_count s1) = pred n) by lia.
  assert (Hlt : (pred n < n)%nat) by lia.
  destruct (IH (pred n) Hlt fuel s1 Hn1 ltac:(lia)) as (E1 & Hne).
  destruct (IH (pred n) Hlt n s1 Hn1 ltac:(lia)) as (E2 & _).
  rewrite E1, E2. destruct (run env cfg s1) as [[evs' s2] res]. cbn [snd] in *.
  split; [reflexivity|exact Hne].
Qed.

(** The run never runs out of fuel: the generator always ends. *)
Lemma run_terminates s : snd (run env cfg s) <> OutOfFuel.
Proof.
  apply (while_loop_fuel _ (fuel_for s) s eq_refl). unfold fuel_for. lia.
Qed.

(** The loop, unrolled once. *)
Lemma run_unfold s :
  run env cfg s =
  if page_count s <? page_limit then
    let '(evs, s1, out) := loop_body env cfg s in
    match out with
    | TryContinue =>
        let '(evs', s2, res) := run env cfg s1 in (evs ++ evs', s2, res)
    | TryBreak why => (evs, s1, Stopped why)
    | TryReturn => (evs, s1, Stopped ExitPausedMidPage)
    | TryRaise e => (evs, s1, Failed e)
    end
  else ([], s, Stopped ExitPageLimit).
Proof.
  unfold run at 1, fuel_for. cbn [while_loop].
  destruct (page_count s <? page_limit) eqn:Elt; [|reflexivity].
  apply Z.ltb_lt in Elt.
  destruct (loop_body env cfg s) as [[evs s1] out] eqn:Eb.
  destruct out as [|why| |e]; try reflexivity.
  apply loop_body_continue in Eb as (Hp & _).
  destruct (while_loop_fuel _ (Z.to_nat (page_limit - page_count s)) s1 eq_refl
              ltac:(lia)) as (-> & _).
  reflexivity.
Qed.

(** Complete iterations come first in the trace of the run. *)
Lemma run_iterates s0 pre s :
  iterates env cfg s0 pre s ->
  run env cfg s0 =
  let '(tr, s', res) := run env cfg s in (pre ++ tr, s', res).
Proof.
  induction 1 as [s|s evs s1 tr s2 Hlt Eb _ IH].
  - destruct (run env cfg s) as [[tr s'] res]. reflexivity.
  - rewrite run_unfold. apply Z.ltb_lt in Hlt. rewrite Hlt, Eb, IH.
    destruct (run env cfg s2) as [[tr' s'] res]. rewrite app_assoc. reflexivity.
Qed.

(** The loop variables count what the trace shows. *)
Lemma iterates_counts s0 pre s :
  iterates env cfg s0 pre s ->
  page_count s = page_count s0 + Z.of_nat (length (fetched pre))
  /\ total_records s = total_records s0 + Z.of_nat (length (yielded pre)).
Proof.
  induction 1 as [s|s evs s1 tr s2 Hlt Eb _ IH].
  - cbn. lia.
  - apply loop_body_continue in Eb as (Hp & Ht & Hf & _).
    rewrite fetched_app, yielded_app, !length_app, Hf. cbn [length]. lia.
Qed.

(** Iterations can be added at the end. *)
Lemma iterates_snoc s0 pre s evs s1 :
  iterates env cfg s0 pre s ->
  page_count s < page_limit ->
  loop_body env cfg s = (evs, s1, TryContinue) ->
  iterates env cfg s0 (pre ++ evs) s1.
Proof.
  induction 1 as [s|s evs0 s1' tr s2 Hlt Eb _ IH]; intros Hlt' Eb'.
  - rewrite <- (app_nil_r evs). cbn [app]. econstructor; eauto. constructor.
  - rewrite <- app_assoc. econstructor; eauto.
Qed.

End RunFacts.

Section IterationEvents.
Context `{PyBuiltins}.
Variable env : environment.
Variable cfg : config.

Lemma uneventful_calm tr :
  uneventful tr ->
  ~ In (EvRecordPauseCheck (Ok true)) tr
  /\ (forall d e, ~ In (EvTransform d (Raise e)) tr).
Proof. intros (_ & ? & ?). auto. Qed.

Lemma saved_or_nothing_calm saved cp (P : Prop) :
  saved = [] \/ P /\ saved_as env saved cp ->
  ~ In (EvRecordPauseCheck (Ok true)) saved
  /\ (forall d e, ~ In (EvTransform d (Raise e)) saved).
Proof.
  intros [->|(_ & Hs)]; [cbn; tauto|].
  destruct (saved_as_facts env _ _ Hs) as (_ & _ & _ & _ & ? & ? & _). auto.
Qed.

(** A pause before a record or a failed transformation decides how the
    iteration ends. *)
Lemma loop_body_events s evs s' out :
  loop_body env cfg s = (evs, s', out) ->
  (In (EvRecordPauseCheck (Ok true)) evs -> out = TryReturn)
  /\ (forall d e, In (EvTransform d (Raise e)) evs -> out = TryRaise e).
Proof.
  intros E. pose proof (loop_body_cases env cfg _ _ _ _ E) as Hc.
  assert (Hpage : forall pre io data evs' s3,
            evs = pre ++ EvFetch (after s) io (Ok data) :: evs' ->
            polls_only pre ->
            process_page env cfg data s3 = (evs', s', out) ->
            out <> TryReturn ->
            (forall e, out <> TryRaise e) ->
            ~ In (EvRecordPauseCheck (Ok true)) evs
            /\ (forall d e, ~ In (EvTransform d (Raise e)) evs)).
  { intros pre io data evs' s3 -> Hpre Epage Hnr Hne.
    destruct (polls_only_facts _ Hpre) as (_ & _ & _ & _ & _ & Hp1 & Hp2 & _).
    apply process_page_facts in Epage as (_ & _ & Hout).
    assert (Hev : ~ In (EvRecordPauseCheck (Ok true)) evs'
                  /\ (forall d e, ~ In (EvTransform d (Raise e)) evs')).
    { destruct out as [|why| |e]; [| |congruence|destruct (Hne e eq_refl)].
      - destruct Hout as (r_evs & saved & c & -> & _ & _ & _ & _ & Hu & _ & Hs).
        destruct (uneventful_calm _ Hu) as (Hu1 & Hu2).
        destruct (saved_or_nothing_calm _ _ _ Hs) as (Hs1 & Hs2).
        split; [|intros d e]; rewrite in_app_iff; [tauto|].
        specialize (Hu2 d e). specialize (Hs2 d e). tauto.
      - destruct why; try contradiction.
        destruct Hout as (r_evs & saved & final & -> & _ & _ & _ & _ & Hu & _ & Hs & Hf).
        destruct (uneventful_calm _ Hu) as (Hu1 & Hu2).
        destruct (saved_or_nothing_calm _ _ _ Hs) as (Hs1 & Hs2).
        destruct (saved_as_facts env _ _ Hf) as (_ & _ & _ & _ & Hf1 & Hf2 & _).
        split; [|intros d e]; rewrite !in_app_iff; [tauto|].
        specialize (Hu2 d e). specialize (Hs2 d e). specialize (Hf2 d e). tauto. }
    destruct Hev as (Hev1 & Hev2).
    split; [|intros d e]; rewrite in_app_iff; cbn.
    - intuition congruence.
    - specialize (Hp2 d e). specialize (Hev2 d e). intuition congruence. }
  destruct out as [|why| |e].
  - apply loop_try_facts in Hc as (pre & io & data & evs' & s3 & Hevs & Hpre & _ & Epage).
    destruct (Hpage _ _ _ _ _ Hevs Hpre Epage ltac:(discriminate) ltac:(discriminate))
      as (H1 & H2).
    split; [tauto|]. intros d e Hin. destruct (H2 _ _ Hin).
  - apply loop_try_facts in Hc.
    assert (Hno : ~ In (EvRecordPauseCheck (Ok true)) evs
                  /\ (forall d e, ~ In (EvTransform d (Raise e)) evs)).
    { destruct why.
      - destruct Hc as (_ & _ & saved & -> & Hs).
        destruct (saved_as_facts env _ _ Hs) as (_ & _ & _ & _ & Hs1 & Hs2 & _).
        split; [|intros d e; specialize (Hs2 d e)]; cbn; intuition congruence.
      - destruct Hc as (_ & _ & pre & saved & ts & -> & Hpre & Hs).
        destruct (polls_only_facts _ Hpre) as (_ & _ & _ & _ & _ & Hp1 & Hp2 & _).
        destruct (saved_as_facts env _ _ Hs) as (_ & _ & _ & _ & Hs1 & Hs2 & _).
        split; [|intros d e; specialize (Hs2 d e); specialize (Hp2 d e)];
          rewrite in_app_iff; cbn; intuition congruence.
      - destruct Hc as (pre & io & data & evs' & s3 & Hevs & Hpre & _ & Epage).
        eapply Hpage; eauto; discriminate.
      - destruct Hc as (pre & io & data & evs' & s3 & Hevs & Hpre & _ & Epage).
        eapply Hpage; eauto; discriminate.
      - destruct Hc as (pre & io & data & evs' & s3 & Hevs & Hpre & _ & Epage).
        eapply Hpage; eauto; discriminate. }
    destruct Hno as (H1 & H2).
    split; [tauto|]. intros d e Hin. destruct (H2 _ _ Hin).
  - split; [reflexivity|].
    apply loop_try_facts in Hc as (pre & io & data & evs' & s3 & -> & Hpre & _ & Epage).
    destruct (polls_only_facts _ Hpre) as (_ & _ & _ & _ & _ & _ & Hp2 & _).
    apply process_page_facts in Epage
      as (_ & _ & _ & before & saved & -> & _ & Hu & _ & _ & ts & Hs).
    destruct (uneventful_calm _ Hu) as (_ & Hu2).
    destruct (saved_as_facts env _ _ Hs) as (_ & _ & _ & _ & _ & Hs2 & _).
    intros d e. rewrite !in_app_iff. cbn. rewrite in_app_iff. cbn.
    specialize (Hp2 d e). specialize (Hu2 d e). specialize (Hs2 d e).
    intuition congruence.
  - destruct Hc as (evs0 & s1 & saved & Et & -> & _ & Hs).
    apply loop_try_facts in Et as (_ & _ & _ & Hnp & Hraise).
    destruct (saved_as_facts env _ _ Hs) as (_ & _ & _ & _ & Hs1 & Hs2 & _).
    split.
    + rewrite in_app_iff. tauto.
    + intros d e'. rewrite in_app_iff. intros [Hin|Hin].
      * rewrite (Hraise _ _ Hin). reflexivity.
      * destruct (Hs2 _ _ Hin).
Qed.
End IterationEvents.

Section PollFacts.
Context `{PyBuiltins}.
Variable env : environment.
Variable cfg : config.

(** Three request exceptions in a row exhaust the client: [get_deals]
    raises the last one after three requests. *)
Lemma get_deals_three_failures n limit after props arch cl e1 e2 e3 :
  List.map verdict_of (answers n (deals_params limit after props arch) cl 3)
  = [Fails e1; Fails e2; Fails e3] ->
  exists io cl',
    get_deals n limit after props arch cl = (io, cl', Raise e3)
    /\ length (requests_sent io) = 3%nat.
Proof.
  intros Hv. unfold get_deals, _make_request. change max_retries with 3%nat.
  pose proof (request_attempts_policy n (deals_params limit after props arch)
                3 0 cl 3 eq_refl (le_n _)) as Hpol.
  rewrite Hv in Hpol.
  specialize (Hpol ltac:(repeat constructor) ltac:(lia)).
  destruct (request_attempts n (seq 0 3) _ cl) as [[io cl'] res].
  destruct Hpol as (Hreq & Hres & _ & _).
  exists io, cl'. split.
  - subst res. change (Nat.min 3 2) with 2%nat.
    assert (Hlast : verdict_of (session_request n (n_request cl + 2)
                                  (deals_params limit after props arch)) = Fails e3).
    { unfold answers in Hv. cbn [seq List.map] in Hv. congruence. }
    rewrite Hlast. reflexivity.
  - rewrite Hreq, length_map. unfold answers. rewrite length_map, length_seq. reflexivity.
Qed.

Lemma poll_cancel_not_now s :
  not_now (check_cancel_callback env) (n_cancel s) ->
  exists evs s1,
    poll_cancel env s = (evs, s1, Ok false)
    /\ polls_only evs /\ same_vars s s1
    /\ api_service s1 = api_service s /\ n_pause s1 = n_pause s.
Proof.
  unfold not_now, poll_cancel. destruct (check_cancel_callback env) as [f|].
  - intros ->. eexists _, _. split; [reflexivity|].
    repeat split. constructor; [auto|constructor].
  - intros _. eexists _, _. split; [reflexivity|]. repeat split. constructor.
Qed.

Lemma poll_pause_not_now s :
  not_now (check_pause_callback env) (n_pause s) ->
  exists evs s1,
    poll_pause env s = (evs, s1, Ok false)
    /\ polls_only evs /\ same_vars s s1
    /\ api_service s1 = api_service s.
Proof.
  unfold not_now, poll_pause. destruct (check_pause_callback env) as [f|].
  - intros ->. eexists _, _. split; [reflexivity|].
    repeat split. constructor; [auto|constructor].
  - intros _. eexists _, _. split; [reflexivity|]. repeat split. constructor.
Qed.
End PollFacts.

(** * Runs that nothing interrupts *)

Section CleanRun.
Context `{PyBuiltins}.
Variable env : environment.
Variable cfg : config.

(** On a reliable network [get_deals] returns the server's page for the
    cursor it sends. *)
Lemma get_deals_reliable server n limit after props arch cl :
  reliable server n ->
  exists io cl',
    get_deals n limit after props arch cl = (io, cl', Ok (server (sent_cursor after))).
Proof.
  intros Hrel. unfold get_deals, _make_request. change max_retries with 3%nat.
  set (params := deals_params limit after props arch).
  destruct (Hrel (n_request cl) params) as (r & Hr & H429 & Hstatus & Hjson).
  assert (Hv : verdict_of (session_request n (n_request cl) params) = Succeeds r).
  { rewrite Hr. unfold verdict_of.
    destruct (status_code r =? 429) eqn:E; [apply Z.eqb_eq in E; contradiction|].
    destruct ((400 <=? status_code r) && (status_code r <? 600)) eqn:E'; [|reflexivity].
    apply andb_true_iff in E' as (E1 & E2). apply Z.leb_le in E1. apply Z.ltb_lt in E2.
    lia. }
  pose proof (request_attempts_policy n params 3 0 cl 0 eq_refl ltac:(lia)
                ltac:(constructor)) as Hpol.
  rewrite Nat.add_0_r, Hv in Hpol. specialize (Hpol ltac:(intros _ []) ).
  destruct (request_attempts n (seq 0 3) params cl) as [[io cl'] res].
  destruct Hpol as (_ & -> & _). exists io, cl'. cbn [Nat.min].
  rewrite Nat.add_0_r, Hv. cbn. rewrite Hjson. reflexivity.
Qed.

Lemma poll_never_true s :
  never_true (check_cancel_callback env) ->
  never_true (check_pause_callback env) ->
  not_now (check_cancel_callback env) (n_cancel s)
  /\ not_now (check_pause_callback env) (n_pause s).
Proof.
  unfold never_true, not_now.
  destruct (check_cancel_callback env), (check_pause_callback env); auto.
Qed.

(** Each conversion succeeds on a convertible deal. *)
Lemma transform_convertible deal scan tenant page uuid now :
  convertible deal = true ->
  exists row, transform_hubspot_deal deal scan tenant page uuid now = Ok row.
Proof.
  unfold convertible, transform_hubspot_deal. intros Hc.
  apply andb_true_iff in Hc as (Hc & H3). apply andb_true_iff in Hc as (H1 & H2).
  destruct (int_field _ _); [|discriminate].
  destruct (float_field _ "hs_forecast_amount"); [|discriminate].
  destruct (float_field _ "hs_forecast_probability"); [|discriminate].
  eauto.
Qed.

(** Without a pause and with convertible records the record loop runs
    through the page and emits its qualifying rows in order. *)
Lemma process_deals_clean deals : forall k s,
  never_true (check_pause_callback env) ->
  Forall (fun d => convertible d = true) deals ->
  exists evs s',
    process_deals env cfg deals k s
    = (evs, s', RecordsDone (k + Z.of_nat (length (yielded evs))))
    /\ yielded evs = rows_of_deals env cfg deals (page_count s + 1) (n_uuid s) (n_now s)
    /\ n_uuid s' = (n_uuid s + length deals)%nat
    /\ n_now s' = (n_now s + length deals)%nat.
Proof.
  induction deals as [|deal rest IH]; intros k s Hnever Hconv.
  - exists [], s. cbn. rewrite Z.add_0_r, !Nat.add_0_r. auto.
  - apply Forall_cons in Hconv as (Hd & Hrest).
    rewrite process_deals_cons.
    assert (Hpoll : exists polled s1,
              poll_record_pause env s = (polled, s1, Ok false)
              /\ yielded polled = [] /\ page_count s1 = page_count s
              /\ n_uuid s1 = n_uuid s /\ n_now s1 = n_now s).
    { unfold poll_record_pause, never_true in *.
      destruct (check_pause_callback env) as [f|].
      - rewrite Hnever. eexists _, _. repeat split.
      - eexists _, _. repeat split. }
    destruct Hpoll as (polled & s1 & -> & Hpy & Hpp & Hpu & Hpn).
    rewrite Hpu, Hpn.
    destruct (transform_convertible deal (scan_id cfg) (tenant_id cfg) (page_count s + 1)
                (uuid4 env (n_uuid s)) (datetime_now env (n_now s)) Hd) as (row & Hrow).
    rewrite Hrow.
    destruct (IH (if qualifies cfg row then k + 1 else k) (bump_now (bump_uuid s1))
                 Hnever Hrest) as (evs & s' & -> & Hy & Hu & Hn).
    cbn [bump_now bump_uuid page_count n_uuid n_now] in *.
    rewrite Hpp, Hpu, Hpn in *.
    eexists _, _. split; [|split; [|split]].
    + f_equal. f_equal. rewrite !yielded_app, Hpy. unfold record_events.
      destruct (qualifies cfg row); cbn; rewrite ?length_app; cbn; lia.
    + rewrite !yielded_app, Hpy. cbn [rows_of_deals]. rewrite Hrow, Hy.
      unfold record_events. destruct (qualifies cfg row); reflexivity.
    + cbn [length]. lia.
    + cbn [length]. lia.
Qed.

End CleanRun.

Section CleanIteration.
Context `{PyBuiltins}.
Variable env : environment.
Variable cfg : config.

(** An iteration that nothing interrupts: the page for the current
    cursor is fetched, its qualifying rows are emitted in order, and the
    iteration continues with the page's next cursor or, if there is
    none, ends the run with the final checkpoint. *)
Lemma loop_body_clean server s cb :
  checkpoint_callback env = Some cb ->
  never_true (check_cancel_callback env) ->
  never_true (check_pause_callback env) ->
  reliable server (net env) ->
  Forall (fun d => convertible d = true) (results (server (sent_cursor (after s)))) ->
  exists evs s',
    loop_body env cfg s
    = (evs, s', match next_cursor (server (sent_cursor (after s))) with
                | Some _ => TryContinue
                | None => TryBreak ExitCompleted
                end)
    /\ yielded evs
       = rows_of_deals env cfg (results (server (sent_cursor (after s))))
           (page_count s + 1) (n_uuid s) (n_now s)
    /\ fetched evs = [after s]
    /\ page_count s' = page_count s + 1
    /\ total_records s' = total_records s + Z.of_nat (length (yielded evs))
    /\ n_uuid s' = (n_uuid s + length (results (server (sent_cursor (after s)))))%nat
    /\ n_now s' = (n_now s + length (results (server (sent_cursor (after s)))))%nat
    /\ (forall c, next_cursor (server (sent_cursor (after s))) = Some c ->
        after s' = Some c)
    /\ (next_cursor (server (sent_cursor (after s))) = None ->
        exists evs0 r,
          evs = evs0 ++
                [EvCheckpoint
                   (final_checkpoint_after s (Z.of_nat (length (yielded evs)))) r]).
Proof.
  intros Hcb Hcancel Hpause Hrel Hconv.
  set (page := server (sent_cursor (after s))) in *.
  destruct (poll_never_true env s Hcancel Hpause) as (Hc0 & Hp0).
  unfold loop_body, loop_try, cancel_check_interval, pause_check_interval.
  rewrite !every_page_checked.
  destruct (poll_cancel_not_now env s Hc0) as (c_evs & s1 & Ec & Hc_only & _ & _ & Hn1).
  pose proof (poll_cancel_facts env _ _ _ _ Ec) as ((Hva & Hvp & Hvt) & Ha1 & Hu1 & Hw1 & _).
  rewrite Ec. rewrite <- Hn1 in Hp0.
  destruct (poll_pause_not_now env s1 Hp0) as (p_evs & s2 & Ep & Hp_only & _).
  pose proof (poll_pause_facts env _ _ _ _ Ep) as ((Hxa & Hxp & Hxt) & Ha2 & Hu2 & Hw2 & _).
  rewrite Ep.
  destruct (get_deals_reliable server (net env) batch_size (after s2) (properties cfg)
              (archived_filter cfg) (api_service s2) Hrel) as (io & cl & Eg).
  assert (Eafter : after s2 = after s) by congruence.
  rewrite Eg, Eafter. fold page.
  unfold process_page.
  set (s3 := set_api_service cl s2).
  destruct (process_deals_clean env cfg (results page) 0 s3 Hpause Hconv)
    as (r_evs & s4 & Er & Hy & Hu4 & Hw4).
  pose proof (process_deals_facts env cfg _ _ _ _ _ _ Er) as ((Hya & Hyp & Hyt) & _ & Hf4 & _).
  rewrite Er. rewrite Z.add_0_l.
  set (page_records := Z.of_nat (length (yielded r_evs))) in *.
  assert (Hs3 : page_count s3 = page_count s /\ total_records s3 = total_records s
                /\ n_uuid s3 = n_uuid s /\ n_now s3 = n_now s /\ after s3 = after s).
  { unfold s3. cbn. repeat split; congruence. }
  destruct Hs3 as (Hp3 & Ht3 & Hu3 & Hw3 & Ha3).
  rewrite Hp3, Hu3, Hw3 in *.
  destruct (polls_only_facts _ Hc_only) as (Hcy & Hcf & _).
  destruct (polls_only_facts _ Hp_only) as (Hpy & Hpf & _).
  assert (Hper : exists saved s5,
            periodic_checkpoint env page page_records (update_counters page_records s4)
            = (saved, s5)
            /\ yielded saved = [] /\ fetched saved = []
            /\ page_count s5 = page_count s + 1
            /\ total_records s5 = total_records s + page_records
            /\ n_uuid s5 = n_uuid s4 /\ n_now s5 = n_now s4 /\ after s5 = after s).
  { unfold periodic_checkpoint.
    destruct (page_count (update_counters page_records s4) mod checkpoint_interval =? 0).
    - unfold save_checkpoint. rewrite Hcb. eexists _, _. split; [reflexivity|].
      cbn. repeat split; congruence.
    - eexists _, _. split; [reflexivity|]. cbn. repeat split; congruence. }
  destruct Hper as (saved & s5 & -> & Hsy & Hsf & Hp5 & Ht5 & Hu5 & Hw5 & Ha5).
  assert (Hyield : forall tail, yielded tail = [] ->
            yielded (c_evs ++ p_evs ++ EvFetch (after s) io (Ok page) :: r_evs ++ saved ++ tail)
            = yielded r_evs).
  { intros tail Htail. rewrite !yielded_app, Hcy, Hpy. cbn [app].
    change (yielded (EvFetch (after s) io (Ok page) :: r_evs ++ saved ++ tail))
      with (yielded (r_evs ++ saved ++ tail)).
    rewrite !yielded_app, Hsy, Htail, !app_nil_r. reflexivity. }
  assert (Hfetch : forall tail, fetched tail = [] ->
            fetched (c_evs ++ p_evs ++ EvFetch (after s) io (Ok page) :: r_evs ++ saved ++ tail)
            = [after s]).
  { intros tail Htail. rewrite !fetched_app, Hcf, Hpf. cbn [app].
    rewrite fetched_cons_fetch, !fetched_app, Hf4, Hsf, Htail. reflexivity. }
  destruct (next_cursor page) as [c|] eqn:En.
  - eexists _, _. split; [reflexivity|].
    rewrite <- (app_nil_r saved) at 1 2 3. rewrite (Hyield [] eq_refl), (Hfetch [] eq_refl).
    cbn [set_after page_count total_records n_uuid n_now after].
    fold page_records.
    repeat split; try congruence; try lia.
  - unfold save_checkpoint. rewrite Hcb.
    eexists _, _. split; [reflexivity|].
    rewrite !Hyield, !Hfetch by reflexivity.
    cbn [final_checkpoint bump_checkpoint fst snd page_count total_records n_uuid n_now after].
    fold page_records.
    repeat split; try congruence; try lia; try discriminate.
    intros _. unfold final_checkpoint_after. rewrite Hp5, Ht5.
    eexists (c_evs ++ p_evs ++ EvFetch (after s) io (Ok page) :: r_evs ++ saved), _.
    rewrite <- !app_assoc. cbn [app]. rewrite <- !app_assoc. reflexivity.
Qed.
End CleanIteration.

Section CleanRuns.
Context `{PyBuiltins}.
Variable env : environment.
Variable cfg : config.
Variable server : option string -> deals_page.
Variable cb : nat -> checkpoint -> result unit.
Hypothesis Hcb : checkpoint_callback env = Some cb.
Hypothesis Hcancel : never_true (check_cancel_callback env).
Hypothesis Hpause : never_true (check_pause_callback env).
Hypothesis Hrel : reliable server (net env).

(** From a loop head whose cursor starts a chain of pages that fits
    under the page ceiling, an uninterrupted run goes through the chain:
    it emits the qualifying rows of the pages in order, fetches each page
    once, and ends with the completed checkpoint. *)
Lemma run_completes pages : forall s,
  chain server (after s) pages ->
  page_count s + Z.of_nat (length pages) <= page_limit ->
  Forall (fun p => Forall (fun d => convertible d = true) (results p)) pages ->
  exists tr s',
    run env cfg s = (tr, s', Stopped ExitCompleted)
    /\ yielded tr = rows_of_pages env cfg pages (page_count s) (n_uuid s) (n_now s)
    /\ length (fetched tr) = length pages
    /\ page_count s' = page_count s + Z.of_nat (length pages)
    /\ total_records s' = total_records s + Z.of_nat (length (yielded tr))
    /\ ends_with_checkpoint tr
         (completed_checkpoint (page_count s + Z.of_nat (length pages))
            (total_records s + Z.of_nat (length (yielded tr)))).
Proof.
  unfold completed_checkpoint.
  induction pages as [|page rest IH]; intros s Hchain Hfit Hconv.
  - inversion Hchain.
  - apply Forall_cons in Hconv as (Hpage & Hrest).
    assert (Hlt : page_count s < page_limit) by (cbn [length] in Hfit; lia).
    rewrite run_unfold. apply Z.ltb_lt in Hlt. rewrite Hlt.
    inversion Hchain as [c p Hsrv Hnone|c p c' rest' Hsrv Hnext Hchain']; subst.
    + destruct (loop_body_clean env cfg server s cb Hcb Hcancel Hpause Hrel Hpage)
        as (evs & s' & Eb & Hy & Hf & Hp & Ht & _ & _ & _ & Hfin).
      rewrite Hnone in Eb. rewrite Eb.
      exists evs, s'. split; [reflexivity|].
      cbn [rows_of_pages length]. rewrite app_nil_r, Hf.
      refine (conj Hy (conj eq_refl (conj _ (conj Ht _)))); [cbn; lia|].
      destruct (Hfin Hnone) as (evs0 & r & Hevs).
      exists evs0, r. rewrite Hevs at 1. unfold final_checkpoint_after.
      replace (page_count s + Z.of_nat 1) with (page_count s + 1) by lia.
      reflexivity.
    + destruct (loop_body_clean env cfg server s cb Hcb Hcancel Hpause Hrel Hpage)
        as (evs & s1 & Eb & Hy & Hf & Hp & Ht & Hu & Hw & Hnx & _).
      rewrite Hnext in Eb. rewrite Eb.
      specialize (Hnx _ Hnext).
      destruct (IH s1) as (tr & s' & Er & Hy' & Hf' & Hp' & Ht' & Hend); auto.
      { rewrite Hnx. exact Hchain'. }
      { cbn [length] in Hfit. lia. }
      rewrite Er. exists (evs ++ tr), s'. split; [reflexivity|].
      rewrite yielded_app, fetched_app, !length_app, Hy, Hy', Hf, Hf', Hp, Hu, Hw.
      cbn [rows_of_pages length].
      rewrite Hy, Hp, Ht, Hu, Hw in *. rewrite Hy' in *.
      refine (conj eq_refl (conj eq_refl (conj _ (conj _ _)))); try lia.
      destruct Hend as (tr0 & r & Htr).
      exists (evs ++ tr0), r. rewrite Htr, <- app_assoc.
      rewrite Nat2Z.inj_add, Nat2Z.inj_succ, <- Z.add_1_l, !Z.add_assoc.
      reflexivity.
Qed.

End CleanRuns.

Section ProcessingCheckpoints.
Context `{PyBuiltins}.
Variable env : environment.
Variable cfg : config.

Lemma in_checkpoints tr cp r :
  In (EvCheckpoint cp r) tr -> In cp (checkpoints tr).
Proof.
  induction tr as [|ev tr IH]; intros Hin; [contradiction|].
  destruct Hin as [->|Hin].
  - left. reflexivity.
  - specialize (IH Hin). destruct ev; cbn; auto.
Qed.

Lemma not_in_quiet tr cp r :
  checkpoints tr = [] -> ~ In (EvCheckpoint cp r) tr.
Proof.
  intros Hq Hin. apply in_checkpoints in Hin. rewrite Hq in Hin. contradiction.
Qed.

(** The checkpoint events of an iteration that fetched a page and went
    through its records are the periodic checkpoint and, after the last
    page, the final one. *)
Lemma page_checkpoint_cases pre c io data r_evs saved final cp r :
  polls_only pre ->
  uneventful r_evs ->
  In (EvCheckpoint cp r) (pre ++ EvFetch c io (Ok data) :: r_evs ++ saved ++ final) ->
  In (EvCheckpoint cp r) saved \/ In (EvCheckpoint cp r) final.
Proof.
  intros Hpolls (Hq & _) Hin.
  apply in_app_or in Hin as [Hin|[Hin|Hin]].
  - destruct (polls_only_facts _ Hpolls) as (_ & _ & _ & Hck & _).
    destruct (not_in_quiet _ _ _ Hck Hin).
  - discriminate Hin.
  - apply in_app_or in Hin as [Hin|Hin]; [destruct (not_in_quiet _ _ _ Hq Hin)|].
    apply in_app_or in Hin. exact Hin.
Qed.

Lemma page_yielded pre c io data r_evs saved final cp cp' (P : Prop) :
  polls_only pre ->
  saved = [] \/ P /\ saved_as env saved cp ->
  final = [] \/ saved_as env final cp' ->
  yielded (pre ++ EvFetch c io (Ok data) :: r_evs ++ saved ++ final) = yielded r_evs.
Proof.
  intros Hpolls Hs Hf.
  destruct (polls_only_facts _ Hpolls) as (Hy & _).
  rewrite yielded_app, Hy. cbn [app].
  change (yielded (EvFetch c io (Ok data) :: r_evs ++ saved ++ final))
    with (yielded (r_evs ++ saved ++ final)).
  rewrite !yielded_app.
  assert (Hys : yielded saved = []).
  { destruct Hs as [->|(_ & Hs)]; [reflexivity|]. apply (saved_as_facts env _ _ Hs). }
  assert (Hyf : yielded final = []).
  { destruct Hf as [->|Hf]; [reflexivity|]. apply (saved_as_facts env _ _ Hf). }
  rewrite Hys, Hyf, !app_nil_r. reflexivity.
Qed.

(** Where a processing checkpoint comes from: the iteration fetched a
    page, went through all its records, and its number is a multiple of
    five; the checkpoint carries the page's next cursor, the number of
    the page and the total including the page. *)
Lemma processing_checkpoint_origin s evs s' out cp r :
  loop_body env cfg s = (evs, s', out) ->
  In (EvCheckpoint cp r) evs ->
  cp_phase cp = PhProcessing ->
  exists io data,
    In (EvFetch (after s) io (Ok data)) evs
    /\ cp = processing_checkpoint_after s (Z.of_nat (length (yielded evs)))
              (next_cursor data)
    /\ (page_count s + 1) mod checkpoint_interval = 0
    /\ page_count s' = page_count s + 1
    /\ total_records s' = total_records s + Z.of_nat (length (yielded evs))
    /\ match next_cursor data with
       | Some c => out = TryContinue /\ after s' = Some c
       | None => out = TryBreak ExitCompleted
       end.
Proof.
  intros Eb Hin Hph.
  pose proof (loop_body_cases env cfg _ _ _ _ Eb) as Et.
  destruct out as [|why| |e].
  - cbn in Et. apply loop_try_facts in Et
      as (pre & io & data & evs' & s3 & -> & Hpolls & (Hva & Hvp & Hvt) & Epage).
    apply process_page_facts in Epage
      as (_ & _ & r_evs & saved & c & -> & Hnext & Ha & Hp & Ht & Hu & _ & Hs).
    assert (Hy : yielded (pre ++ EvFetch (after s) io (Ok data) :: r_evs ++ saved)
                 = yielded r_evs).
    { rewrite <- (page_yielded pre (after s) io data r_evs saved [] _
                    (final_checkpoint_after s 0) _ Hpolls Hs (or_introl eq_refl)).
      rewrite app_nil_r. reflexivity. }
    rewrite Hy. rewrite <- (app_nil_r saved) in Hin.
    apply page_checkpoint_cases in Hin as [Hin|[]]; auto.
    destruct Hs as [->|(Hmod & Hs)]; [destruct Hin|].
    apply (saved_as_facts env _ _ Hs) in Hin.
    exists io, data. rewrite Hnext. rewrite Hvp, Hvt in *.
    split; [apply in_or_app; right; left; reflexivity|].
    split; [rewrite Hin; unfold processing_checkpoint_after; rewrite Hvp, Hvt; reflexivity|].
    auto.
  - destruct why; cbn in Et.
    + apply loop_try_facts in Et as (_ & _ & saved & -> & Hs).
      destruct Hin as [Hin|Hin]; [discriminate|].
      apply (saved_as_facts env _ _ Hs) in Hin. subst cp. discriminate.
    + apply loop_try_facts in Et as (_ & _ & pre & saved & ts & -> & Hpolls & Hs).
      apply in_app_or in Hin as [Hin|[Hin|Hin]].
      * destruct (polls_only_facts _ Hpolls) as (_ & _ & _ & Hck & _).
        destruct (not_in_quiet _ _ _ Hck Hin).
      * discriminate.
      * apply (saved_as_facts env _ _ Hs) in Hin. subst cp. discriminate.
    + apply loop_try_facts in Et as (pre & io & data & evs' & s3 & _ & _ & _ & Epage).
      apply process_page_facts in Epage as (_ & _ & []).
    + apply loop_try_facts in Et
        as (pre & io & data & evs' & s3 & -> & Hpolls & (Hva & Hvp & Hvt) & Epage).
      apply process_page_facts in Epage
        as (_ & _ & r_evs & saved & final & -> & Hnext & Ha & Hp & Ht & Hu & _ & Hs & Hf).
      rewrite (page_yielded pre (after s) io data r_evs saved final _ _ _
                 Hpolls Hs (or_intror Hf)).
      apply page_checkpoint_cases in Hin as [Hin|Hin]; auto.
      * destruct Hs as [->|(Hmod & Hs)]; [destruct Hin|].
        apply (saved_as_facts env _ _ Hs) in Hin.
        exists io, data. rewrite Hnext. rewrite Hvp, Hvt in *.
        split; [apply in_or_app; right; left; reflexivity|].
        split; [rewrite Hin; unfold processing_checkpoint_after; rewrite Hvp, Hvt;
                reflexivity|].
        auto.
      * apply (saved_as_facts env _ _ Hf) in Hin. subst cp. discriminate.
    + apply loop_try_facts in Et as (pre & io & data & evs' & s3 & _ & _ & _ & Epage).
      apply process_page_facts in Epage as (_ & _ & []).
  - cbn in Et. apply loop_try_facts in Et
      as (pre & io & data & evs' & s3 & -> & Hpolls & (Hva & Hvp & Hvt) & Epage).
    apply process_page_facts in Epage
      as (_ & _ & _ & before & saved & -> & _ & Hu & _ & _ & ts & Hs).
    apply in_app_or in Hin as [Hin|[Hin|Hin]].
    + destruct (polls_only_facts _ Hpolls) as (_ & _ & _ & Hck & _).
      destruct (not_in_quiet _ _ _ Hck Hin).
    + discriminate.
    + apply in_app_or in Hin as [Hin|[Hin|Hin]].
      * destruct Hu as (Hq & _). destruct (not_in_quiet _ _ _ Hq Hin).
      * discriminate.
      * apply (saved_as_facts env _ _ Hs) in Hin. subst cp. discriminate.
  - destruct Et as (evs0 & s1 & saved & Et & -> & _ & Hs).
    apply loop_try_facts in Et as (_ & Hck & _).
    apply in_app_or in Hin as [Hin|Hin]; [destruct (not_in_quiet _ _ _ Hck Hin)|].
    apply (saved_as_facts env _ _ Hs) in Hin. subst cp. discriminate.
Qed.

End ProcessingCheckpoints.

Section Iterations.
Context `{PyBuiltins}.
Variable env : environment.
Variable cfg : config.

(** What [iterations] computes are complete iterations. *)
Lemma iterations_sound n : forall s tr s',
  iterations env cfg n s = Some (tr, s') -> iterates env cfg s tr s'.
Proof.
  induction n as [|n IH]; intros s tr s' E; cbn [iterations] in E.
  - injection E as <- <-. constructor.
  - destruct (page_count s <? page_limit) eqn:Elt; [|discriminate].
    apply Z.ltb_lt in Elt.
    destruct (loop_body env cfg s) as [[evs s1] out] eqn:Eb.
    destruct out; try discriminate.
    destruct (iterations env cfg n s1) as [[tr1 s2]|] eqn:En; [|discriminate].
    injection E as <- <-. econstructor; eauto.
Qed.

(** Every page of [pages] passes the boolean test. *)
Lemma all_convertible_sound pages :
  forallb (fun p => forallb convertible (results p)) pages = true ->
  Forall (fun p => Forall (fun d => convertible d = true) (results p)) pages.
Proof.
  induction pages as [|p rest IH]; intros Hall; constructor;
    cbn [forallb] in Hall; apply andb_prop in Hall as (Hp & Hrest); auto.
  clear -Hp. induction (results p) as [|d ds IHd]; constructor;
    cbn [forallb] in Hp; apply andb_prop in Hp as (Hd & Hds); auto.
Qed.

End Iterations.

(** * Iterations that something interrupts *)

Section RecordPrefix.
Context `{PyBuiltins}.
Variable env : environment.
Variable cfg : config.

(** The records [done] at the head of a page, when the pause predicate
    answers false at the check before each of them and each of them
    converts: they are transformed in order, the qualifying rows are
    emitted, and the loop goes on with the rest of the page. *)
Lemma process_deals_prefix done : forall rest k s,
  (forall i, (i < length done)%nat ->
             not_now (check_pause_callback env) (n_pause s + i)) ->
  Forall (fun d => convertible d = true) done ->
  exists before s1,
    process_deals env cfg (done ++ rest) k s
    = (let '(evs, s2, out) :=
         process_deals env cfg rest (k + Z.of_nat (length (yielded before))) s1 in
       (before ++ evs, s2, out))
    /\ yielded before
       = rows_of_deals env cfg done (page_count s + 1) (n_uuid s) (n_now s)
    /\ transformed before = done
    /\ uneventful before
    /\ fetched before = []
    /\ same_vars s s1
    /\ api_service s1 = api_service s
    /\ n_uuid s1 = (n_uuid s + length done)%nat
    /\ n_now s1 = (n_now s + length done)%nat
    /\ (check_pause_callback env <> None ->
        n_pause s1 = (n_pause s + length done)%nat
        /\ record_checks before = repeat (Ok false) (length done)).
Proof.
  induction done as [|deal done IH]; intros rest k s Hchecks Hconv.
  - exists [], s. cbn [app length yielded omap Z.of_nat]. rewrite Z.add_0_r, !Nat.add_0_r.
    destruct (process_deals env cfg rest k s) as [[evs s2] out].
    split; [reflexivity|]. split; [reflexivity|]. split; [reflexivity|].
    split; [apply uneventful_nil|]. split; [reflexivity|].
    split; [apply same_vars_refl|]. repeat split; reflexivity.
  - apply Forall_cons in Hconv as (Hd & Hrest).
    cbn [app]. rewrite process_deals_cons.
    assert (Hpoll : exists polled s1,
              poll_record_pause env s = (polled, s1, Ok false)
              /\ yielded polled = [] /\ transformed polled = []
              /\ uneventful polled /\ fetched polled = []
              /\ same_vars s s1 /\ api_service s1 = api_service s
              /\ n_uuid s1 = n_uuid s /\ n_now s1 = n_now s
              /\ (check_pause_callback env = None -> n_pause s1 = n_pause s)
              /\ (check_pause_callback env <> None ->
                  n_pause s1 = S (n_pause s) /\ record_checks polled = [Ok false])).
    { pose proof (Hchecks 0%nat ltac:(cbn; lia)) as H0. rewrite Nat.add_0_r in H0.
      unfold poll_record_pause, not_now in *.
      destruct (check_pause_callback env) as [f|].
      - rewrite H0. eexists _, _. split; [reflexivity|].
        repeat split; try reflexivity; try congruence.
        + intros [E|[]]. discriminate.
        + intros d e [E|[]]. discriminate.
      - eexists _, _. split; [reflexivity|].
        repeat split; try reflexivity; try congruence; intros; cbn; tauto. }
    destruct Hpoll as (polled & s1 & -> & Hpy & Hpt & Hpu & Hpf & (Hva & Hvp & Hvt)
                       & Hapi & Hu1 & Hn1 & Hnone & Hsome).
    rewrite Hu1, Hn1.
    destruct (transform_convertible deal (scan_id cfg) (tenant_id cfg) (page_count s + 1)
                (uuid4 env (n_uuid s)) (datetime_now env (n_now s)) Hd) as (row & Hrow).
    rewrite Hrow.
    assert (Hnext : forall i, (i < length done)%nat ->
              not_now (check_pause_callback env)
                      (n_pause (bump_now (bump_uuid s1)) + i)).
    { intros i Hi. cbn [bump_now bump_uuid n_pause].
      pose proof (Hchecks (S i) ltac:(cbn; lia)) as HS.
      unfold not_now in *. destruct (check_pause_callback env) as [f|] eqn:Ecb; [|exact I].
      destruct (Hsome ltac:(discriminate)) as (-> & _).
      replace (S (n_pause s) + i)%nat with (n_pause s + S i)%nat by lia. exact HS. }
    destruct (IH rest (if qualifies cfg row then k + 1 else k) (bump_now (bump_uuid s1))
                 Hnext Hrest)
      as (before & s2 & -> & Hy & Ht & Hunev & Hf & (Hwa & Hwp & Hwt) & Hapi2 & Hu2
          & Hn2 & Hp2).
    cbn [bump_now bump_uuid page_count n_uuid n_now n_pause after total_records
         api_service] in *.
    destruct (record_events_facts cfg deal row) as (Heu & Hef & Het & Hec & Hey).
    exists (polled ++ record_events cfg deal row ++ before), s2.
    assert (Hlen : (if qualifies cfg row then k + 1 else k)
                   + Z.of_nat (length (yielded before))
                   = k + Z.of_nat (length (yielded (polled ++ record_events cfg deal row
                                                        ++ before)))).
    { rewrite !yielded_app, Hpy, Hey. cbn [app].
      destruct (qualifies cfg row); cbn [app length]; lia. }
    rewrite Hlen.
    destruct (process_deals env cfg rest _ s2) as [[evs s3] out].
    split; [rewrite <- !app_assoc; reflexivity|].
    split.
    { rewrite !yielded_app, Hpy, Hey, Hy. cbn [rows_of_deals app].
      rewrite Hrow, Hvp, Hu1, Hn1. reflexivity. }
    split; [rewrite !transformed_app, Hpt, Het, Ht; reflexivity|].
    split; [apply uneventful_app; [exact Hpu|apply uneventful_app; assumption]|].
    split; [rewrite !fetched_app, Hpf, Hef, Hf; reflexivity|].
    split; [repeat split; congruence|].
    split; [congruence|].
    split; [cbn [length]; lia|]. split; [cbn [length]; lia|].
    intros Hcb. destruct (Hsome Hcb) as (Hps & Hrc). destruct (Hp2 Hcb) as (Hps2 & Hrc2).
    split; [cbn [length]; lia|].
    rewrite !record_checks_app, Hrc, Hec, Hrc2. reflexivity.
Qed.

(** The boundary checks and the fetch of an iteration in which neither
    predicate stops the run and the client returns the page [data]. *)
Lemma loop_try_reaches_page s io cl data :
  not_now (check_cancel_callback env) (n_cancel s) ->
  not_now (check_pause_callback env) (n_pause s) ->
  get_deals (net env) batch_size (after s) (properties cfg) (archived_filter cfg)
            (api_service s) = (io, cl, Ok data) ->
  exists polls s3,
    loop_try env cfg s
    = (let '(evs, s4, out) := process_page env cfg data s3 in
       (polls ++ EvFetch (after s) io (Ok data) :: evs, s4, out))
    /\ polls_only polls
    /\ same_vars s s3
    /\ n_uuid s3 = n_uuid s /\ n_now s3 = n_now s
    /\ (check_pause_callback env <> None -> n_pause s3 = S (n_pause s)).
Proof.
  intros Hcancel Hpause Hget.
  unfold loop_try, cancel_check_interval, pause_check_interval.
  rewrite !every_page_checked.
  assert (Hc : exists c_evs s1,
            poll_cancel env s = (c_evs, s1, Ok false)
            /\ polls_only c_evs /\ same_vars s s1 /\ api_service s1 = api_service s
            /\ n_pause s1 = n_pause s /\ n_uuid s1 = n_uuid s /\ n_now s1 = n_now s).
  { unfold not_now, poll_cancel in *. destruct (check_cancel_callback env) as [f|].
    - rewrite Hcancel. eexists _, _. split; [reflexivity|].
      repeat split. constructor; [auto|constructor].
    - eexists _, _. split; [reflexivity|]. repeat split. constructor. }
  destruct Hc as (c_evs & s1 & -> & Hc_only & (Hva & Hvp & Hvt) & Ha1 & Hp1 & Hu1 & Hn1).
  assert (Hp : exists p_evs s2,
            poll_pause env s1 = (p_evs, s2, Ok false)
            /\ polls_only p_evs /\ same_vars s1 s2 /\ api_service s2 = api_service s1
            /\ n_uuid s2 = n_uuid s1 /\ n_now s2 = n_now s1
            /\ (check_pause_callback env <> None -> n_pause s2 = S (n_pause s1))).
  { unfold not_now, poll_pause in *. rewrite Hp1.
    destruct (check_pause_callback env) as [f|].
    - rewrite Hpause. eexists _, _. split; [reflexivity|].
      repeat split; try congruence; try (intros _; cbn; congruence).
      constructor; [auto|constructor].
    - eexists _, _. split; [reflexivity|]. repeat split; try congruence. constructor. }
  destruct Hp as (p_evs & s2 & -> & Hp_only & (Hwa & Hwp & Hwt) & Ha2 & Hu2 & Hn2 & Hp2).
  assert (Eafter : after s2 = after s) by congruence.
  assert (Eapi : api_service s2 = api_service s) by congruence.
  rewrite Eafter, Eapi, Hget.
  exists (c_evs ++ p_evs), (set_api_service cl s2).
  destruct (process_page env cfg data (set_api_service cl s2)) as [[evs s4] out].
  split; [rewrite <- app_assoc; reflexivity|].
  split; [apply Forall_app; auto|].
  split; [cbn [set_api_service]; repeat split; cbn; congruence|].
  cbn [set_api_service n_uuid n_now n_pause].
  split; [congruence|]. split; [congruence|].
  intros Hcb. rewrite (Hp2 Hcb). congruence.
Qed.

End RecordPrefix.

(** * The properties of the specification *)

Section FullRun.
Context `{PyBuiltins}.
Variable env : environment.
Variable cfg : config.

(** C1, within the page ceiling.  Let the caller supply a checkpoint
    callback, let neither predicate ever answer true, let every request
    be answered with the server's page, let [pages] be the chain of pages
    the server holds from the first cursor on, at most 1000 of them, and
    let the conversions of [transform_hubspot_deal] that are not guarded
    succeed on every record.  Then a fresh run completes: it fetches each
    page once, it emits exactly the qualifying rows of the pages, page
    after page and within a page in array order, and its last event is
    the completed checkpoint, whose cursor is null and which counts the
    pages and the rows emitted. *)
Theorem full_run_within_ceiling server cb pages cl :
  checkpoint_callback env = Some cb ->
  never_true (check_cancel_callback env) ->
  never_true (check_pause_callback env) ->
  reliable server (net env) ->
  chain server None pages ->
  (length pages <= 1000)%nat ->
  Forall (fun p => Forall (fun d => convertible d = true) (results p)) pages ->
  exists tr s',
    get_hubspot_deals env cfg None cl = (tr, s', Stopped ExitCompleted)
    /\ yielded tr = rows_of_pages env cfg pages 0 0 0
    /\ length (fetched tr) = length pages
    /\ ends_with_checkpoint tr
         (completed_checkpoint (Z.of_nat (length pages))
            (Z.of_nat (length (yielded tr))))
    /\ cursor (completed_checkpoint (Z.of_nat (length pages))
                 (Z.of_nat (length (yielded tr)))) = None.
Proof.
  intros Hcb Hcancel Hpause Hrel Hchain Hlen Hconv.
  unfold get_hubspot_deals.
  destruct (run_completes env cfg server cb Hcb Hcancel Hpause Hrel pages
              (initial_state None cl))
    as (tr & s' & Er & Hy & Hf & _ & _ & Hend); auto.
  { cbn. unfold page_limit. lia. }
  exists tr, s'. cbn in Hy, Hend. auto.
Qed.

End FullRun.

Section Resume.
Context `{PyBuiltins}.
Variable env : environment.
Variable cfg : config.

(** C2, for the checkpoints that name a next page.  Let a processing
    checkpoint [cp] with a cursor [ck] be saved in the iteration that
    follows the complete iterations [pre] of some run.  Then [cp] counts
    exactly the pages fetched and the records emitted up to it, and the
    run goes on with [ck].  If moreover the pages the server holds from
    [ck] on are the chain [rest], which fits under the page ceiling
    counted from the checkpoint's page number, then a run seeded with the
    checkpoint's cursor, page number and record count, which is not
    interrupted and whose records convert, completes, emits exactly the
    qualifying rows of [rest], and ends with a record count of the
    checkpoint's count plus the number of those rows. *)
Theorem resume_from_processing_checkpoint
    server cb s0 pre s evs s1 out cp r ck rest cl :
  checkpoint_callback env = Some cb ->
  never_true (check_cancel_callback env) ->
  never_true (check_pause_callback env) ->
  reliable server (net env) ->
  iterates env cfg s0 pre s ->
  page_count s < page_limit ->
  loop_body env cfg s = (evs, s1, out) ->
  In (EvCheckpoint cp r) evs ->
  cp_phase cp = PhProcessing ->
  cursor cp = Some ck ->
  chain server (Some ck) rest ->
  page_number cp + Z.of_nat (length rest) <= page_limit ->
  Forall (fun p => Forall (fun d => convertible d = true) (results p)) rest ->
  records_processed cp = total_records s0 + Z.of_nat (length (yielded (pre ++ evs)))
  /\ page_number cp = page_count s0 + Z.of_nat (length (fetched (pre ++ evs)))
  /\ iterates env cfg s0 (pre ++ evs) s1
  /\ after s1 = Some ck
  /\ exists tr s',
       get_hubspot_deals env cfg (Some (resume_from_checkpoint cp)) cl
       = (tr, s', Stopped ExitCompleted)
       /\ yielded tr = rows_of_pages env cfg rest (page_number cp) 0 0
       /\ length (fetched tr) = length rest
       /\ total_records s'
          = records_processed cp + Z.of_nat (length (yielded tr))
       /\ ends_with_checkpoint tr
            (completed_checkpoint (page_number cp + Z.of_nat (length rest))
               (records_processed cp + Z.of_nat (length (yielded tr)))).
Proof.
  intros Hcb Hcancel Hpause Hrel Hit Hlt Eb Hin Hph Hck Hchain Hfit Hconv.
  destruct (iterates_counts env cfg _ _ _ Hit) as (Hp & Ht).
  destruct (processing_checkpoint_origin env cfg _ _ _ _ _ _ Eb Hin Hph)
    as (io & data & Hfetch & Hcp & _ & Hp1 & Ht1 & Hnext).
  assert (Enext : next_cursor data = Some ck).
  { rewrite Hcp in Hck. exact Hck. }
  rewrite Enext in Hnext. destruct Hnext as (-> & Ha1).
  pose proof (iterates_snoc env cfg _ _ _ _ _ Hit Hlt Eb) as Hit1.
  destruct (iterates_counts env cfg _ _ _ Hit1) as (Hp' & Ht').
  assert (Hr : records_processed cp
               = total_records s0 + Z.of_nat (length (yielded (pre ++ evs)))).
  { rewrite Hcp. cbn. rewrite <- Ht', Ht1. reflexivity. }
  assert (Hn : page_number cp
               = page_count s0 + Z.of_nat (length (fetched (pre ++ evs)))).
  { rewrite Hcp. cbn. rewrite <- Hp', Hp1. reflexivity. }
  refine (conj Hr (conj Hn (conj Hit1 (conj Ha1 _)))).
  unfold get_hubspot_deals.
  destruct (run_completes env cfg server cb Hcb Hcancel Hpause Hrel rest
              (initial_state (Some (resume_from_checkpoint cp)) cl))
    as (tr & s' & Er & Hy & Hf & _ & Htot & Hend); auto.
  { cbn. rewrite Hck. exact Hchain. }
  exists tr, s'. cbn in Hy, Htot, Hend. auto.
Qed.

End Resume.

Section MidPagePause.
Context `{PyBuiltins}.
Variable env : environment.
Variable cfg : config.

(** What the record loop does when the pause predicate answers true at
    the check before a record. *)
Lemma process_deals_paused deal rest k s f :
  check_pause_callback env = Some f ->
  f (n_pause s) = Ok true ->
  exists saved s',
    process_deals env cfg (deal :: rest) k s
    = (EvRecordPauseCheck (Ok true) :: saved, s', RecordsPaused)
    /\ same_vars s s'
    /\ saved_as env saved (fst (mid_page_checkpoint env k s)).
Proof.
  intros Hcb Htrue. rewrite process_deals_cons.
  unfold poll_record_pause. rewrite Hcb, Htrue.
  unfold save_checkpoint, saved_as.
  destruct (checkpoint_callback env) as [cb|].
  - eexists _, _. split; [reflexivity|]. split; [repeat split|]. eauto.
  - eexists _, _. split; [reflexivity|]. split; [repeat split|]. reflexivity.
Qed.

(** C3, with or without a checkpoint callback.  Let the iteration for
    page p pass its boundary checks and fetch the page, let the pause
    predicate answer false at the check before each of the records
    [done] at the head of the page (which convert), and true at the
    check before the next record; [done] may be empty, so the first
    answer of true may come before the first record.  Then the run
    consists of the iterations before, the boundary checks, the fetch,
    the events of [done], each record preceded by its own check, that
    last check and what saving the paused_mid_page checkpoint leaves,
    and the generator returns: the record before which the predicate
    answered true and the records after it are not processed.  The
    checkpoint carries the total through page p-1 plus the rows of
    [done] that were emitted, and the cursor with which page p was
    fetched; it is handed to the checkpoint callback if there is one,
    and without a callback nothing is saved. *)
Theorem mid_page_pause s0 pre s f io cl data done deal rest :
  iterates env cfg s0 pre s ->
  page_count s < page_limit ->
  not_now (check_cancel_callback env) (n_cancel s) ->
  check_pause_callback env = Some f ->
  (forall i, (i <= length done)%nat -> f (n_pause s + i)%nat = Ok false) ->
  f (n_pause s + S (length done))%nat = Ok true ->
  get_deals (net env) batch_size (after s) (properties cfg) (archived_filter cfg)
            (api_service s) = (io, cl, Ok data) ->
  results data = done ++ deal :: rest ->
  Forall (fun d => convertible d = true) done ->
  exists polls before saved s',
    run env cfg s0
    = (pre ++ polls ++ EvFetch (after s) io (Ok data)
           :: before ++ EvRecordPauseCheck (Ok true) :: saved,
       s', Stopped ExitPausedMidPage)
    /\ polls_only polls
    /\ transformed before = done
    /\ record_checks before = repeat (Ok false) (length done)
    /\ yielded before
       = rows_of_deals env cfg done (page_count s + 1) (n_uuid s) (n_now s)
    /\ saved_as env saved
         {| cp_phase := PhPausedMidPage;
            records_processed :=
              total_records s0 + Z.of_nat (length (yielded pre))
              + Z.of_nat (length (yielded before));
            cursor := after s;
            page_number := page_count s0 + Z.of_nat (length (fetched pre));
            batch_size_of := batch_size;
            checkpoint_data :=
              MidPageData (page_count s0 + Z.of_nat (length (fetched pre)))
                          (Z.of_nat (length (yielded before)))
                          (isoformat (datetime_now env (n_now s + length done))) |}
    /\ yielded (fst (fst (run env cfg s0))) = yielded pre ++ yielded before
    /\ transformed (fst (fst (run env cfg s0))) = transformed pre ++ done
    /\ same_vars s s'.
Proof.
  intros Hit Hlt Hcancel Hcb Hfalse Htrue Hget Hres Hconv.
  destruct (iterates_counts env cfg _ _ _ Hit) as (Hp & Ht).
  assert (Hpause : not_now (check_pause_callback env) (n_pause s)).
  { unfold not_now. rewrite Hcb. rewrite <- (Nat.add_0_r (n_pause s)).
    apply Hfalse. lia. }
  assert (Hsome : check_pause_callback env <> None) by (rewrite Hcb; discriminate).
  destruct (loop_try_reaches_page env cfg s io cl data Hcancel Hpause Hget)
    as (polls & s3 & Etry & Hpolls & (Hva & Hvp & Hvt) & Hu3 & Hn3 & Hp3).
  specialize (Hp3 Hsome).
  assert (Hchecks : forall i, (i < length done)%nat ->
            not_now (check_pause_callback env) (n_pause s3 + i)).
  { intros i Hi. unfold not_now. rewrite Hcb, Hp3.
    replace (S (n_pause s) + i)%nat with (n_pause s + S i)%nat by lia.
    apply Hfalse. lia. }
  destruct (process_deals_prefix env cfg done (deal :: rest) 0 s3 Hchecks Hconv)
    as (before & s4 & Epre & Hy & Htr & Hunev & Hf & (Hwa & Hwp & Hwt) & _ & Hu4 & Hn4
        & Hp4).
  destruct (Hp4 Hsome) as (Hp4' & Hrc).
  assert (Htrue4 : f (n_pause s4) = Ok true).
  { rewrite Hp4', Hp3. replace (S (n_pause s) + length done)%nat
      with (n_pause s + S (length done))%nat by lia. exact Htrue. }
  destruct (process_deals_paused deal rest (0 + Z.of_nat (length (yielded before))) s4 f
              Hcb Htrue4) as (saved & s5 & Epause & (Hxa & Hxp & Hxt) & Hsaved).
  rewrite Epause in Epre.
  assert (Ebody : loop_body env cfg s
                  = (polls ++ EvFetch (after s) io (Ok data)
                       :: before ++ EvRecordPauseCheck (Ok true) :: saved,
                     s5, TryReturn)).
  { unfold loop_body. rewrite Etry. unfold process_page. rewrite Hres, Epre.
    reflexivity. }
  assert (Hrun : run env cfg s0
                 = (pre ++ polls ++ EvFetch (after s) io (Ok data)
                        :: before ++ EvRecordPauseCheck (Ok true) :: saved,
                    s5, Stopped ExitPausedMidPage)).
  { rewrite (run_iterates env cfg _ _ _ Hit), run_unfold.
    apply Z.ltb_lt in Hlt. rewrite Hlt, Ebody. reflexivity. }
  destruct (polls_only_facts _ Hpolls) as (Hpy & Hpf & Hpt & _).
  destruct (saved_as_facts env _ _ Hsaved) as (Hsy & _ & Hst & _).
  exists polls, before, saved, s5.
  split; [exact Hrun|]. split; [exact Hpolls|]. split; [exact Htr|].
  split; [exact Hrc|].
  split; [rewrite Hy, Hvp, Hu3, Hn3; reflexivity|].
  split.
  { cbn [mid_page_checkpoint fst] in Hsaved.
    rewrite Hwa, Hwp, Hwt, Hva, Hvp, Hvt, Hn4, Hn3, Hp, Ht, Z.add_0_l in Hsaved.
    exact Hsaved. }
  rewrite Hrun. cbn [fst].
  split.
  { rewrite !yielded_app, Hpy. cbn [app].
    change (yielded (EvFetch (after s) io (Ok data) :: ?l)) with (yielded l).
    rewrite yielded_app.
    change (yielded (EvRecordPauseCheck (Ok true) :: saved)) with (yielded saved).
    rewrite Hsy, app_nil_r. reflexivity. }
  split.
  { rewrite !transformed_app, Hpt. cbn [app].
    change (transformed (EvFetch (after s) io (Ok data) :: ?l)) with (transformed l).
    rewrite transformed_app.
    change (transformed (EvRecordPauseCheck (Ok true) :: saved)) with (transformed saved).
    rewrite Hst, app_nil_r, Htr. reflexivity. }
  repeat split; congruence.
Qed.
End MidPagePause.

Section Cancellation.
Context `{PyBuiltins}.
Variable env : environment.
Variable cfg : config.

(** C4, with or without a checkpoint callback.  If the cancel predicate
    answers true at the check that opens the iteration for page p
    (reached after the complete iterations [pre]), the run consists of
    [pre], that check and what saving the cancelled checkpoint leaves,
    and stops: page p is not fetched, nothing of it or of a later page is
    emitted, and the pause predicate is not consulted (so cancel wins
    when both would answer true).  The checkpoint carries the total of
    the records emitted before, the cursor of page p and the count of
    pages fetched before; it is handed to the checkpoint callback if
    there is one, and without a callback nothing is saved. *)
Theorem cancel_before_page s0 pre s f :
  iterates env cfg s0 pre s ->
  page_count s < page_limit ->
  check_cancel_callback env = Some f ->
  f (n_cancel s) = Ok true ->
  exists saved s',
    run env cfg s0
    = (pre ++ EvCancelCheck (Ok true) :: saved, s', Stopped ExitCancelled)
    /\ saved_as env saved
         {| cp_phase := PhCancelled;
            records_processed := total_records s0 + Z.of_nat (length (yielded pre));
            cursor := after s;
            page_number := page_count s0 + Z.of_nat (length (fetched pre));
            batch_size_of := batch_size;
            checkpoint_data :=
              CancelledData (page_count s0 + Z.of_nat (length (fetched pre))) |}
    /\ yielded (fst (fst (run env cfg s0))) = yielded pre
    /\ fetched (fst (fst (run env cfg s0))) = fetched pre
    /\ same_vars s s'.
Proof.
  intros Hit Hlt Hc Hf.
  destruct (iterates_counts env cfg _ _ _ Hit) as (Hp & Ht).
  rewrite (run_iterates env cfg _ _ _ Hit), run_unfold.
  apply Z.ltb_lt in Hlt. rewrite Hlt.
  unfold loop_body, loop_try, cancel_check_interval.
  rewrite every_page_checked. unfold poll_cancel. rewrite Hc, Hf.
  unfold save_checkpoint, saved_as.
  destruct (checkpoint_callback env) as [cb|];
    cbn [cancel_checkpoint bump_cancel bump_checkpoint total_records after page_count
         n_checkpoint app fst snd];
    rewrite ?Hp, ?Ht; eexists _, _; (split; [reflexivity|]);
    (split; [eauto|]); cbn [fst]; rewrite yielded_app, fetched_app; cbn;
    rewrite ?app_nil_r; repeat split; auto.
Qed.
End Cancellation.

Section TransformationSafety.
Context `{PyBuiltins}.

(** C5, as the code has it.  [transform_hubspot_deal] returns a row
    exactly when the three conversions it does not guard succeed: the
    associated-contacts count, the forecast amount and the forecast
    probability.  The guarded fields never make it raise: in the row the
    amount, the three dates and the stage probability are what their
    guarded parsers give, null when the value does not parse.  When one
    of the three unguarded conversions fails, the call raises a
    [ValueError] instead of putting null (or 0) in the field. *)
Theorem transform_guards_only_some_fields deal scan tenant page uuid now :
  match transform_hubspot_deal deal scan tenant page uuid now with
  | Ok row =>
      convertible deal = true
      /\ amount row = parse_amount (properties_of deal)
      /\ close_date row = parse_date (properties_of deal !! "closedate")
      /\ hubspot_created_at row = parse_date (properties_of deal !! "createdate")
      /\ hubspot_updated_at row
         = parse_date (properties_of deal !! "hs_lastmodifieddate")
      /\ deal_stage_probability row = parse_probability (properties_of deal)
  | Raise e =>
      convertible deal = false /\ exists msg, e = ValueError msg
  end.
Proof.
  unfold transform_hubspot_deal, convertible.
  destruct (int_field (properties_of deal) "num_associated_contacts") as [n|e] eqn:Ei.
  - destruct (float_field (properties_of deal) "hs_forecast_amount") as [a|e] eqn:Ea.
    + destruct (float_field (properties_of deal) "hs_forecast_probability")
        as [p|e] eqn:Ep.
      * cbn. auto 10.
      * split; [reflexivity|].
        unfold float_field in Ep.
        destruct (truthy _); [|discriminate].
        destruct (_ !! _) as [s|]; [|discriminate].
        destruct (float_of_str s); [discriminate|].
        injection Ep as <-. eauto.
    + split; [reflexivity|].
      unfold float_field in Ea.
      destruct (truthy _); [|discriminate].
      destruct (_ !! _) as [s|]; [|discriminate].
      destruct (float_of_str s); [discriminate|].
      injection Ea as <-. eauto.
  - split; [reflexivity|].
    unfold int_field in Ei.
    destruct (truthy _); [|discriminate].
    destruct (_ !! _) as [s|]; [|discriminate].
    destruct (int_of_str s); [discriminate|].
    injection Ei as <-. eauto.
Qed.

End TransformationSafety.

Section RetryBudget.
Context `{PyBuiltins}.
Variable net : network.
Variable params : request_params.

(** The answers that are slept on as rate limits: a 429 without
    [Retry-After], or with one that [int] reads as a number of seconds
    [time.sleep] accepts. *)
Lemma rate_limited_answers o d :
  verdict_of o = RateLimited d
  <-> exists r,
        o = Responded r /\ status_code r = 429
        /\ (retry_after_header r = None /\ d = 1
            \/ exists s, retry_after_header r = Some s /\ int_of_str s = Some d
                         /\ 0 <= d <= max_sleep_seconds).
Proof.
  unfold verdict_of. split.
  - destruct o as [r|msg]; [|discriminate].
    destruct (status_code r =? 429) eqn:E429.
    + apply Z.eqb_eq in E429. intros Hv. exists r.
      split; [reflexivity|]. split; [exact E429|].
      destruct (retry_after_header r) as [s|]; [|injection Hv as <-; auto].
      destruct (int_of_str s) as [n|] eqn:Ei; [|discriminate].
      destruct ((n <? - max_sleep_seconds) || (max_sleep_seconds <? n)) eqn:Er;
        [discriminate|].
      destruct (n <? 0) eqn:En; [discriminate|]. injection Hv as <-.
      apply orb_false_iff in Er as (_ & Er).
      apply Z.ltb_ge in Er. apply Z.ltb_ge in En. right. exists s. auto.
    + destruct ((400 <=? status_code r) && (status_code r <? 600)); discriminate.
  - intros (r & -> & H429 & Hh). apply Z.eqb_eq in H429. rewrite H429.
    destruct Hh as [(-> & ->)|(s & -> & -> & Hlo & Hhi)]; [reflexivity|].
    assert (E1 : (d <? - max_sleep_seconds) = false)
      by (apply Z.ltb_ge; unfold max_sleep_seconds in *; lia).
    assert (E2 : (max_sleep_seconds <? d) = false) by (apply Z.ltb_ge; lia).
    assert (E3 : (d <? 0) = false) by (apply Z.ltb_ge; lia).
    rewrite E1, E2, E3. reflexivity.
Qed.

End RetryBudget.

Section FetchFailure.
Context `{PyBuiltins}.
Variable env : environment.
Variable cfg : config.

(** C7, with or without a checkpoint callback.  If neither predicate
    stops the run before page p and the three attempts of the client for
    page p all end in a request exception, the client raises the last of
    them after three requests, and the engine fetches once, saves an
    error checkpoint with the cursor that was used for the fetch and the
    total of the records emitted before page p, and fails with that
    exception, without another fetch.  The checkpoint is handed to the
    checkpoint callback if there is one, and without a callback nothing
    is saved. *)
Theorem fetch_failure_checkpoint s0 pre s e1 e2 e3 :
  iterates env cfg s0 pre s ->
  page_count s < page_limit ->
  not_now (check_cancel_callback env) (n_cancel s) ->
  not_now (check_pause_callback env) (n_pause s) ->
  List.map verdict_of
    (answers (net env)
       (deals_params batch_size (after s) (properties cfg) (archived_filter cfg))
       (api_service s) 3)
  = [Fails e1; Fails e2; Fails e3] ->
  exists polls io saved s',
    run env cfg s0
    = (pre ++ polls ++ EvFetch (after s) io (Raise e3) :: saved, s', Failed e3)
    /\ polls_only polls
    /\ length (requests_sent io) = 3%nat
    /\ saved_as env saved
         {| cp_phase := PhError;
            records_processed := total_records s0 + Z.of_nat (length (yielded pre));
            cursor := after s;
            page_number := page_count s0 + Z.of_nat (length (fetched pre));
            batch_size_of := batch_size;
            checkpoint_data :=
              ErrorData e3 (page_count s0 + Z.of_nat (length (fetched pre)) + 1)
                        (after s) |}
    /\ same_vars s s'.
Proof.
  intros Hit Hlt Hcancel Hpause Hfail.
  destruct (iterates_counts env cfg _ _ _ Hit) as (Hp & Ht).
  rewrite (run_iterates env cfg _ _ _ Hit), run_unfold.
  apply Z.ltb_lt in Hlt. rewrite Hlt.
  unfold loop_body, loop_try, cancel_check_interval, pause_check_interval.
  rewrite !every_page_checked.
  destruct (poll_cancel_not_now env s Hcancel)
    as (c_evs & s1 & -> & Hc_only & (Hva & Hvp & Hvt) & Ha1 & Hn1).
  rewrite <- Hn1 in Hpause.
  destruct (poll_pause_not_now env s1 Hpause)
    as (p_evs & s2 & -> & Hp_only & (Hwa & Hwp & Hwt) & Ha2).
  assert (Eafter : after s2 = after s) by congruence.
  assert (Eapi : api_service s2 = api_service s) by congruence.
  rewrite Eafter, Eapi.
  destruct (get_deals_three_failures _ _ _ _ _ _ _ _ _ Hfail) as (io & cl' & -> & Hreq).
  unfold save_checkpoint, saved_as.
  destruct (checkpoint_callback env) as [cb|];
    cbn [error_checkpoint set_api_service bump_checkpoint total_records after
         page_count n_checkpoint fst snd];
    exists (c_evs ++ p_evs), io; eexists _, _;
    rewrite ?Hwa, ?Hwp, ?Hwt, ?Hva, ?Hvp, ?Hvt, ?Hp, ?Ht;
    (split; [rewrite <- !app_assoc; reflexivity|]);
    (split; [apply Forall_app; auto|]); (split; [exact Hreq|]);
    (split; [eauto|]); repeat split; cbn; congruence.
Qed.
End FetchFailure.

Section CallbackFailure.
Context `{PyBuiltins}.
Variable env : environment.
Variable cfg : config.
Variables cb1 cb2 : nat -> checkpoint -> result unit.

Local Abbreviation env1 := (with_checkpoint_callback env cb1).
Local Abbreviation env2 := (with_checkpoint_callback env cb2).

Lemma save_checkpoint_swallows build1 build2 s :
  build1 s = build2 s ->
  List.map forget_outcome (fst (save_checkpoint env1 build1 s))
  = List.map forget_outcome (fst (save_checkpoint env2 build2 s))
  /\ snd (save_checkpoint env1 build1 s) = snd (save_checkpoint env2 build2 s).
Proof.
  intros E. unfold save_checkpoint. cbn [env1 env2 with_checkpoint_callback checkpoint_callback].
  rewrite E. destruct (build2 s) as [cp s1]. cbn. auto.
Qed.

Lemma process_deals_swallows deals : forall k s,
  same_but_outcomes (process_deals env1 cfg deals k s) (process_deals env2 cfg deals k s).
Proof.
  induction deals as [|deal rest IH]; intros k s; [repeat split|].
  rewrite !process_deals_cons.
  change (poll_record_pause env1 s) with (poll_record_pause env s).
  change (poll_record_pause env2 s) with (poll_record_pause env s).
  destruct (poll_record_pause env s) as [[polled s1] paused].
  destruct paused as [[|]|e]; [| |repeat split].
  - pose proof (save_checkpoint_swallows (mid_page_checkpoint env1 k)
                  (mid_page_checkpoint env2 k) s1 eq_refl) as (Hevs & Hst).
    destruct (save_checkpoint env1 _ s1) as [saved1 t1].
    destruct (save_checkpoint env2 _ s1) as [saved2 t2].
    cbn [fst snd] in *. unfold same_but_outcomes. cbn [fst snd].
    rewrite !List.map_app, Hevs, Hst. auto.
  - change (uuid4 env1) with (uuid4 env). change (uuid4 env2) with (uuid4 env).
    change (datetime_now env1) with (datetime_now env).
    change (datetime_now env2) with (datetime_now env).
    destruct (transform_hubspot_deal _ _ _ _ _ _) as [row|e]; [|repeat split].
    specialize (IH (if qualifies cfg row then k + 1 else k) (bump_now (bump_uuid s1))).
    destruct (process_deals env1 cfg rest _ _) as [[evs1 t1] out1].
    destruct (process_deals env2 cfg rest _ _) as [[evs2 t2] out2].
    destruct IH as (Hevs & Hst & Hout). cbn [fst snd] in *.
    unfold same_but_outcomes. cbn [fst snd].
    rewrite !List.map_app, Hevs, Hst, Hout. auto.
Qed.

Lemma process_page_swallows data s :
  same_but_outcomes (process_page env1 cfg data s) (process_page env2 cfg data s).
Proof.
  unfold process_page.
  pose proof (process_deals_swallows (results data) 0 s) as (Hevs & Hst & Hout).
  destruct (process_deals env1 cfg _ _ _) as [[evs1 t1] out1].
  destruct (process_deals env2 cfg _ _ _) as [[evs2 t2] out2].
  cbn [fst snd] in *. subst t2 out2.
  destruct out1 as [page_records| |e]; [|repeat split; auto..].
  unfold periodic_checkpoint.
  set (u := update_counters page_records t1).
  pose proof (save_checkpoint_swallows (processing_checkpoint data page_records)
                (processing_checkpoint data page_records) u eq_refl) as (Hp & Hps).
  assert (Hper : List.map forget_outcome
                   (fst (if page_count u mod checkpoint_interval =? 0
                         then save_checkpoint env1 (processing_checkpoint data page_records) u
                         else ([], u)))
                 = List.map forget_outcome
                     (fst (if page_count u mod checkpoint_interval =? 0
                           then save_checkpoint env2 (processing_checkpoint data page_records) u
                           else ([], u)))
                 /\ snd (if page_count u mod checkpoint_interval =? 0
                         then save_checkpoint env1 (processing_checkpoint data page_records) u
                         else ([], u))
                    = snd (if page_count u mod checkpoint_interval =? 0
                           then save_checkpoint env2 (processing_checkpoint data page_records) u
                           else ([], u))).
  { destruct (page_count u mod checkpoint_interval =? 0); auto. }
  destruct Hper as (Hpe & Hpst).
  destruct (if page_count u mod checkpoint_interval =? 0
            then save_checkpoint env1 _ u else _) as [saved1 v1].
  destruct (if page_count u mod checkpoint_interval =? 0
            then save_checkpoint env2 _ u else _) as [saved2 v2].
  cbn [fst snd] in *. subst v2.
  destruct (next_cursor data) as [c|].
  - unfold same_but_outcomes. cbn [fst snd]. rewrite !List.map_app, Hevs, Hpe. auto.
  - pose proof (save_checkpoint_swallows final_checkpoint final_checkpoint v1 eq_refl)
      as (Hf & Hfs).
    destruct (save_checkpoint env1 final_checkpoint v1) as [final1 w1].
    destruct (save_checkpoint env2 final_checkpoint v1) as [final2 w2].
    cbn [fst snd] in *. unfold same_but_outcomes. cbn [fst snd].
    rewrite !List.map_app, Hevs, Hpe, Hf, Hfs. auto.
Qed.

Lemma loop_body_swallows s :
  same_but_outcomes (loop_body env1 cfg s) (loop_body env2 cfg s).
Proof.
  assert (Htry : same_but_outcomes (loop_try env1 cfg s) (loop_try env2 cfg s)).
  { unfold loop_try.
    change (poll_cancel env1 s) with (poll_cancel env s).
    change (poll_cancel env2 s) with (poll_cancel env s).
    destruct (if page_count s mod cancel_check_interval =? 0
              then poll_cancel env s else _) as [[c_evs s1] cancelled].
    destruct cancelled as [[|]|e]; [| |repeat split].
    - pose proof (save_checkpoint_swallows cancel_checkpoint cancel_checkpoint s1 eq_refl)
        as (Hevs & Hst).
      destruct (save_checkpoint env1 _ s1) as [saved1 t1].
      destruct (save_checkpoint env2 _ s1) as [saved2 t2].
      cbn [fst snd] in *. unfold same_but_outcomes. cbn [fst snd].
      rewrite !List.map_app, Hevs, Hst. auto.
    - change (poll_pause env1 s1) with (poll_pause env s1).
      change (poll_pause env2 s1) with (poll_pause env s1).
      destruct (if page_count s mod pause_check_interval =? 0
                then poll_pause env s1 else _) as [[p_evs s2] paused].
      destruct paused as [[|]|e]; [| |repeat split].
      + pose proof (save_checkpoint_swallows (pause_checkpoint env1) (pause_checkpoint env2)
                      s2 eq_refl) as (Hevs & Hst).
        destruct (save_checkpoint env1 _ s2) as [saved1 t1].
        destruct (save_checkpoint env2 _ s2) as [saved2 t2].
        cbn [fst snd] in *. unfold same_but_outcomes. cbn [fst snd].
        rewrite !List.map_app, Hevs, Hst. auto.
      + change (net env1) with (net env). change (net env2) with (net env).
        destruct (get_deals (net env) batch_size (after s2) (properties cfg)
                    (archived_filter cfg) (api_service s2)) as [[io cl] fetched_page].
        destruct fetched_page as [data|e]; [|repeat split].
        pose proof (process_page_swallows data (set_api_service cl s2))
          as (Hevs & Hst & Hout).
        destruct (process_page env1 cfg data _) as [[evs1 t1] out1].
        destruct (process_page env2 cfg data _) as [[evs2 t2] out2].
        cbn [fst snd] in *. unfold same_but_outcomes. cbn [fst snd].
        rewrite !List.map_app. cbn [List.map]. rewrite Hevs, Hst, Hout. auto. }
  unfold loop_body. destruct Htry as (Hevs & Hst & Hout).
  destruct (loop_try env1 cfg s) as [[evs1 t1] out1].
  destruct (loop_try env2 cfg s) as [[evs2 t2] out2].
  cbn [fst snd] in *. subst t2 out2.
  destruct out1 as [|why| |e];
    [repeat split; auto | repeat split; auto | repeat split; auto | ].
  pose proof (save_checkpoint_swallows (error_checkpoint e) (error_checkpoint e) t1 eq_refl)
    as (Hs & Hss).
  destruct (save_checkpoint env1 _ t1) as [saved1 w1].
  destruct (save_checkpoint env2 _ t1) as [saved2 w2].
  cbn [fst snd] in *. unfold same_but_outcomes. cbn [fst snd].
  rewrite !List.map_app, Hevs, Hs, Hss. auto.
Qed.

Lemma while_loop_swallows fuel : forall s,
  same_but_outcomes (while_loop env1 cfg fuel s) (while_loop env2 cfg fuel s).
Proof.
  induction fuel as [|fuel IH]; intros s; [repeat split|].
  cbn [while_loop]. destruct (page_count s <? page_limit); [|repeat split].
  pose proof (loop_body_swallows s) as (Hevs & Hst & Hout).
  destruct (loop_body env1 cfg s) as [[evs1 t1] out1].
  destruct (loop_body env2 cfg s) as [[evs2 t2] out2].
  cbn [fst snd] in *. subst t2 out2.
  destruct out1 as [|why| |e];
    [ | repeat split; auto | repeat split; auto | repeat split; auto].
  specialize (IH t1).
  destruct (while_loop env1 cfg fuel t1) as [[tr1 w1] r1].
  destruct (while_loop env2 cfg fuel t1) as [[tr2 w2] r2].
  destruct IH as (Htr & Hw & Hr). cbn [fst snd] in *.
  unfold same_but_outcomes. cbn [fst snd]. rewrite !List.map_app, Hevs, Htr, Hw, Hr. auto.
Qed.

Lemma yielded_forget tr : yielded (List.map forget_outcome tr) = yielded tr.
Proof.
  induction tr as [|ev tr IH]; [reflexivity|].
  destruct ev; cbn; try exact IH. f_equal. exact IH.
Qed.

Lemma checkpoints_forget tr : checkpoints (List.map forget_outcome tr) = checkpoints tr.
Proof.
  induction tr as [|ev tr IH]; [reflexivity|].
  destruct ev; cbn; try exact IH. f_equal. exact IH.
Qed.

(** C8. Whatever the checkpoint callback answers (it may raise at every
    call, at some calls, or never), the run is the same: the same events
    in the same order up to the recorded outcome of the callback, hence
    the same records emitted and the same checkpoints handed over, the
    same final state, and the same way of ending.  In particular the run
    never fails because the callback raised. *)
Theorem checkpoint_failure_is_swallowed s :
  let '(tr1, s1, res1) := run env1 cfg s in
  let '(tr2, s2, res2) := run env2 cfg s in
  List.map forget_outcome tr1 = List.map forget_outcome tr2
  /\ yielded tr1 = yielded tr2
  /\ checkpoints tr1 = checkpoints tr2
  /\ s1 = s2
  /\ res1 = res2.
Proof.
  pose proof (while_loop_swallows (fuel_for s) s) as (Htr & Hs & Hr).
  unfold run. destruct (while_loop env1 cfg (fuel_for s) s) as [[tr1 s1] res1].
  destruct (while_loop env2 cfg (fuel_for s) s) as [[tr2 s2] res2].
  cbn [fst snd] in *.
  split; [exact Htr|]. split; [|split; [|auto]].
  - rewrite <- (yielded_forget tr1), Htr. apply yielded_forget.
  - rewrite <- (checkpoints_forget tr1), Htr. apply checkpoints_forget.
Qed.
End CallbackFailure.

Section Ceiling.
Context `{PyBuiltins}.
Variable env : environment.
Variable cfg : config.

(** The pages fetched from a loop head are at most those that remain
    below the ceiling. *)
Lemma run_fetches_bounded n : forall s tr s' res,
  Z.to_nat (page_limit - page_count s) = n ->
  run env cfg s = (tr, s', res) ->
  (length (fetched tr) <= n)%nat.
Proof.
  induction n as [n IH] using lt_wf_ind. intros s tr s' res Hn. subst n.
  rewrite run_unfold.
  destruct (page_count s <? page_limit) eqn:Elt;
    [|intros E; pair_inv E; cbn; lia].
  apply Z.ltb_lt in Elt.
  destruct (loop_body env cfg s) as [[evs s1] out] eqn:Eb.
  pose proof (loop_body_fetches env cfg _ _ _ _ Eb) as Hone.
  destruct out as [|why| |e]; try (intros E; pair_inv E; lia).
  apply loop_body_continue in Eb as (Hp & _ & Hf & _).
  destruct (run env cfg s1) as [[evs' s2] res'] eqn:Er.
  intros E. pair_inv E.
  assert (Hn1 : Z.to_nat (page_limit - page_count s1) = pred (Z.to_nat (page_limit - page_count s)))
    by lia.
  assert (Hlt : (pred (Z.to_nat (page_limit - page_count s))
                 < Z.to_nat (page_limit - page_count s))%nat) by lia.
  pose proof (IH _ Hlt s1 _ _ _ Hn1 Er) as Hrest.
  rewrite fetched_app, length_app, Hf. cbn [length]. lia.
Qed.

(** C9, as the code has it.  Whatever the predicates, the network and
    the cursors do, the generator ends, and a run that starts from page
    number [p] (0 for a fresh run, the seed's page number for a resumed
    one) fetches at most [1000 - p] pages, and none if [p >= 1000].  So
    a fresh run and a run resumed from a page number that is not
    negative fetch at most 1000 pages.  The seed is not checked: below 0
    the bound [1000 - p] is above 1000. *)
Theorem page_ceiling resume_from cl tr s' res :
  get_hubspot_deals env cfg resume_from cl = (tr, s', res) ->
  res <> OutOfFuel
  /\ Z.of_nat (length (fetched tr))
     <= Z.max 0 (page_limit - page_count (initial_state resume_from cl))
  /\ (0 <= page_count (initial_state resume_from cl) ->
      (length (fetched tr) <= 1000)%nat).
Proof.
  intros E. unfold get_hubspot_deals in E.
  pose proof (run_terminates env cfg (initial_state resume_from cl)) as Hterm.
  rewrite E in Hterm. cbn [snd] in Hterm.
  pose proof (run_fetches_bounded _ _ _ _ _ eq_refl E) as Hb.
  split; [exact Hterm|].
  set (p := page_count (initial_state resume_from cl)) in *. clearbody p.
  unfold page_limit in *. split; [lia|]. intros Hp. lia.
Qed.
End Ceiling.

Section ErrorCheckpoint.
Context `{PyBuiltins}.
Variable env : environment.
Variable cfg : config.

(** Each of the causes makes the [try] block raise, after the rows of
    the records processed before were emitted. *)
Lemma loop_try_raises s e done :
  raises_in_iteration env cfg s e done ->
  exists evs0 s1,
    loop_try env cfg s = (evs0, s1, TryRaise e)
    /\ yielded evs0
       = rows_of_deals env cfg done (page_count s + 1) (n_uuid s) (n_now s).
Proof.
  intros [f Hc Hf|f Hcancel Hcb Hf|io cl Hcancel Hpause Hget
         |f io cl data done' deal rest Hcancel Hcb Hfalse Hraise Hget Hres Hconv
         |io cl data done' deal rest Hcancel Hfalse Hget Hres Hconv Htrans].
  - unfold loop_try, cancel_check_interval. rewrite every_page_checked.
    unfold poll_cancel. rewrite Hc, Hf. eexists _, _. split; reflexivity.
  - unfold loop_try, cancel_check_interval, pause_check_interval.
    rewrite !every_page_checked.
    destruct (poll_cancel_not_now env s Hcancel)
      as (c_evs & s1 & -> & Hc_only & _ & _ & Hn1).
    unfold poll_pause. rewrite Hcb, Hn1, Hf.
    eexists _, _. split; [reflexivity|].
    destruct (polls_only_facts _ Hc_only) as (Hy & _).
    rewrite yielded_app, Hy. reflexivity.
  - unfold loop_try, cancel_check_interval, pause_check_interval.
    rewrite !every_page_checked.
    destruct (poll_cancel_not_now env s Hcancel)
      as (c_evs & s1 & -> & Hc_only & (Hva & Hvp & Hvt) & Ha1 & Hn1).
    rewrite <- Hn1 in Hpause.
    destruct (poll_pause_not_now env s1 Hpause)
      as (p_evs & s2 & -> & Hp_only & (Hwa & Hwp & Hwt) & Ha2).
    assert (Eafter : after s2 = after s) by congruence.
    assert (Eapi : api_service s2 = api_service s) by congruence.
    rewrite Eafter, Eapi, Hget.
    eexists _, _. split; [reflexivity|].
    destruct (polls_only_facts _ Hc_only) as (Hy & _).
    destruct (polls_only_facts _ Hp_only) as (Hy' & _).
    rewrite !yielded_app, Hy, Hy'. reflexivity.
  - assert (Hpause : not_now (check_pause_callback env) (n_pause s)).
    { unfold not_now. rewrite Hcb. rewrite <- (Nat.add_0_r (n_pause s)).
      apply Hfalse. lia. }
    assert (Hsome : check_pause_callback env <> None) by (rewrite Hcb; discriminate).
    destruct (loop_try_reaches_page env cfg s io cl data Hcancel Hpause Hget)
      as (polls & s3 & -> & Hpolls & (Hva & Hvp & Hvt) & Hu3 & Hn3 & Hp3).
    specialize (Hp3 Hsome).
    assert (Hchecks : forall i, (i < length done')%nat ->
              not_now (check_pause_callback env) (n_pause s3 + i)).
    { intros i Hi. unfold not_now. rewrite Hcb, Hp3.
      replace (S (n_pause s) + i)%nat with (n_pause s + S i)%nat by lia.
      apply Hfalse. lia. }
    destruct (process_deals_prefix env cfg done' (deal :: rest) 0 s3 Hchecks Hconv)
      as (before & s4 & Epre & Hy & _ & _ & _ & _ & _ & _ & _ & Hp4).
    destruct (Hp4 Hsome) as (Hp4' & _).
    unfold process_page. rewrite Hres, Epre, process_deals_cons.
    unfold poll_record_pause. rewrite Hcb, Hp4', Hp3.
    replace (S (n_pause s) + length done')%nat
      with (n_pause s + S (length done'))%nat by lia.
    rewrite Hraise. eexists _, _. split; [reflexivity|].
    destruct (polls_only_facts _ Hpolls) as (Hpy & _).
    rewrite yielded_app, Hpy. cbn [app].
    change (yielded (EvFetch (after s) io (Ok data) :: ?l)) with (yielded l).
    rewrite yielded_app. cbn. rewrite app_nil_r, Hy, Hvp, Hu3, Hn3. reflexivity.
  - assert (Hpause : not_now (check_pause_callback env) (n_pause s)).
    { rewrite <- (Nat.add_0_r (n_pause s)). apply Hfalse. lia. }
    destruct (loop_try_reaches_page env cfg s io cl data Hcancel Hpause Hget)
      as (polls & s3 & -> & Hpolls & (Hva & Hvp & Hvt) & Hu3 & Hn3 & Hp3).
    assert (Hat : forall i, (i <= length done')%nat ->
              not_now (check_pause_callback env) (n_pause s3 + i)).
    { intros i Hi. pose proof (Hfalse (S i) ltac:(lia)) as HS.
      unfold not_now in *. destruct (check_pause_callback env) as [f|]; [|exact I].
      rewrite (Hp3 ltac:(discriminate)).
      replace (S (n_pause s) + i)%nat with (n_pause s + S i)%nat by lia. exact HS. }
    destruct (process_deals_prefix env cfg done' (deal :: rest) 0 s3
                ltac:(intros i Hi; apply Hat; lia) Hconv)
      as (before & s4 & Epre & Hy & _ & _ & _ & (Hwa & Hwp & Hwt) & _ & Hu4 & Hn4 & Hp4).
    unfold process_page. rewrite Hres, Epre, process_deals_cons.
    assert (Hpoll : exists polled s5,
              poll_record_pause env s4 = (polled, s5, Ok false)
              /\ yielded polled = []
              /\ n_uuid s5 = n_uuid s4 /\ n_now s5 = n_now s4).
    { pose proof (Hat (length done') (le_n _)) as Hlast.
      unfold poll_record_pause, not_now in *.
      destruct (check_pause_callback env) as [f|].
      - destruct (Hp4 ltac:(discriminate)) as (-> & _). rewrite Hlast.
        eexists _, _. repeat split.
      - eexists _, _. repeat split. }
    destruct Hpoll as (polled & s5 & -> & Hqy & Hu5 & Hn5).
    rewrite Hwp, Hvp, Hu5, Hn5, Hu4, Hn4, Hu3, Hn3, Htrans.
    eexists _, _. split; [reflexivity|].
    destruct (polls_only_facts _ Hpolls) as (Hpy & _).
    rewrite yielded_app, Hpy. cbn [app].
    change (yielded (EvFetch (after s) io (Ok data) :: ?l)) with (yielded l).
    rewrite !yielded_app, Hqy. cbn. rewrite app_nil_r, Hy, Hvp, Hu3, Hn3. reflexivity.
Qed.

Lemma transform_ok_convertible deal scan tenant page uuid now row :
  transform_hubspot_deal deal scan tenant page uuid now = Ok row ->
  convertible deal = true.
Proof.
  unfold transform_hubspot_deal, convertible.
  destruct (int_field _ _); [|discriminate].
  destruct (float_field _ "hs_forecast_amount"); [|discriminate].
  destruct (float_field _ "hs_forecast_probability"); [|discriminate].
  reflexivity.
Qed.

(** When the record loop raises, the records before the one at which it
    raises were checked and transformed without stopping it. *)
Lemma process_deals_raise_cause deals : forall k s evs s' e,
  process_deals env cfg deals k s = (evs, s', RecordsRaised e) ->
  exists done deal rest,
    deals = done ++ deal :: rest
    /\ Forall (fun d => convertible d = true) done
    /\ (forall i, (i < length done)%nat ->
                  not_now (check_pause_callback env) (n_pause s + i))
    /\ ((exists f, check_pause_callback env = Some f
                   /\ f (n_pause s + length done)%nat = Raise e)
        \/ (not_now (check_pause_callback env) (n_pause s + length done)
            /\ transform_hubspot_deal deal (scan_id cfg) (tenant_id cfg)
                 (page_count s + 1) (uuid4 env (n_uuid s + length done))
                 (datetime_now env (n_now s + length done)) = Raise e)).
Proof.
  induction deals as [|deal rest IH]; intros k s evs s' e E; [discriminate|].
  rewrite process_deals_cons in E.
  assert (Hstep : forall s1 evs1 evsR s2,
            n_uuid s1 = n_uuid s -> n_now s1 = n_now s -> page_count s1 = page_count s ->
            not_now (check_pause_callback env) (n_pause s) ->
            (forall i, not_now (check_pause_callback env) (n_pause s1 + i)
                       -> not_now (check_pause_callback env) (n_pause s + S i)) ->
            (forall f i, check_pause_callback env = Some f ->
                         f (n_pause s1 + i)%nat = f (n_pause s + S i)%nat) ->
            match transform_hubspot_deal deal (scan_id cfg) (tenant_id cfg)
                    (page_count s + 1) (uuid4 env (n_uuid s1))
                    (datetime_now env (n_now s1)) with
            | Raise e0 => (evsR e0, bump_uuid s1, RecordsRaised e0)
            | Ok row =>
                let '(evs0, s3, out) :=
                  process_deals env cfg rest (if qualifies cfg row then k + 1 else k)
                    (bump_now (bump_uuid s1)) in
                (evs1 ++ record_events cfg deal row ++ evs0, s3, out)
            end = (evs, s2, RecordsRaised e) ->
            exists done deal0 rest0,
              deal :: rest = done ++ deal0 :: rest0
              /\ Forall (fun d => convertible d = true) done
              /\ (forall i, (i < length done)%nat ->
                            not_now (check_pause_callback env) (n_pause s + i))
              /\ ((exists f, check_pause_callback env = Some f
                             /\ f (n_pause s + length done)%nat = Raise e)
                  \/ (not_now (check_pause_callback env) (n_pause s + length done)
                      /\ transform_hubspot_deal deal0 (scan_id cfg) (tenant_id cfg)
                           (page_count s + 1) (uuid4 env (n_uuid s + length done))
                           (datetime_now env (n_now s + length done)) = Raise e))).
  { intros s1 evs1 evsR s2 Hu Hn Hpc Hnow Hshift Hshift' E1. rewrite Hu, Hn in E1.
    destruct (transform_hubspot_deal deal (scan_id cfg) (tenant_id cfg) (page_count s + 1)
                (uuid4 env (n_uuid s)) (datetime_now env (n_now s))) as [row|e0] eqn:Et.
    - destruct (process_deals env cfg rest (if qualifies cfg row then k + 1 else k)
                  (bump_now (bump_uuid s1))) as [[evs0 s3] out] eqn:Er.
      injection E1 as _ _ ->.
      destruct (IH _ _ _ _ _ Er) as (done & deal0 & rest0 & -> & Hconv & Hchecks & Hcause).
      cbn [bump_now bump_uuid n_pause n_uuid n_now page_count] in *.
      exists (deal :: done), deal0, rest0.
      split; [reflexivity|].
      split; [constructor; [eapply transform_ok_convertible; eauto|exact Hconv]|].
      split.
      { intros [|i] Hi; [rewrite Nat.add_0_r; exact Hnow|].
        apply Hshift. apply Hchecks. cbn in Hi. lia. }
      cbn [length].
      destruct Hcause as [(f & Hcb & Hf)|(Hlast & Htr)].
      + left. exists f. split; [exact Hcb|]. rewrite <- (Hshift' f _ Hcb). exact Hf.
      + right. split; [apply Hshift; exact Hlast|].
        rewrite Hpc, Hu, Hn in Htr.
        replace (n_uuid s + S (length done))%nat with (S (n_uuid s) + length done)%nat
          by lia.
        replace (n_now s + S (length done))%nat with (S (n_now s) + length done)%nat
          by lia.
        exact Htr.
    - injection E1 as _ _ ->. exists [], deal, rest.
      split; [reflexivity|]. split; [constructor|].
      split; [intros i Hi; cbn in Hi; lia|].
      right. cbn [length]. rewrite !Nat.add_0_r. auto. }
  unfold poll_record_pause in E.
  destruct (check_pause_callback env) as [f|] eqn:Ecb.
  - destruct (f (n_pause s)) as [[|]|e0] eqn:Ef.
    + destruct (save_checkpoint env (mid_page_checkpoint env k) (bump_pause s)).
      discriminate.
    + apply (Hstep (bump_pause s) [EvRecordPauseCheck (Ok false)]
               (fun e0 => [EvRecordPauseCheck (Ok false)] ++ [EvTransform deal (Raise e0)])
               s') in E; try reflexivity; try exact Ef.
      * exact E.
      * intros i Hi. cbn [bump_pause n_pause] in Hi.
        replace (n_pause s + S i)%nat with (S (n_pause s) + i)%nat by lia. exact Hi.
      * intros f0 i _. cbn [bump_pause n_pause]. f_equal. lia.
    + injection E as _ _ ->. exists [], deal, rest.
      split; [reflexivity|]. split; [constructor|].
      split; [intros i Hi; cbn in Hi; lia|].
      left. exists f. cbn [length]. rewrite Nat.add_0_r. auto.
  - apply (Hstep s [] (fun e0 => [] ++ [EvTransform deal (Raise e0)]) s') in E;
      try reflexivity; try exact I;
      first [exact E | intros i _; exact I | intros f0 i Hf0; discriminate].
Qed.

(** The causes are all the ways in which the [try] block raises. *)
Lemma loop_try_raise_cause s evs s' e :
  loop_try env cfg s = (evs, s', TryRaise e) ->
  exists done, raises_in_iteration env cfg s e done.
Proof.
  unfold loop_try, cancel_check_interval, pause_check_interval.
  rewrite !every_page_checked.
  destruct (poll_cancel env s) as [[c_evs s1] cancelled] eqn:Ec.
  assert (Hc : match cancelled with
               | Ok false => not_now (check_cancel_callback env) (n_cancel s)
               | r => exists f, check_cancel_callback env = Some f /\ f (n_cancel s) = r
               end
               /\ n_pause s1 = n_pause s /\ after s1 = after s
               /\ api_service s1 = api_service s /\ n_uuid s1 = n_uuid s
               /\ n_now s1 = n_now s /\ page_count s1 = page_count s).
  { unfold poll_cancel, not_now in *. destruct (check_cancel_callback env) as [f|].
    - injection Ec as _ <- <-. cbn. repeat split.
      destruct (f (n_cancel s)) as [[|]|] eqn:Ef; eauto.
    - injection Ec as _ <- <-. repeat split. }
  destruct Hc as (Hc & Hp1 & Ha1 & Hapi1 & Hu1 & Hn1 & Hpc1).
  destruct cancelled as [[|]|e0].
  - destruct (save_checkpoint env cancel_checkpoint s1). discriminate.
  - destruct (poll_pause env s1) as [[p_evs s2] paused] eqn:Ep.
    assert (Hp : match paused with
                 | Ok false => not_now (check_pause_callback env) (n_pause s)
                 | r => exists f, check_pause_callback env = Some f /\ f (n_pause s) = r
                 end
                 /\ (check_pause_callback env <> None -> n_pause s2 = S (n_pause s))
                 /\ (check_pause_callback env = None -> n_pause s2 = n_pause s)
                 /\ after s2 = after s
                 /\ api_service s2 = api_service s /\ n_uuid s2 = n_uuid s
                 /\ n_now s2 = n_now s /\ page_count s2 = page_count s).
    { unfold poll_pause, not_now in *. rewrite Hp1 in Ep.
      destruct (check_pause_callback env) as [f|].
      - injection Ep as _ <- <-. cbn. repeat split; try congruence.
        destruct (f (n_pause s)) as [[|]|] eqn:Ef; eauto.
      - injection Ep as _ <- <-. repeat split; congruence. }
    destruct Hp as (Hp & Hp2 & Hp2' & Ha2 & Hapi2 & Hu2 & Hn2 & Hpc2).
    destruct paused as [[|]|e0].
    + destruct (save_checkpoint env (pause_checkpoint env) s2). discriminate.
    + rewrite Ha2, Hapi2.
      destruct (get_deals (net env) batch_size (after s) (properties cfg)
                  (archived_filter cfg) (api_service s)) as [[io cl] fetched] eqn:Eg.
      destruct fetched as [data|e0].
      * destruct (process_page env cfg data (set_api_service cl s2))
          as [[evs0 s4] out] eqn:Epage.
        intros E. injection E as _ _ ->.
        unfold process_page in Epage.
        destruct (process_deals env cfg (results data) 0 (set_api_service cl s2))
          as [[r_evs s3] rout] eqn:Er.
        destruct rout as [page_records| |e0].
        -- destruct (periodic_checkpoint env data page_records
                       (update_counters page_records s3)) as [saved s5].
           destruct (next_cursor data); [discriminate|].
           destruct (save_checkpoint env final_checkpoint s5). discriminate.
        -- discriminate.
        -- injection Epage as _ _ ->.
           destruct (process_deals_raise_cause _ _ _ _ _ _ Er)
             as (done & deal & rest & Hres & Hconv & Hchecks & Hcause).
           cbn [set_api_service n_pause n_uuid n_now page_count] in *.
           rewrite Hpc2, Hu2, Hn2 in Hcause.
           exists done.
           destruct Hcause as [(f & Hcb & Hf)|(Hlast & Htr)].
           ++ assert (Hsome : check_pause_callback env <> None)
                by (rewrite Hcb; discriminate).
              rewrite (Hp2 Hsome) in Hf, Hchecks.
              apply (record_check_raises env cfg s e f io cl data done deal rest);
                auto.
              ** intros [|i] Hi.
                 --- rewrite Nat.add_0_r. unfold not_now in Hp. rewrite Hcb in Hp.
                     exact Hp.
                 --- specialize (Hchecks i ltac:(lia)). unfold not_now in Hchecks.
                     rewrite Hcb in Hchecks.
                     replace (n_pause s + S i)%nat with (S (n_pause s) + i)%nat by lia.
                     exact Hchecks.
              ** replace (n_pause s + S (length done))%nat
                   with (S (n_pause s) + length done)%nat by lia. exact Hf.
           ++ apply (transformation_raises env cfg s e io cl data done deal rest);
                auto.
              intros i Hi. unfold not_now in *.
              destruct (check_pause_callback env) as [f|] eqn:Ecb; [|exact I].
              rewrite (Hp2 ltac:(discriminate)) in Hlast, Hchecks.
              destruct i as [|i]; [rewrite Nat.add_0_r; exact Hp|].
              replace (n_pause s + S i)%nat with (S (n_pause s) + i)%nat by lia.
              destruct (Nat.eq_dec i (length done)) as [-> |Hne]; [exact Hlast|].
              apply Hchecks. lia.
      * intros E. injection E as _ _ ->. exists [].
        apply (fetch_raises env cfg s e io cl); auto.
    + intros E. injection E as _ _ ->. exists [].
      destruct Hp as (f & Hcb & Hf).
      apply (pause_check_raises env cfg s e f); auto.
  - intros E. injection E as _ _ ->. exists [].
    destruct Hc as (f & Hcb & Hf).
    apply (cancel_check_raises env cfg s e f); auto.
Qed.

(** C10, with or without a checkpoint callback.  Whatever raises inside
    the iteration for page p (the cancel or the pause predicate at a
    boundary check, the fetch, the pause predicate at the check before a
    record, or the transformation of a record, after the records [done]
    of the page were processed; by [loop_try_raise_cause] there is no
    other way), the handler saves one error checkpoint and the run fails
    with that exception.  The checkpoint's
    [records_processed] is the total of the pages before p: the rows of
    page p emitted before the exception (those of [done]) are not in it,
    while its cursor is the one of page p.  The checkpoint is handed to
    the checkpoint callback if there is one, and without a callback
    nothing is saved. *)
Theorem error_checkpoint_leaves_page_out s0 pre s e done :
  iterates env cfg s0 pre s ->
  page_count s < page_limit ->
  raises_in_iteration env cfg s e done ->
  exists evs0 saved s',
    run env cfg s0 = (pre ++ evs0 ++ saved, s', Failed e)
    /\ checkpoints evs0 = []
    /\ yielded evs0
       = rows_of_deals env cfg done (page_count s + 1) (n_uuid s) (n_now s)
    /\ saved_as env saved
         {| cp_phase := PhError;
            records_processed := total_records s0 + Z.of_nat (length (yielded pre));
            cursor := after s;
            page_number := page_count s0 + Z.of_nat (length (fetched pre));
            batch_size_of := batch_size;
            checkpoint_data :=
              ErrorData e (page_count s0 + Z.of_nat (length (fetched pre)) + 1)
                        (after s) |}
    /\ yielded (fst (fst (run env cfg s0))) = yielded pre ++ yielded evs0
    /\ same_vars s s'.
Proof.
  intros Hit Hlt Hcause.
  destruct (iterates_counts env cfg _ _ _ Hit) as (Hp & Ht).
  destruct (loop_try_raises s e done Hcause) as (evs0 & s1 & Etry & Hy).
  destruct (loop_body env cfg s) as [[evs s'] out] eqn:Eb.
  assert (Hout : out = TryRaise e).
  { unfold loop_body in Eb. rewrite Etry in Eb.
    destruct (save_checkpoint env (error_checkpoint e) s1). pair_inv Eb. reflexivity. }
  subst out.
  pose proof (loop_body_cases env cfg _ _ _ _ Eb)
    as (evs0' & s1' & saved & Et & -> & Hvars & Hs).
  rewrite Etry in Et. injection Et as <- <-.
  pose proof (loop_try_facts env cfg _ _ _ _ Etry) as (_ & Hck & _).
  assert (Hrun : run env cfg s0 = (pre ++ evs0 ++ saved, s', Failed e)).
  { rewrite (run_iterates env cfg _ _ _ Hit), run_unfold.
    apply Z.ltb_lt in Hlt. rewrite Hlt, Eb. reflexivity. }
  destruct (saved_as_facts env _ _ Hs) as (Hsy & _).
  exists evs0, saved, s'.
  split; [exact Hrun|]. split; [exact Hck|]. split; [exact Hy|].
  split; [cbn [error_checkpoint fst] in Hs; rewrite Hp, Ht in Hs; exact Hs|].
  split; [|exact Hvars].
  rewrite Hrun. cbn [fst]. rewrite !yielded_app, Hsy, app_nil_r. reflexivity.
Qed.
End ErrorCheckpoint.

(** * Further properties of the code *)

Section RequestLoop.
Context `{PyBuiltins}.
Variable net : network.
Variable params : request_params.

(** The request loop from attempt [a] on, whatever the network answers:
    it sends between one request and as many as attempts are left, every
    answer before the last one received was retryable, and the last one
    decides the result; the loop stops early only at an answer that is
    not retryable. *)
Lemma request_attempts_last n : forall a cl evs cl' res,
  (a + n = max_retries)%nat ->
  request_attempts net (seq a n) params cl = (evs, cl', res) ->
  let sent := length (requests_sent evs) in
  (sent <= n)%nat
  /\ (0 < n -> 0 < sent)%nat
  /\ n_request cl' = (n_request cl + sent)%nat
  /\ requests_sent evs = List.map (pair params) (answers net params cl sent)
  /\ Forall retryable (List.map verdict_of (answers net params cl (sent - 1)))
  /\ match n with
     | O => res = Raise (Exception "Max retries (3) exceeded")
     | S _ =>
         res = policy_result
                 (verdict_of (session_request net (n_request cl + (sent - 1)) params))
         /\ (retryable (verdict_of
                          (session_request net (n_request cl + (sent - 1)) params)) ->
             sent = n)
     end.
Proof.
  induction n as [|n IH]; intros a cl evs cl' res Ha E.
  - cbn in E. injection E as <- <- <-. cbn. repeat split; auto; lia.
  - cbn [seq] in E. rewrite request_attempts_step in E. cbn zeta in E.
    destruct (wait_for_rate_limit_requests net cl) as (Hn1 & Hreq1 & _).
    set (waited := fst (_wait_for_rate_limit net cl)) in *.
    set (cl1 := snd (_wait_for_rate_limit net cl)) in *.
    set (o := session_request net (n_request cl) params) in *.
    assert (Hsent1 : requests_sent (waited ++ [CRequest params o]) = [(params, o)]).
    { rewrite requests_sent_app, Hreq1. reflexivity. }
    assert (Hone : answers net params cl 1 = [o]).
    { unfold answers. cbn. rewrite Nat.add_0_r. reflexivity. }
    assert (Hstop : forall r0,
              (waited ++ [CRequest params o], tick_request cl1, r0) = (evs, cl', res) ->
              r0 = policy_result (verdict_of o) ->
              (retryable (verdict_of o) -> 1%nat = S n) ->
              let sent := length (requests_sent evs) in
              (sent <= S n)%nat /\ (0 < S n -> 0 < sent)%nat
              /\ n_request cl' = (n_request cl + sent)%nat
              /\ requests_sent evs = List.map (pair params) (answers net params cl sent)
              /\ Forall retryable (List.map verdict_of (answers net params cl (sent - 1)))
              /\ (res = policy_result
                          (verdict_of (session_request net
                                         (n_request cl + (sent - 1)) params))
                  /\ (retryable (verdict_of (session_request net
                                               (n_request cl + (sent - 1)) params)) ->
                      sent = S n))).
    { intros r0 E0 Hr0 Hlast. injection E0 as <- <- <-. cbn zeta.
      rewrite Hsent1. cbn [length Nat.sub]. rewrite Hone, Nat.add_0_r. fold o.
      cbn [tick_request n_request]. rewrite Hn1.
      repeat split; auto; try lia; try (now constructor). }
    assert (Hgo : forall sl cl2 evs2 res2,
              n_request cl2 = S (n_request cl) ->
              retryable (verdict_of o) ->
              (forall e, verdict_of o = Fails e -> a <> (max_retries - 1)%nat) ->
              requests_sent sl = [] ->
              request_attempts net (seq (S a) n) params cl2 = (evs2, cl', res2) ->
              evs = (waited ++ [CRequest params o]) ++ sl ++ evs2 ->
              res = res2 ->
              let sent := length (requests_sent evs) in
              (sent <= S n)%nat /\ (0 < S n -> 0 < sent)%nat
              /\ n_request cl' = (n_request cl + sent)%nat
              /\ requests_sent evs = List.map (pair params) (answers net params cl sent)
              /\ Forall retryable (List.map verdict_of (answers net params cl (sent - 1)))
              /\ (res = policy_result
                          (verdict_of (session_request net
                                         (n_request cl + (sent - 1)) params))
                  /\ (retryable (verdict_of (session_request net
                                               (n_request cl + (sent - 1)) params)) ->
                      sent = S n))).
    { intros sl cl2 evs2 res2 Hn2 Hretry Hnf Hsl E2 -> ->.
      specialize (IH (S a) cl2 evs2 cl' res2 ltac:(lia) E2). cbn zeta in IH.
      destruct IH as (Hle & Hpos & Hreq & Hsent & Hall & Hres).
      cbn zeta. rewrite (requests_sent_app (waited ++ _)), Hsent1, requests_sent_app, Hsl.
      cbn [app length].
      set (m := length (requests_sent evs2)) in *.
      rewrite (answers_S net params cl cl2 m Hn2). fold o.
      replace (S m - 1)%nat with m by lia.
      split; [lia|]. split; [lia|]. split; [lia|].
      split; [cbn [List.map]; f_equal; exact Hsent|].
      destruct n as [|n'].
      - assert (E0 : m = 0%nat) by lia. rewrite E0.
        split; [constructor|]. rewrite Nat.add_0_r. fold o.
        split; [|reflexivity]. rewrite Hres.
        destruct (verdict_of o) as [r|d|e|e] eqn:Ev; cbn in Hretry; try contradiction.
        + reflexivity.
        + exfalso. apply (Hnf e eq_refl). unfold max_retries in *. lia.
      - destruct Hres as (Hres & Hlast).
        assert (Hm : (0 < m)%nat) by (apply Hpos; lia).
        replace m with (S (m - 1)) at 1 by lia.
        rewrite (answers_S net params cl cl2 (m - 1) Hn2). fold o.
        split; [constructor; assumption|].
        replace (n_request cl + m)%nat with (n_request cl2 + (m - 1))%nat by lia.
        split; [exact Hres|]. intros Hr. specialize (Hlast Hr). lia. }
    destruct (verdict_of o) as [r|d|e|e] eqn:Ev.
    + apply (Hstop (Ok r)); auto. intros [].
    + destruct (request_attempts net (seq (S a) n) params (tick_request cl1))
        as [[evs2 cl3] res2] eqn:E2.
      injection E as <- <- <-.
      eapply (Hgo [CSleep RetryAfter (inject_Z d)]); eauto;
        first [exact I | discriminate | cbn [tick_request n_request]; lia].
    + destruct (a =? max_retries - 1)%nat eqn:Ea.
      * apply Nat.eqb_eq in Ea.
        apply (Hstop (Raise e)); auto. intros _. unfold max_retries in *. lia.
      * destruct (request_attempts net (seq (S a) n) params (tick_time (tick_request cl1)))
          as [[evs2 cl3] res2] eqn:E2.
        injection E as <- <- <-.
        apply Nat.eqb_neq in Ea.
        eapply (Hgo [CSleep Backoff _]); eauto;
          first [exact I | cbn [tick_time tick_request n_request]; lia].
    + apply (Hstop (Raise e)); auto. intros [].
Qed.

(** What each kind of answer is. *)
Lemma verdict_of_cases o :
  match verdict_of o with
  | Succeeds r =>
      o = Responded r /\ status_code r <> 429
      /\ ~ (400 <= status_code r < 600)
  | RateLimited d =>
      exists r, o = Responded r /\ status_code r = 429 /\ 0 <= d <= max_sleep_seconds
  | Fails e => is_request_exception e = true
  | Aborts e =>
      exists r, o = Responded r /\ status_code r = 429
                /\ exists msg, e = ValueError msg \/ e = OverflowError msg
  end.
Proof.
  destruct o as [r|msg]; [|reflexivity]. unfold verdict_of.
  destruct (status_code r =? 429) eqn:E429.
  - apply Z.eqb_eq in E429.
    destruct (retry_after_header r) as [s|];
      [|exists r; unfold max_sleep_seconds; repeat split; auto; lia].
    destruct (int_of_str s) as [n|]; [|exists r; eauto 6].
    destruct ((n <? - max_sleep_seconds) || (max_sleep_seconds <? n)) eqn:Er;
      [exists r; eauto 6|].
    apply orb_false_iff in Er as (_ & Er). apply Z.ltb_ge in Er.
    destruct (n <? 0) eqn:En; [exists r; eauto 6|].
    apply Z.ltb_ge in En. exists r. auto.
  - apply Z.eqb_neq in E429.
    destruct ((400 <=? status_code r) && (status_code r <? 600)) eqn:Es.
    + reflexivity.
    + split; [reflexivity|]. split; [exact E429|].
      intros (H1 & H2). apply Z.leb_le in H1. apply Z.ltb_lt in H2.
      rewrite H1, H2 in Es. discriminate.
Qed.

(** X1. Whatever the server and the network do, [_make_request] sends the
    request at least once and at most three times, each time with the
    same parameters, and nothing else goes over the wire. *)
Theorem make_request_sends_one_to_three cl :
  let '(evs, cl', _) := _make_request net params cl in
  (1 <= length (requests_sent evs) <= 3)%nat
  /\ requests_sent evs
     = List.map (pair params) (answers net params cl (length (requests_sent evs)))
  /\ n_request cl' = (n_request cl + length (requests_sent evs))%nat.
Proof.
  unfold _make_request. change max_retries with 3%nat.
  destruct (request_attempts net (seq 0 3) params cl) as [[evs cl'] res] eqn:E.
  destruct (request_attempts_last 3 0 cl evs cl' res eq_refl E)
    as (Hle & Hpos & Hn & Hsent & _).
  split; [split; [apply Hpos; lia|exact Hle]|]. auto.
Qed.

(** X2. A response that [_make_request] returns is the answer to the last
    request it sent, and its status is neither 429 nor a 4xx or 5xx:
    the caller never sees an error response as a result. *)
Theorem make_request_returns_last_answer cl :
  let '(evs, cl', res) := _make_request net params cl in
  match res with
  | Ok r =>
      session_request net (n_request cl' - 1) params = Responded r
      /\ status_code r <> 429
      /\ ~ (400 <= status_code r < 600)
  | Raise _ => True
  end.
Proof.
  unfold _make_request. change max_retries with 3%nat.
  destruct (request_attempts net (seq 0 3) params cl) as [[evs cl'] res] eqn:E.
  destruct (request_attempts_last 3 0 cl evs cl' res eq_refl E)
    as (Hle & Hpos & Hn & _ & _ & Hres & _).
  destruct res as [r|e]; [|exact I].
  assert (Hp : (0 < length (requests_sent evs))%nat) by (apply Hpos; lia).
  replace (n_request cl' - 1)%nat
    with (n_request cl + (length (requests_sent evs) - 1))%nat by lia.
  pose proof (verdict_of_cases
                (session_request net
                   (n_request cl + (length (requests_sent evs) - 1)) params)) as Hv.
  destruct (verdict_of _) as [r'|d|e|e]; try discriminate.
  injection Hres as ->. exact Hv.
Qed.


(** X4. A 429 answer whose [Retry-After] header is not an integer (an HTTP
    date, say) is not retried: [int] raises [ValueError], which the
    handler of request exceptions does not catch, so the request ends
    at once, without a sleep. *)
Theorem unreadable_retry_after_aborts cl r s :
  session_request net (n_request cl) params = Responded r ->
  status_code r = 429 ->
  retry_after_header r = Some s ->
  int_of_str s = None ->
  exists evs cl',
    _make_request net params cl
    = (evs, cl', Raise (ValueError ("invalid literal for int(): " +:+ s)))
    /\ requests_sent evs = [(params, Responded r)]
    /\ policy_sleeps evs = [].
Proof.
  intros Ho H429 Hh Hint. unfold _make_request. change max_retries with 3%nat.
  cbn [seq]. rewrite request_attempts_step. cbn zeta.
  destruct (wait_for_rate_limit_requests net cl) as (_ & Hreq & Hsl).
  rewrite Ho. unfold verdict_of. rewrite H429, Hh, Hint. cbn [Z.eqb Pos.eqb].
  eexists _, _. split; [reflexivity|].
  rewrite requests_sent_app, policy_sleeps_app, Hreq, Hsl. auto.
Qed.

End RequestLoop.

Section RateFloor.
Context `{PyBuiltins}.
Variable net : network.
Hypothesis Hclock : clock_monotone net.

Lemma wait_for_rate_limit_floor cl :
  clock_ahead net cl ->
  Forall floor_sleep_bounded (fst (_wait_for_rate_limit net cl))
  /\ clock_ahead net (snd (_wait_for_rate_limit net cl)).
Proof.
  unfold clock_ahead, _wait_for_rate_limit. intros Hcl. cbn [fst snd].
  split.
  - destruct (Qlt_le_dec _ _) as [Hlt|Hge]; constructor; [|constructor].
    intros d E. injection E as <-.
    set (elapsed := (time_time net (n_time cl) - last_request_time cl)%Q) in *.
    assert (He : (0 <= elapsed)%Q).
    { unfold elapsed. rewrite <- (Qplus_opp_r (last_request_time cl)).
      apply Qplus_le_l. exact Hcl. }
    split.
    + rewrite <- (Qplus_opp_r elapsed). apply Qplus_lt_l. exact Hlt.
    + rewrite <- (Qplus_0_r request_interval) at 2.
      apply Qplus_le_r. exact (Qopp_le_compat 0 elapsed He).
  - cbn. apply Hclock. lia.
Qed.

Lemma request_attempts_floor params attempts : forall cl,
  clock_ahead net cl ->
  Forall floor_sleep_bounded (fst (fst (request_attempts net attempts params cl)))
  /\ clock_ahead net (snd (fst (request_attempts net attempts params cl))).
Proof.
  induction attempts as [|a rest IH]; intros cl Hcl.
  - cbn. split; [constructor|exact Hcl].
  - rewrite request_attempts_step. cbn zeta.
    destruct (wait_for_rate_limit_floor cl Hcl) as (Hw & Hcl1).
    set (waited := fst (_wait_for_rate_limit net cl)) in *.
    set (cl1 := snd (_wait_for_rate_limit net cl)) in *.
    set (o := session_request net (n_request cl) params).
    assert (Hsent : Forall floor_sleep_bounded (waited ++ [CRequest params o])).
    { apply Forall_app. split; [exact Hw|]. constructor; [|constructor].
      intros d E. discriminate. }
    assert (Hcl2 : clock_ahead net (tick_request cl1)) by exact Hcl1.
    assert (Hcl3 : clock_ahead net (tick_time (tick_request cl1))).
    { unfold clock_ahead in *. cbn.
      eapply Qle_trans; [exact Hcl1|]. apply Hclock. cbn. lia. }
    destruct (verdict_of o) as [r|d|e|e].
    + split; assumption.
    + destruct (IH _ Hcl2) as (H1 & H2).
      destruct (request_attempts net rest params (tick_request cl1)) as [[evs cl'] res].
      cbn [fst snd] in *. split; [|exact H2].
      apply Forall_app. split; [exact Hsent|]. constructor; [|exact H1].
      intros d' E. discriminate.
    + destruct (a =? max_retries - 1)%nat; [split; assumption|].
      destruct (IH _ Hcl3) as (H1 & H2).
      destruct (request_attempts net rest params (tick_time (tick_request cl1)))
        as [[evs cl'] res].
      cbn [fst snd] in *. split; [|exact H2].
      apply Forall_app. split; [exact Hsent|]. constructor; [|exact H1].
      intros d' E. discriminate.
    + split; assumption.
Qed.

(** X5. If the clock never runs backwards, every sleep [_make_request] takes
    to keep the rate floor is positive and at most the request interval
    (a fifteenth of a second), at each of its attempts; and the client is
    left in a state from which the next request can rely on the same. *)
Theorem rate_floor_sleeps_are_short params cl :
  clock_ahead net cl ->
  Forall floor_sleep_bounded (fst (fst (_make_request net params cl)))
  /\ clock_ahead net (snd (fst (_make_request net params cl))).
Proof.
  intros Hcl. unfold _make_request. apply request_attempts_floor. exact Hcl.
Qed.

End RateFloor.

Section ListingRequest.
Context `{PyBuiltins}.
Variable net : network.

(** X6. [get_deals] normalises its arguments before it sends anything: a
    limit of 100 or more is sent as 100, an empty cursor is not sent at
    all (so it asks for the first page, like no cursor), and an empty
    property list is replaced by the default list, like no list. *)
Theorem get_deals_normalises_arguments limit after props arch cl :
  get_deals net (Z.max limit 100) after props arch cl
  = get_deals net 100 after props arch cl
  /\ get_deals net limit (Some "") props arch cl
     = get_deals net limit None props arch cl
  /\ get_deals net limit after (Some []) arch cl
     = get_deals net limit after None arch cl.
Proof.
  unfold get_deals.
  assert (E1 : deals_params (Z.max limit 100) after props arch
               = deals_params 100 after props arch).
  { unfold deals_params. f_equal. lia. }
  rewrite E1. repeat split; reflexivity.
Qed.

End ListingRequest.

Section RunStructure.
Context `{PyBuiltins}.
Variable env : environment.
Variable cfg : config.

(** How a run ends: at the loop condition after complete iterations, or
    in an iteration that does not reach the next loop head. *)
Lemma run_ends n : forall s0 tr s' res,
  Z.to_nat (page_limit - page_count s0) = n ->
  run env cfg s0 = (tr, s', res) ->
  (res = Stopped ExitPageLimit /\ iterates env cfg s0 tr s'
   /\ page_limit <= page_count s')
  \/ exists pre s evs out,
       iterates env cfg s0 pre s
       /\ page_count s < page_limit
       /\ loop_body env cfg s = (evs, s', out)
       /\ tr = pre ++ evs
       /\ match out with
          | TryContinue => False
          | TryBreak why => res = Stopped why
          | TryReturn => res = Stopped ExitPausedMidPage
          | TryRaise e => res = Failed e
          end.
Proof.
  induction n as [n IH] using lt_wf_ind. intros s0 tr s' res Hn E.
  rewrite run_unfold in E.
  destruct (page_count s0 <? page_limit) eqn:Elt.
  - apply Z.ltb_lt in Elt.
    destruct (loop_body env cfg s0) as [[evs s1] out] eqn:Eb.
    destruct out as [|why| |e].
    + destruct (run env cfg s1) as [[tr1 s2] res1] eqn:E1.
      injection E as <- <- <-.
      pose proof (loop_body_continue env cfg _ _ _ Eb) as (Hp & _).
      destruct (IH (Z.to_nat (page_limit - page_count s1)) ltac:(lia) s1 tr1 s2 res1
                  eq_refl E1)
        as [(-> & Hit & Hge)|(pre & s & evs' & out & Hit & Hlt & Eb' & -> & Hout)].
      * left. split; [reflexivity|]. split; [|exact Hge].
        econstructor; eauto.
      * right. exists (evs ++ pre), s, evs', out.
        split; [econstructor; eauto|]. rewrite app_assoc. auto.
    + injection E as <- <- <-. right. exists [], s0, evs, (TryBreak why).
      repeat split; auto. constructor.
    + injection E as <- <- <-. right. exists [], s0, evs, TryReturn.
      repeat split; auto. constructor.
    + injection E as <- <- <-. right. exists [], s0, evs, (TryRaise e).
      repeat split; auto. constructor.
  - apply Z.ltb_ge in Elt. injection E as <- <- <-. left.
    repeat split; auto. constructor.
Qed.

(** The loop heads a run goes through lie at or after the seed's page
    number. *)
Lemma iterates_page_count s0 pre s :
  iterates env cfg s0 pre s -> page_count s0 <= page_count s.
Proof.
  intros Hit. destruct (iterates_counts env cfg _ _ _ Hit) as (Hp & _). lia.
Qed.

(** A property of the events of every iteration is a property of the
    events of the run. *)
Lemma run_events (P : event -> Prop) s0 :
  (forall s evs s1 out,
     page_count s0 <= page_count s -> page_count s < page_limit ->
     loop_body env cfg s = (evs, s1, out) -> Forall P evs) ->
  Forall P (fst (fst (run env cfg s0))).
Proof.
  intros Hbody.
  assert (Hgen : forall a tr b, iterates env cfg a tr b ->
                   page_count s0 <= page_count a -> Forall P tr).
  { induction 1 as [a|a evs a1 tr b Hlt Eb Hit IH]; intros Hle.
    - constructor.
    - apply Forall_app. split; [eapply Hbody; eauto|].
      apply IH. apply loop_body_continue in Eb as (Hp & _). lia. }
  destruct (run env cfg s0) as [[tr s'] res] eqn:E. cbn [fst].
  destruct (run_ends _ _ _ _ _ eq_refl E)
    as [(_ & Hit & _)|(pre & s & evs & out & Hit & Hlt & Eb & -> & _)].
  - apply (Hgen _ _ _ Hit). lia.
  - apply Forall_app. split; [apply (Hgen _ _ _ Hit); lia|].
    eapply Hbody; eauto. eapply iterates_page_count; eauto.
Qed.

Lemma yielded_cons_fetch c io r tr :
  yielded (EvFetch c io r :: tr) = yielded tr.
Proof. reflexivity. Qed.

Lemma yielded_cons_checkpoint cp r tr :
  yielded (EvCheckpoint cp r :: tr) = yielded tr.
Proof. reflexivity. Qed.

Lemma fetched_cons_checkpoint cp r tr :
  fetched (EvCheckpoint cp r :: tr) = fetched tr.
Proof. reflexivity. Qed.

Lemma forall_yielded (R : transformed_deal -> Prop) tr :
  Forall (fun ev => match ev with EvYield row => R row | _ => True end) tr ->
  Forall R (yielded tr).
Proof.
  induction 1 as [|ev tr Hev _ IH]; [constructor|].
  destruct ev; cbn; auto.
Qed.

Lemma yielded_forall (R : transformed_deal -> Prop) tr :
  Forall R (yielded tr) ->
  Forall (fun ev => match ev with EvYield row => R row | _ => True end) tr.
Proof.
  induction tr as [|ev tr IH]; intros Hall; [constructor|].
  destruct ev; cbn in Hall; try (constructor; [exact I|auto]).
  apply Forall_cons in Hall as (Hrow & Hrest). constructor; auto.
Qed.

Lemma forall_checkpoints (R : checkpoint -> Prop) tr :
  Forall (fun ev => match ev with EvCheckpoint cp _ => R cp | _ => True end) tr ->
  Forall R (checkpoints tr).
Proof.
  induction 1 as [|ev tr Hev _ IH]; [constructor|].
  destruct ev; cbn; auto.
Qed.

Lemma checkpoints_forall (R : checkpoint -> Prop) tr :
  Forall R (checkpoints tr) ->
  Forall (fun ev => match ev with EvCheckpoint cp _ => R cp | _ => True end) tr.
Proof.
  induction tr as [|ev tr IH]; intros Hall; [constructor|].
  destruct ev; cbn in Hall; try (constructor; [exact I|auto]).
  apply Forall_cons in Hall as (Hcp & Hrest). constructor; auto.
Qed.

End RunStructure.

Section Accounting.
Context `{PyBuiltins}.
Variable env : environment.
Variable cfg : config.

(** What the iteration that ends a run does to the loop variables. *)
Lemma last_iteration_counts s evs s' out :
  loop_body env cfg s = (evs, s', out) ->
  (length (fetched evs) <= 1)%nat
  /\ match out with
     | TryContinue => True
     | TryBreak ExitCompleted =>
         page_count s' = page_count s + 1
         /\ total_records s' = total_records s + Z.of_nat (length (yielded evs))
         /\ length (fetched evs) = 1%nat
     | TryBreak ExitCancelled | TryBreak ExitPaused =>
         same_vars s s' /\ yielded evs = [] /\ fetched evs = []
     | TryBreak _ => False
     | TryReturn | TryRaise _ => same_vars s s'
     end.
Proof.
  intros Eb. split; [eapply loop_body_fetches; eauto|].
  pose proof (loop_body_cases env cfg _ _ _ _ Eb) as Et.
  destruct out as [|why| |e]; [exact I| | |].
  - destruct why; cbn in Et.
    + apply loop_try_facts in Et as (Hv & _ & saved & -> & Hs).
      destruct (saved_as_facts env _ _ Hs) as (Hy & Hf & _).
      split; [exact Hv|]. cbn. auto.
    + apply loop_try_facts in Et as (Hv & _ & pre & saved & ts & -> & Hpolls & Hs).
      destruct (saved_as_facts env _ _ Hs) as (Hy & Hf & _).
      destruct (polls_only_facts _ Hpolls) as (Hpy & Hpf & _).
      split; [exact Hv|]. rewrite yielded_app, fetched_app, Hpy, Hpf. cbn. auto.
    + apply loop_try_facts in Et as (pre & io & data & evs' & s3 & _ & _ & _ & Epage).
      apply process_page_facts in Epage as (_ & _ & []).
    + apply loop_try_facts in Et
        as (pre & io & data & evs' & s3 & -> & Hpolls & (Hva & Hvp & Hvt) & Epage).
      apply process_page_facts in Epage
        as (_ & Hfe & r_evs & saved & final & -> & _ & _ & Hp & Ht & _ & _ & Hs & Hf).
      rewrite (page_yielded env pre (after s) io data r_evs saved final _ _ _
                 Hpolls Hs (or_intror Hf)).
      destruct (polls_only_facts _ Hpolls) as (_ & Hpf & _).
      rewrite fetched_app, Hpf, fetched_cons_fetch, Hfe. cbn [app length].
      repeat split; congruence.
    + apply loop_try_facts in Et as (pre & io & data & evs' & s3 & _ & _ & _ & Epage).
      apply process_page_facts in Epage as (_ & _ & []).
  - cbn in Et. apply loop_try_facts in Et
      as (pre & io & data & evs' & s3 & _ & _ & Hv & Epage).
    apply process_page_facts in Epage as (_ & _ & Hv' & _).
    eapply same_vars_trans; eauto.
  - destruct Et as (_ & _ & _ & _ & _ & Hv & _). exact Hv.
Qed.

(** X13. The counters a run ends with account for what it did.  The record
    count never exceeds the seed's count plus the records emitted, and
    the page count is the seed's plus the pages fetched, or one less.
    When the run completes, is cancelled, is paused between two pages or
    stops at the page ceiling, both are exact; a run that pauses inside a
    page or fails has emitted records of that page and fetched it
    without counting them. *)
Theorem run_counters_account s0 :
  let '(tr, s', res) := run env cfg s0 in
  total_records s' <= total_records s0 + Z.of_nat (length (yielded tr))
  /\ page_count s' <= page_count s0 + Z.of_nat (length (fetched tr))
  /\ page_count s0 + Z.of_nat (length (fetched tr)) <= page_count s' + 1
  /\ match res with
     | Stopped ExitPausedMidPage | Failed _ | OutOfFuel => True
     | Stopped _ =>
         total_records s' = total_records s0 + Z.of_nat (length (yielded tr))
         /\ page_count s' = page_count s0 + Z.of_nat (length (fetched tr))
     end.
Proof.
  destruct (run env cfg s0) as [[tr s'] res] eqn:E.
  destruct (run_ends env cfg _ _ _ _ _ eq_refl E)
    as [(-> & Hit & _)|(pre & s & evs & out & Hit & Hlt & Eb & -> & Hout)].
  - destruct (iterates_counts env cfg _ _ _ Hit) as (Hp & Ht). lia.
  - destruct (iterates_counts env cfg _ _ _ Hit) as (Hp & Ht).
    destruct (last_iteration_counts _ _ _ _ Eb) as (Hf1 & Hlast).
    rewrite yielded_app, fetched_app, !length_app, !Nat2Z.inj_add.
    destruct out as [|why| |e]; [contradiction| | |]; subst res.
    + destruct why; try contradiction.
      * destruct Hlast as ((Hva & Hvp & Hvt) & -> & ->). cbn [length]. lia.
      * destruct Hlast as ((Hva & Hvp & Hvt) & -> & ->). cbn [length]. lia.
      * destruct Hlast as (Hp' & Ht' & Hf'). lia.
    + destruct Hlast as (Hva & Hvp & Hvt). lia.
    + destruct Hlast as (Hva & Hvp & Hvt). lia.
Qed.

End Accounting.

Section EmittedRows.
Context `{PyBuiltins}.
Variable env : environment.
Variable cfg : config.

(** The bookkeeping fields of a row are the arguments of the call. *)
Lemma transform_stamps deal scan tenant page uuid now row :
  transform_hubspot_deal deal scan tenant page uuid now = Ok row ->
  _page_number row = page /\ _scan_id row = scan /\ _tenant_id row = tenant
  /\ row_id row = uuid /\ deal_id row = rd_id deal
  /\ raw_properties row = properties_of deal.
Proof.
  unfold transform_hubspot_deal.
  destruct (int_field _ _); [|discriminate].
  destruct (float_field _ "hs_forecast_amount"); [|discriminate].
  destruct (float_field _ "hs_forecast_probability"); [|discriminate].
  intros E. injection E as <-. cbn. auto 10.
Qed.

Lemma save_checkpoint_quiet build s :
  yielded (fst (save_checkpoint env build s)) = [].
Proof.
  unfold save_checkpoint. destruct (checkpoint_callback env); [|reflexivity].
  destruct (build s). reflexivity.
Qed.

Lemma periodic_checkpoint_quiet data k s :
  yielded (fst (periodic_checkpoint env data k s)) = [].
Proof.
  unfold periodic_checkpoint. destruct (_ =? _); [|reflexivity].
  apply save_checkpoint_quiet.
Qed.

(** The rows the record loop emits are transformations of records of
    the page that pass the filters. *)
Lemma process_deals_rows deals : forall k s evs s' out,
  process_deals env cfg deals k s = (evs, s', out) ->
  Forall (row_of env cfg deals (page_count s + 1)) (yielded evs).
Proof.
  induction deals as [|deal rest IH]; intros k s evs s' out E.
  - cbn in E. pair_inv E. constructor.
  - rewrite process_deals_cons in E.
    destruct (poll_record_pause env s) as [[polled s1] paused] eqn:Ep.
    apply poll_record_pause_facts in Ep as ((Hva & Hvp & Hvt) & _ & _ & _ & Hpoll).
    assert (Hpy : yielded polled = []).
    { destruct Hpoll as [(-> & _)|(-> & _)]; reflexivity. }
    destruct paused as [[|]|e].
    + pose proof (save_checkpoint_quiet (mid_page_checkpoint env k) s1) as Hsq.
      destruct (save_checkpoint env (mid_page_checkpoint env k) s1) as [saved s2].
      pair_inv E. rewrite yielded_app, Hpy. cbn [fst] in Hsq. rewrite Hsq. constructor.
    + destruct (transform_hubspot_deal deal (scan_id cfg) (tenant_id cfg) (page_count s + 1)
                  (uuid4 env (n_uuid s1)) (datetime_now env (n_now s1)))
        as [row|e] eqn:Et.
      * destruct (record_events_facts cfg deal row) as (_ & _ & _ & _ & Hry).
        set (revs := record_events cfg deal row) in *. clearbody revs.
        destruct (process_deals env cfg rest (if qualifies cfg row then k + 1 else k)
                    (bump_now (bump_uuid s1))) as [[evs0 s3] out0] eqn:Er.
        pair_inv E. apply IH in Er. cbn [bump_now bump_uuid page_count] in Er.
        rewrite Hvp in Er.
        rewrite !yielded_app, Hpy, Hry. cbn [app].
        apply Forall_app. split.
        -- destruct (qualifies cfg row) eqn:Eq; constructor; [|constructor].
           split; [exact Eq|]. exists deal, (n_uuid s1), (n_now s1).
           split; [left; reflexivity|exact Et].
        -- eapply List.Forall_impl; [|exact Er].
           intros r (Hq & d & u & w & Hin & Hd). split; [exact Hq|].
           exists d, u, w. split; [right; exact Hin|exact Hd].
      * pair_inv E. rewrite yielded_app, Hpy. constructor.
    + pair_inv E. rewrite Hpy. constructor.
Qed.

(** The rows of one iteration come from the page it fetched. *)
Lemma loop_try_rows s evs s' out :
  loop_try env cfg s = (evs, s', out) ->
  Forall (fun row =>
            exists io data,
              In (EvFetch (after s) io (Ok data)) evs
              /\ row_of env cfg (results data) (page_count s + 1) row)
         (yielded evs).
Proof.
  unfold loop_try. unfold cancel_check_interval, pause_check_interval.
  rewrite !every_page_checked.
  destruct (poll_cancel env s) as [[c_evs s1] cancelled] eqn:Ec.
  apply poll_cancel_facts in Ec as (Hv1 & _ & _ & _ & Hc).
  assert (Hcy : yielded c_evs = []).
  { destruct Hc as [(-> & _)| ->]; reflexivity. }
  destruct cancelled as [[|]|e].
  - pose proof (save_checkpoint_quiet cancel_checkpoint s1) as Hsq.
    destruct (save_checkpoint env cancel_checkpoint s1) as [saved s2].
    intros E. pair_inv E. cbn [fst] in Hsq. rewrite yielded_app, Hcy, Hsq. constructor.
  - destruct (poll_pause env s1) as [[p_evs s2] paused] eqn:Ep.
    apply poll_pause_facts in Ep as (Hv2 & _ & _ & _ & Hp).
    assert (Hpy : yielded p_evs = []).
    { destruct Hp as [(-> & _)| ->]; reflexivity. }
    pose proof (same_vars_trans _ _ _ Hv1 Hv2) as (Hva & Hvp & Hvt).
    destruct paused as [[|]|e].
    + pose proof (save_checkpoint_quiet (pause_checkpoint env) s2) as Hsq.
      destruct (save_checkpoint env (pause_checkpoint env) s2) as [saved s3].
      intros E. pair_inv E. cbn [fst] in Hsq.
      rewrite !yielded_app, Hcy, Hpy, Hsq. constructor.
    + destruct (get_deals (net env) batch_size (after s2) (properties cfg)
                  (archived_filter cfg) (api_service s2)) as [[io cl] fetched_page].
      destruct fetched_page as [data|e].
      * unfold process_page.
        destruct (process_deals env cfg (results data) 0 (set_api_service cl s2))
          as [[r_evs s4] rout] eqn:Er.
        apply process_deals_rows in Er.
        cbn [set_api_service page_count] in Er. rewrite Hvp in Er.
        assert (Hrows : forall rest s5 o,
                  yielded rest = [] ->
                  (c_evs ++ p_evs ++ EvFetch (after s2) io (Ok data) :: r_evs ++ rest,
                   s5, o) = (evs, s', out) ->
                  Forall (fun row =>
                            exists io0 data0,
                              In (EvFetch (after s) io0 (Ok data0)) evs
                              /\ row_of env cfg (results data0) (page_count s + 1) row)
                         (yielded evs)).
        { intros rest s5 o Hrest E. pair_inv E.
          rewrite !yielded_app, Hcy, Hpy. cbn [app].
          change (yielded (EvFetch (after s2) io (Ok data) :: r_evs ++ rest))
            with (yielded (r_evs ++ rest)).
          rewrite yielded_app, Hrest, app_nil_r.
          eapply List.Forall_impl; [|exact Er].
          intros row Hrow. exists io, data. split; [|exact Hrow].
          rewrite Hva. apply in_or_app. right. apply in_or_app. right.
          left. reflexivity. }
        destruct rout as [k| |e].
        -- pose proof (periodic_checkpoint_quiet data k (update_counters k s4)) as Hpq.
           destruct (periodic_checkpoint env data k (update_counters k s4))
             as [saved s5].
           cbn [fst] in Hpq.
           destruct (next_cursor data) as [c|].
           ++ intros E. eapply (Hrows saved); [exact Hpq|exact E].
           ++ pose proof (save_checkpoint_quiet final_checkpoint s5) as Hfq.
              destruct (save_checkpoint env final_checkpoint s5) as [final s6].
              cbn [fst] in Hfq.
              intros E. eapply (Hrows (saved ++ final)); [|exact E].
              rewrite yielded_app, Hpq, Hfq. reflexivity.
        -- intros E. eapply (Hrows []); [reflexivity|].
           rewrite app_nil_r. exact E.
        -- intros E. eapply (Hrows []); [reflexivity|].
           rewrite app_nil_r. exact E.
      * intros E. pair_inv E. rewrite !yielded_app, Hcy, Hpy. constructor.
    + intros E. pair_inv E. rewrite !yielded_app, Hcy, Hpy. constructor.
  - intros E. pair_inv E. rewrite Hcy. constructor.
Qed.

Lemma loop_body_rows s evs s' out :
  loop_body env cfg s = (evs, s', out) ->
  Forall (fun row =>
            exists io data,
              In (EvFetch (after s) io (Ok data)) evs
              /\ row_of env cfg (results data) (page_count s + 1) row)
         (yielded evs).
Proof.
  unfold loop_body.
  destruct (loop_try env cfg s) as [[evs0 s1] out0] eqn:Et.
  apply loop_try_rows in Et.
  destruct out0 as [|why| |e]; try (intros E; pair_inv E; exact Et).
  pose proof (save_checkpoint_quiet (error_checkpoint e) s1) as Hsq.
  destruct (save_checkpoint env (error_checkpoint e) s1) as [saved s2].
  cbn [fst] in Hsq. intros E. pair_inv E.
  rewrite yielded_app, Hsq, app_nil_r.
  eapply List.Forall_impl; [|exact Et].
  intros row (io & data & Hin & Hrow). exists io, data.
  split; [apply in_or_app; left; exact Hin|exact Hrow].
Qed.

(** X14. Every row a run emits is what [transform_hubspot_deal] makes of a
    record under the scan and tenant identifiers of the run and the page
    number the row is stamped with; it passes the stage filter and the
    pipeline filter, and its page number is above the seed's and at most
    1000.  The run never emits a row that a filter excludes. *)
Theorem emitted_rows_are_well_formed s0 :
  Forall (well_emitted env cfg (page_count s0))
         (yielded (fst (fst (run env cfg s0)))).
Proof.
  apply forall_yielded. apply run_events.
  intros s evs s1 out Hle Hlt Eb.
  apply yielded_forall.
  eapply List.Forall_impl; [|exact (loop_body_rows _ _ _ _ Eb)].
  intros row (io & data & _ & Hq & deal & u & w & _ & Ht).
  destruct (transform_stamps _ _ _ _ _ _ _ Ht) as (Hp & Hs & Hten & _).
  unfold well_emitted. rewrite Hp.
  split; [exact Hq|]. split; [exact Hs|]. split; [exact Hten|].
  split; [lia|]. eauto.
Qed.

End EmittedRows.

Section CheckpointCadence.
Context `{PyBuiltins}.
Variable env : environment.
Variable cfg : config.

Lemma in_checkpoint_event tr cp :
  In cp (checkpoints tr) -> exists r, In (EvCheckpoint cp r) tr.
Proof.
  induction tr as [|ev tr IH]; intros Hin; [contradiction|].
  destruct ev; cbn in Hin;
    try (destruct (IH Hin) as (r0 & Hr); exists r0; right; exact Hr).
  destruct Hin as [->|Hin].
  - eexists. left. reflexivity.
  - destruct (IH Hin) as (r0 & Hr). exists r0. right. exact Hr.
Qed.

(** X15. Processing checkpoints are saved only after every fifth page: each
    one a run saves has a page number that is a multiple of five, above
    the seed's page number and at most 1000, and its [has_more_pages]
    flag says whether it carries a cursor. *)
Theorem processing_checkpoints_only_every_fifth_page s0 :
  Forall (periodic (page_count s0)) (checkpoints (fst (fst (run env cfg s0)))).
Proof.
  apply forall_checkpoints. apply run_events.
  intros s evs s1 out Hle Hlt Eb.
  apply List.Forall_forall. intros ev Hin.
  destruct ev as [| | | | | |cp r]; try exact I.
  intros Hph.
  destruct (processing_checkpoint_origin env cfg _ _ _ _ _ _ Eb Hin Hph)
    as (io & data & _ & -> & Hmod & _).
  unfold processing_checkpoint_after. cbn.
  split; [exact Hmod|]. split; [lia|]. split; [reflexivity|].
  eexists. split; [|reflexivity]. lia.
Qed.

Lemma iteration_trace_counts polls c io data r_evs cp r final :
  polls_only polls ->
  fetched r_evs = [] ->
  yielded final = [] ->
  fetched final = [] ->
  yielded (polls ++ EvFetch c io (Ok data) :: r_evs ++ EvCheckpoint cp r :: final)
  = yielded r_evs
  /\ fetched (polls ++ EvFetch c io (Ok data) :: r_evs ++ EvCheckpoint cp r :: final)
     = [c].
Proof.
  intros Hpolls Hrf Hfy Hff.
  destruct (polls_only_facts _ Hpolls) as (Hpy & Hpf & _).
  split.
  - rewrite yielded_app, Hpy. cbn [app].
    rewrite yielded_cons_fetch, yielded_app, yielded_cons_checkpoint, Hfy, app_nil_r.
    reflexivity.
  - rewrite fetched_app, Hpf. cbn [app].
    rewrite fetched_cons_fetch, fetched_app, Hrf. cbn [app].
    rewrite fetched_cons_checkpoint, Hff. reflexivity.
Qed.

(** X16. And after every fifth page one is saved: an iteration that goes
    through a page whose number is a multiple of five hands the callback
    a processing checkpoint with the page's next cursor, the number of
    pages fetched and the number of records emitted so far. *)
Theorem fifth_page_is_checkpointed s0 pre s cb evs s' out :
  iterates env cfg s0 pre s ->
  page_count s < page_limit ->
  checkpoint_callback env = Some cb ->
  loop_body env cfg s = (evs, s', out) ->
  out = TryContinue \/ out = TryBreak ExitCompleted ->
  (page_count s + 1) mod checkpoint_interval = 0 ->
  exists io data r,
    In (EvFetch (after s) io (Ok data)) evs
    /\ In (EvCheckpoint
             {| cp_phase := PhProcessing;
                records_processed :=
                  total_records s0 + Z.of_nat (length (yielded (pre ++ evs)));
                cursor := next_cursor data;
                page_number :=
                  page_count s0 + Z.of_nat (length (fetched (pre ++ evs)));
                batch_size_of := batch_size;
                checkpoint_data :=
                  ProcessingData
                    (page_count s0 + Z.of_nat (length (fetched (pre ++ evs))))
                    (Z.of_nat (length (yielded evs)))
                    (bool_decide (next_cursor data <> None)) |} r) evs.
Proof.
  intros Hit Hlt Hcb Eb Hout Hmod.
  destruct (iterates_counts env cfg _ _ _ Hit) as (Hp & Ht).
  pose proof (loop_body_cases env cfg _ _ _ _ Eb) as Et.
  assert (Et' : loop_try env cfg s = (evs, s', out)).
  { destruct Hout as [-> | ->]; exact Et. }
  clear Et.
  pose proof (loop_try_facts env cfg _ _ _ _ Et') as Hfacts.
  assert (Hshape : exists polls io data evs' s3,
            evs = polls ++ EvFetch (after s) io (Ok data) :: evs'
            /\ polls_only polls /\ same_vars s s3
            /\ process_page env cfg data s3 = (evs', s', out)).
  { destruct Hout as [-> | ->]; exact Hfacts. }
  clear Hfacts.
  destruct Hshape as (polls & io & data & evs' & s3 & -> & Hpolls & (Hva & Hvp & Hvt) & Epage).
  destruct (polls_only_facts _ Hpolls) as (Hpy & Hpf & _).
  unfold process_page in Epage.
  destruct (process_deals env cfg (results data) 0 s3) as [[r_evs s4] rout] eqn:Er.
  pose proof (process_deals_facts env cfg _ _ _ _ _ _ Er)
    as ((Hwa & Hwp & Hwt) & _ & Hrf & Hrout).
  destruct rout as [k| |e];
    [|destruct Hout as [-> | ->]; discriminate Epage
     |destruct Hout as [-> | ->]; discriminate Epage].
  destruct Hrout as (Hk & _). rewrite Z.add_0_l in Hk.
  unfold periodic_checkpoint in Epage.
  cbn [update_counters page_count] in Epage.
  rewrite Hwp, Hvp in Epage. apply Z.eqb_eq in Hmod. rewrite Hmod in Epage.
  unfold save_checkpoint in Epage. rewrite Hcb in Epage.
  cbn [processing_checkpoint update_counters page_count total_records n_checkpoint
       fst snd] in Epage.
  rewrite Hwp, Hwt, Hvp, Hvt in Epage.
  subst k. exists io, data.
  destruct (next_cursor data) as [c|] eqn:En.
  - pair_inv Epage.
    match goal with
    | |- context [EvCheckpoint ?cp0 ?r0] =>
        destruct (iteration_trace_counts polls (after s) io data r_evs cp0 r0 []
                    Hpolls Hrf eq_refl eq_refl) as (Hy & Hf)
    end.
    eexists. split; [apply in_or_app; right; left; reflexivity|].
    rewrite yielded_app, fetched_app, !length_app, !Nat2Z.inj_add, Hy, Hf.
    cbn [length].
    replace (total_records s0 + (Z.of_nat (length (yielded pre))
                                 + Z.of_nat (length (yielded r_evs))))
      with (total_records s + Z.of_nat (length (yielded r_evs))) by lia.
    replace (page_count s0 + (Z.of_nat (length (fetched pre)) + Z.of_nat 1))
      with (page_count s + 1) by lia.
    apply in_or_app. right. right. apply in_or_app. right. left. reflexivity.
  - cbn [final_checkpoint fst snd] in Epage. pair_inv Epage. cbn [app].
    match goal with
    | |- context [r_evs ++ EvCheckpoint ?cp0 ?r0 :: ?final] =>
        destruct (iteration_trace_counts polls (after s) io data r_evs cp0 r0 final
                    Hpolls Hrf eq_refl eq_refl) as (Hy & Hf)
    end.
    eexists. split; [apply in_or_app; right; left; reflexivity|].
    rewrite yielded_app, fetched_app, !length_app, !Nat2Z.inj_add, Hy, Hf.
    cbn [length].
    replace (total_records s0 + (Z.of_nat (length (yielded pre))
                                 + Z.of_nat (length (yielded r_evs))))
      with (total_records s + Z.of_nat (length (yielded r_evs))) by lia.
    replace (page_count s0 + (Z.of_nat (length (fetched pre)) + Z.of_nat 1))
      with (page_count s + 1) by lia.
    apply in_or_app. right. right. apply in_or_app. right. left. reflexivity.
Qed.

End CheckpointCadence.

Section BoundaryPause.
Context `{PyBuiltins}.
Variable env : environment.
Variable cfg : config.

(** X17. If, at the checks that open the iteration for page p, the cancel
    predicate answers false (or is absent) and the pause predicate
    answers true, the run consists of the iterations before, those
    checks and what saving the paused checkpoint leaves, and stops: page
    p is not fetched and no record of it is emitted.  The checkpoint
    carries the total of the records emitted before, the cursor of page
    p, the count of pages fetched before, and the time read from the
    clock; it is handed to the checkpoint callback if there is one, and
    without a callback nothing is saved and the clock is not read. *)
Theorem pause_before_page s0 pre s f :
  iterates env cfg s0 pre s ->
  page_count s < page_limit ->
  not_now (check_cancel_callback env) (n_cancel s) ->
  check_pause_callback env = Some f ->
  f (n_pause s) = Ok true ->
  exists polls saved s',
    run env cfg s0
    = (pre ++ polls ++ EvPauseCheck (Ok true) :: saved, s', Stopped ExitPaused)
    /\ polls_only polls
    /\ saved_as env saved
         {| cp_phase := PhPaused;
            records_processed := total_records s0 + Z.of_nat (length (yielded pre));
            cursor := after s;
            page_number := page_count s0 + Z.of_nat (length (fetched pre));
            batch_size_of := batch_size;
            checkpoint_data :=
              PausedData (page_count s0 + Z.of_nat (length (fetched pre)))
                         (isoformat (datetime_now env (n_now s))) |}
    /\ (checkpoint_callback env = None -> n_now s' = n_now s)
    /\ yielded (fst (fst (run env cfg s0))) = yielded pre
    /\ fetched (fst (fst (run env cfg s0))) = fetched pre
    /\ page_count s' = page_count s
    /\ total_records s' = total_records s.
Proof.
  intros Hit Hlt Hcancel Hpc Hf.
  destruct (iterates_counts env cfg _ _ _ Hit) as (Hp & Ht).
  rewrite (run_iterates env cfg _ _ _ Hit), run_unfold.
  apply Z.ltb_lt in Hlt. rewrite Hlt.
  unfold loop_body, loop_try, cancel_check_interval, pause_check_interval.
  rewrite !every_page_checked.
  destruct (poll_cancel_not_now env s Hcancel)
    as (c_evs & s1 & Ec & Hc_only & (Hva & Hvp & Hvt) & _ & Hn1).
  pose proof (poll_cancel_facts env _ _ _ _ Ec) as (_ & _ & _ & Hnow & _).
  rewrite Ec. unfold poll_pause. rewrite Hpc, Hn1, Hf.
  destruct (polls_only_facts _ Hc_only) as (Hcy & Hcf & _).
  unfold save_checkpoint, saved_as.
  destruct (checkpoint_callback env) as [cb|];
    cbn [pause_checkpoint bump_pause bump_now bump_checkpoint total_records after
         page_count n_now n_checkpoint fst snd];
    rewrite ?Hva, ?Hvp, ?Hvt, ?Hnow, ?Hp, ?Ht;
    exists c_evs; eexists _, _;
    (split; [reflexivity|]); (split; [exact Hc_only|]); (split; [eauto|]);
    (split; [try discriminate; intros _; cbn; congruence|]);
    cbn [fst]; rewrite !yielded_app, !fetched_app, Hcy, Hcf; cbn;
    rewrite ?app_nil_r; repeat split; auto; cbn; congruence.
Qed.

End BoundaryPause.

Section Filters.
Context `{PyBuiltins}.
Variable env : environment.
Variable cfg : config.

Lemma filtered_out_allows allow value :
  filtered_out allow value = false <-> allows allow value.
Proof.
  unfold filtered_out, allows. destruct allow as [[|a l]|]; try tauto.
  destruct value as [v|].
  - rewrite negb_false_iff, existsb_exists. split.
    + intros (x & Hin & Heq). apply String.eqb_eq in Heq. subst x. eauto.
    + intros (v' & E & Hin). injection E as <-. exists v.
      split; [exact Hin|apply String.eqb_refl].
  - split; [discriminate|]. intros (v & E & _). discriminate.
Qed.

(** X18. The two filters, as the loop applies them: a row passes when its
    stage is in the stage list and its pipeline in the pipeline list.  A
    list that is absent or empty lets every row through; a list that is
    not empty drops the rows that have no value for the field. *)
Theorem filters_select row :
  qualifies cfg row = true
  <-> allows (deal_stages cfg) (deal_stage row)
      /\ allows (pipelines cfg) (pipeline row).
Proof.
  unfold qualifies. rewrite andb_true_iff, !negb_true_iff, !filtered_out_allows.
  reflexivity.
Qed.

Lemma qualifies_without_filters row : qualifies (without_filters cfg) row = true.
Proof. reflexivity. Qed.

Lemma rows_of_deals_filter deals page_no : forall u w,
  rows_of_deals env cfg deals page_no u w
  = List.filter (qualifies cfg)
      (rows_of_deals env (without_filters cfg) deals page_no u w).
Proof.
  induction deals as [|deal rest IH]; intros u w; [reflexivity|].
  cbn [rows_of_deals without_filters scan_id tenant_id].
  destruct (transform_hubspot_deal deal (scan_id cfg) (tenant_id cfg) page_no
              (uuid4 env u) (datetime_now env w)) as [row|e]; [|apply IH].
  rewrite qualifies_without_filters. cbn [app List.filter].
  rewrite IH. destruct (qualifies cfg row); reflexivity.
Qed.

Lemma rows_of_pages_filter pages : forall page_no u w,
  rows_of_pages env cfg pages page_no u w
  = List.filter (qualifies cfg)
      (rows_of_pages env (without_filters cfg) pages page_no u w).
Proof.
  induction pages as [|page rest IH]; intros page_no u w; [reflexivity|].
  cbn [rows_of_pages]. rewrite List.filter_app, <- rows_of_deals_filter, <- IH.
  reflexivity.
Qed.

(** X19. The filters only select.  In a run that nothing interrupts, the rows
    emitted under a configuration with filters are exactly those rows of
    the run without filters that pass them, in the same order: every
    record is fetched and transformed either way, with the same
    identifier and the same time stamp. *)
Theorem filters_only_select server cb pages s :
  checkpoint_callback env = Some cb ->
  never_true (check_cancel_callback env) ->
  never_true (check_pause_callback env) ->
  reliable server (net env) ->
  chain server (after s) pages ->
  page_count s + Z.of_nat (length pages) <= page_limit ->
  Forall (fun p => Forall (fun d => convertible d = true) (results p)) pages ->
  yielded (fst (fst (run env cfg s)))
  = List.filter (qualifies cfg)
      (yielded (fst (fst (run env (without_filters cfg) s)))).
Proof.
  intros Hcb Hcancel Hpause Hrel Hchain Hfit Hconv.
  destruct (run_completes env cfg server cb Hcb Hcancel Hpause Hrel pages s
              Hchain Hfit Hconv) as (tr & s' & -> & Hy & _).
  destruct (run_completes env (without_filters cfg) server cb Hcb Hcancel Hpause Hrel
              pages s Hchain Hfit Hconv) as (tr0 & s0' & -> & Hy0 & _).
  cbn [fst]. rewrite Hy, Hy0. apply rows_of_pages_filter.
Qed.

End Filters.

Section RequestedProperties.
Context `{PyBuiltins}.

Lemma int_field_absent properties key :
  properties !! key = None -> int_field properties key = Ok 0.
Proof. unfold int_field. intros ->. reflexivity. Qed.

Lemma float_field_absent properties key :
  properties !! key = None -> float_field properties key = Ok None.
Proof. unfold float_field. intros ->. reflexivity. Qed.

(** X20. The three conversions that are not guarded read properties that the
    default property list of [get_deals] does not ask for.  So a record
    that carries only properties of the default list is always
    transformed, whatever their values: its associated-contacts count is
    0 and its forecast fields are null. *)
Theorem default_properties_always_transform deal scan tenant page uuid now :
  (forall key, is_Some (properties_of deal !! key) -> In key default_properties) ->
  exists row,
    transform_hubspot_deal deal scan tenant page uuid now = Ok row
    /\ num_associated_contacts row = 0
    /\ forecast_amount row = None
    /\ forecast_probability row = None.
Proof.
  intros Hkeys.
  assert (Habsent : forall key, ~ In key default_properties ->
                      properties_of deal !! key = None).
  { intros key Hnot. destruct (properties_of deal !! key) as [v|] eqn:E; [|reflexivity].
    exfalso. apply Hnot. apply Hkeys. rewrite E. eauto. }
  assert (Hnot : forall key,
            key = "num_associated_contacts" \/ key = "hs_forecast_amount"
            \/ key = "hs_forecast_probability" ->
            ~ In key default_properties).
  { intros key Hkey Hin. unfold default_properties in Hin. cbn [In] in Hin.
    destruct Hkey as [-> |[-> | ->]];
      repeat (destruct Hin as [Hin|Hin]; [discriminate|]); exact Hin. }
  unfold transform_hubspot_deal.
  rewrite (int_field_absent _ _ (Habsent _ (Hnot _ (or_introl eq_refl)))).
  rewrite (float_field_absent _ _
             (Habsent _ (Hnot _ (or_intror (or_introl eq_refl))))).
  rewrite (float_field_absent _ _
             (Habsent _ (Hnot _ (or_intror (or_intror eq_refl))))).
  eexists. split; [reflexivity|]. cbn. auto.
Qed.

End RequestedProperties.

Section ListingFacts.
Context `{PyBuiltins}.
Variable net : network.
Variable properties : option (list string).
Variable archived : bool.
Variable server : option string -> deals_page.
Hypothesis Hrel : reliable server net.

Lemma listed_app evs evs' : listed (evs ++ evs') = listed evs ++ listed evs'.
Proof. unfold listed. apply omap_app. Qed.

Lemma asked_app evs evs' : asked (evs ++ evs') = asked evs ++ asked evs'.
Proof. unfold asked. apply omap_app. Qed.

Lemma listed_yields deals : listed (List.map LYield deals) = deals.
Proof. induction deals as [|d ds IH]; cbn; [reflexivity|]. f_equal. exact IH. Qed.

Lemma asked_yields deals : asked (List.map LYield deals) = [].
Proof. induction deals as [|d ds IH]; cbn; [reflexivity|exact IH]. Qed.

Lemma listed_cons_fetch c io r evs : listed (LFetch c io r :: evs) = listed evs.
Proof. reflexivity. Qed.

Lemma asked_cons_fetch c io r evs : asked (LFetch c io r :: evs) = c :: asked evs.
Proof. reflexivity. Qed.

(** On a network that always answers, [get_deals] returns the server's
    page after a single request. *)
Lemma get_deals_reliable_once limit after cl :
  exists io cl',
    get_deals net limit after properties archived cl
    = (io, cl', Ok (server (sent_cursor after)))
    /\ n_request cl' = S (n_request cl)
    /\ length (requests_sent io) = 1%nat.
Proof.
  unfold get_deals, _make_request. change max_retries with 3%nat.
  set (params := deals_params limit after properties archived).
  destruct (Hrel (n_request cl) params) as (r & Hr & H429 & Hstatus & Hjson).
  assert (Hv : verdict_of (session_request net (n_request cl) params) = Succeeds r).
  { rewrite Hr. unfold verdict_of.
    destruct (status_code r =? 429) eqn:E; [apply Z.eqb_eq in E; contradiction|].
    destruct ((400 <=? status_code r) && (status_code r <? 600)) eqn:E'; [|reflexivity].
    apply andb_true_iff in E' as (E1 & E2). apply Z.leb_le in E1. apply Z.ltb_lt in E2.
    lia. }
  pose proof (request_attempts_policy net params 3 0 cl 0 eq_refl ltac:(lia)
                ltac:(constructor)) as Hpol.
  rewrite Nat.add_0_r, Hv in Hpol. specialize (Hpol ltac:(intros _ [])).
  destruct (request_attempts net (seq 0 3) params cl) as [[io cl'] res].
  destruct Hpol as (Hsent & -> & _ & Hn). exists io, cl'. cbn [Nat.min] in *.
  rewrite Nat.add_0_r, Hv. cbn. rewrite Hjson, Hsent.
  split; [reflexivity|]. split; [lia|reflexivity].
Qed.

(** One iteration on a reliable network. *)
Lemma get_all_deals_step fuel after cl :
  exists io cl1,
    n_request cl1 = S (n_request cl)
    /\ get_all_deals_from net properties archived (S fuel) after cl
       = let data := server (sent_cursor after) in
         let fetch := LFetch after io (Ok data) in
         match results data with
         | [] => ([fetch], cl1, ListingDone)
         | _ :: _ =>
             let emitted := fetch :: List.map LYield (results data) in
             match next_entry data with
             | None => (emitted, cl1, ListingDone)
             | Some next =>
                 match next_after next with
                 | None => (emitted, cl1, ListingFailed (KeyError "after"))
                 | Some a =>
                     let '(evs, cl2, out) :=
                       get_all_deals_from net properties archived fuel (Some a) cl1 in
                     (emitted ++ evs, cl2, out)
                 end
             end
         end.
Proof.
  destruct (get_deals_reliable_once 100 after cl) as (io & cl1 & Eg & Hn & _).
  exists io, cl1. split; [exact Hn|].
  cbn [get_all_deals_from]. rewrite Eg. cbn zeta. unfold next_entry.
  destruct (results (server (sent_cursor after))); [reflexivity|].
  destruct (paging (server (sent_cursor after))) as [p|]; reflexivity.
Qed.

(** X7. On a network that always answers, [get_all_deals] follows the chain
    of [next] entries: it asks for each page of the chain once, yields
    the records of the pages in order, and ends.  It ends at the first
    page without records, whatever that page says about a next page, and
    otherwise at the first page without a [next] entry. *)
Theorem listing_follows_chain pages : forall fuel after cl,
  listing_chain server after pages ->
  (length pages <= fuel)%nat ->
  exists evs cl',
    get_all_deals_from net properties archived fuel after cl = (evs, cl', ListingDone)
    /\ listed evs = concat (List.map results pages)
    /\ length (asked evs) = length pages
    /\ n_request cl' = (n_request cl + length pages)%nat.
Proof.
  induction pages as [|page rest IH]; intros fuel after cl Hchain Hfuel.
  - inversion Hchain.
  - destruct fuel as [|fuel]; [cbn in Hfuel; lia|].
    destruct (get_all_deals_step fuel after cl) as (io & cl1 & Hn & ->).
    cbn zeta.
    inversion Hchain as [c p Hsrv Hempty|c p Hsrv Hlast
                        |c p next a rest' Hsrv Hsome Hnext Hafter Hrest]; subst.
    + rewrite Hempty. eexists _, _. split; [reflexivity|].
      cbn. rewrite Hempty. repeat split; lia.
    + destruct (results (server (sent_cursor after))) as [|d ds] eqn:Er.
      * eexists _, _. split; [reflexivity|]. cbn. rewrite Er. repeat split; lia.
      * rewrite Hlast. eexists _, _. split; [reflexivity|].
        rewrite listed_cons_fetch, asked_cons_fetch, listed_yields, asked_yields.
        cbn [List.map concat length]. rewrite Er, app_nil_r.
        repeat split; try reflexivity. lia.
    + destruct (results (server (sent_cursor after))) as [|d ds] eqn:Er;
        [contradiction|].
      rewrite Hnext, Hafter.
      destruct (IH fuel (Some a) cl1 Hrest ltac:(cbn in Hfuel; lia))
        as (evs & cl' & -> & Hl & Ha & Hn').
      eexists _, _. split; [reflexivity|].
      rewrite listed_app, asked_app, listed_cons_fetch, asked_cons_fetch,
        listed_yields, asked_yields, Hl.
      cbn [List.map concat length app]. rewrite Er, Ha.
      repeat split; try reflexivity. lia.
Qed.




End ListingFacts.

Section ServiceFacts.
Context `{PyBuiltins}.
Variable w : wire.

Lemma wait_for_rate_limit_on_wire q cl :
  Service._wait_for_rate_limit w cl
  = (List.map (on_wire q) (fst (_wait_for_rate_limit (network_for w q) cl)),
     snd (_wait_for_rate_limit (network_for w q) cl)).
Proof.
  unfold Service._wait_for_rate_limit, _wait_for_rate_limit.
  cbn [network_for time_time fst snd]. destruct (Qlt_le_dec _ _); reflexivity.
Qed.

(** The request loop for [q] is the request loop above, run on the
    network that answers as the wire answers [q]. *)
Lemma request_attempts_on_wire q p attempts : forall cl,
  Service.request_attempts w attempts q cl
  = let '(evs, cl', res) := request_attempts (network_for w q) attempts p cl in
    (List.map (on_wire q) evs, cl', res).
Proof.
  induction attempts as [|a rest IH]; intros cl; [reflexivity|].
  cbn [Service.request_attempts request_attempts].
  rewrite (wait_for_rate_limit_on_wire q cl).
  destruct (_wait_for_rate_limit (network_for w q) cl) as [waited cl1].
  cbn [fst snd network_for session_request time_time].
  destruct (wire_request w (n_request cl1) q) as [r|msg].
  - destruct (_handle_rate_limit_response r) as [[[|] slept]|e].
    + rewrite IH.
      destruct (request_attempts (network_for w q) rest p (tick_request cl1))
        as [[evs cl3] res].
      rewrite !List.map_app. reflexivity.
    + destruct (raise_for_status r) as [[]|e].
      * rewrite List.map_app. reflexivity.
      * destruct (a =? max_retries - 1)%nat; [rewrite List.map_app; reflexivity|].
        rewrite IH.
        destruct (request_attempts (network_for w q) rest p
                    (tick_time (tick_request cl1))) as [[evs cl3] res].
        rewrite !List.map_app. reflexivity.
    + rewrite List.map_app. reflexivity.
  - destruct (a =? max_retries - 1)%nat; [rewrite List.map_app; reflexivity|].
    rewrite IH.
    destruct (request_attempts (network_for w q) rest p
                (tick_time (tick_request cl1))) as [[evs cl3] res].
    rewrite !List.map_app. reflexivity.
Qed.

Lemma wire_requests_on_wire q evs :
  wire_requests (List.map (on_wire q) evs)
  = List.map (fun po => (q, snd po)) (requests_sent evs).
Proof.
  induction evs as [|ev evs IH]; [reflexivity|].
  destruct ev; cbn; [exact IH|]. f_equal. exact IH.
Qed.

(** The request loop reads the network only at the parameters it
    sends. *)
Lemma request_attempts_ext (n1 n2 : network) p attempts :
  (forall k, session_request n1 k p = session_request n2 k p) ->
  (forall k, time_time n1 k = time_time n2 k) ->
  forall cl, request_attempts n1 attempts p cl = request_attempts n2 attempts p cl.
Proof.
  intros Hreq Htime. induction attempts as [|a rest IH]; intros cl; [reflexivity|].
  cbn [request_attempts]. unfold _wait_for_rate_limit.
  rewrite !Htime, !Hreq. cbn [n_request n_time tick_request].
  destruct (Qlt_le_dec _ _);
    destruct (session_request n2 (n_request cl) p) as [r|msg];
    rewrite ?IH, ?Htime; reflexivity.
Qed.

(** For the requests of [get_deals], the request loop over the wire is
    the request loop over [network_of]. *)
Lemma listing_requests_on_wire svc p cl :
  Service._make_request w (listing_request svc p) cl
  = let '(evs, cl', res) := _make_request (network_of w svc) p cl in
    (List.map (on_wire (listing_request svc p)) evs, cl', res).
Proof.
  unfold Service._make_request, _make_request.
  rewrite (request_attempts_on_wire _ p).
  rewrite (request_attempts_ext (network_for w (listing_request svc p))
             (network_of w svc) p); reflexivity.
Qed.


(** An answer that is an error status other than 429. *)
Lemma verdict_of_error_status r :
  400 <= status_code r < 600 -> status_code r <> 429 ->
  verdict_of (Responded r) = Fails (HTTPError (status_code r)).
Proof.
  intros (Hlo & Hhi) H429. unfold verdict_of.
  destruct (status_code r =? 429) eqn:E; [apply Z.eqb_eq in E; contradiction|].
  apply Z.leb_le in Hlo. apply Z.ltb_lt in Hhi. rewrite Hlo, Hhi. reflexivity.
Qed.

(** X11. A token the server rejects is not rejected at once.  If every answer
    to the validation request is an error status (401, say),
    [validate_credentials] sends the request three times, sleeping at
    least one second after the first answer and at least two after the
    second, and only then returns [False]. *)
Theorem rejected_token_is_tried_three_times svc cl :
  (forall k, exists r,
     wire_request w k (validation_request svc) = Responded r
     /\ 400 <= status_code r < 600 /\ status_code r <> 429) ->
  exists evs cl' d1 d2,
    Service.validate_credentials w svc cl = (evs, cl', Ok false)
    /\ List.map fst (wire_requests evs) = repeat (validation_request svc) 3
    /\ omap (fun ev => match ev with
                       | WSleep Backoff d => Some d
                       | _ => None
                       end) evs = [d1; d2]
    /\ (1 <= d1)%Q /\ (2 <= d2)%Q.
Proof.
  intros Hrej.
  unfold Service.validate_credentials, Service._make_request.
  set (q := validation_request svc) in *.
  set (p := deals_params 1 None None false).
  rewrite (request_attempts_on_wire q p). change max_retries with 3%nat.
  assert (Hfail : forall k, exists e,
            verdict_of (session_request (network_for w q) k p) = Fails e
            /\ is_request_exception e = true).
  { intros k. destruct (Hrej k) as (r & Hr & Hst & H429).
    exists (HTTPError (status_code r)). cbn [network_for session_request].
    rewrite Hr, (verdict_of_error_status r Hst H429). auto. }
  pose proof (request_attempts_policy (network_for w q) p 3 0 cl 3 eq_refl
                ltac:(lia)) as Hpol.
  assert (Hall : Forall retryable
                   (List.map verdict_of (answers (network_for w q) p cl 3))).
  { unfold answers. apply List.Forall_forall. intros v Hin.
    apply List.in_map_iff in Hin as (o & <- & Hin).
    apply List.in_map_iff in Hin as (i & <- & _).
    destruct (Hfail (n_request cl + i)%nat) as (e & -> & _). exact I. }
  specialize (Hpol Hall ltac:(lia)).
  destruct (request_attempts (network_for w q) (seq 0 3) p cl) as [[evs cl'] res].
  destruct Hpol as (Hsent & Hres & Hsleeps & Hn).
  cbn [Nat.min] in Hsent, Hres, Hn.
  destruct (Hfail (n_request cl + 2)%nat) as (e3 & Ev3 & He3).
  rewrite Ev3 in Hres. cbn in Hres. subst res. rewrite He3.
  unfold answers in Hsleeps. cbn [seq List.map sleeping] in Hsleeps.
  destruct (Hfail (n_request cl + 0)%nat) as (e1 & Ev1 & _).
  destruct (Hfail (n_request cl + 1)%nat) as (e2 & Ev2 & _).
  rewrite Ev1, Ev2, Ev3 in Hsleeps.
  cbn [sleeps_after_attempt Nat.eqb max_retries Nat.sub negb app] in Hsleeps.
  inversion Hsleeps as [|iv1 sl1 l1 l1' H1 Hrest1 Eq1 Eq1']; subst.
  inversion Hrest1 as [|iv2 sl2 l2 l2' H2 Hrest2 Eq2 Eq2']; subst.
  inversion Hrest2; subst.
  destruct sl1 as [why1 d1], sl2 as [why2 d2].
  cbn in H1, H2. destruct H1 as (-> & Hd1 & _), H2 as (-> & Hd2 & _).
  exists (List.map (on_wire q) evs), cl', d1, d2.
  split; [reflexivity|].
  split.
  { rewrite wire_requests_on_wire, Hsent, !List.map_map. reflexivity. }
  split; [|split; assumption].
  match goal with E : _ = policy_sleeps evs |- _ => rename E into Eps end.
  revert Eps. clear. revert d1 d2.
  assert (Hgen : forall l,
            omap (fun ev => match ev with WSleep Backoff d => Some d | _ => None end)
                 (List.map (on_wire q) l)
            = omap (fun sl => match sl with (Backoff, d) => Some d | _ => None end)
                   (policy_sleeps l)).
  { induction l as [|ev l IH]; [reflexivity|].
    destruct ev as [[| |] d|p' o]; cbn; rewrite ?IH; reflexivity. }
  intros d1 d2 Eps. rewrite Hgen, <- Eps. reflexivity.
Qed.

End ServiceFacts.

Section DataSourceFacts.
Context `{PyBuiltins}.
Variable w : wire.


End DataSourceFacts.

(** * The properties on concrete runs *)

Module ExampleFacts.
Import Examples.

Lemma head_after_iterates env cfg n s :
  reaches env cfg n s = true ->
  iterates env cfg s (fst (head_after env cfg n s)) (snd (head_after env cfg n s)).
Proof.
  unfold reaches, head_after. intros Hr.
  destruct (iterations env cfg n s) as [[tr s']|] eqn:E; [|discriminate].
  apply (iterations_sound _ _ n). exact E.
Qed.

Lemma reliable_net_reliable server : reliable server (reliable_net server).
Proof.
  intros k p. exists (ok_response (server (p_after p))).
  cbn. repeat split; lia.
Qed.

Lemma cursor_of_length k : String.length (cursor_of k) = k.
Proof. induction k as [|k IH]; cbn; congruence. Qed.

Lemma page_index_sent k : page_index (sent_cursor (cursor_at k)) = k.
Proof.
  destruct k as [|k]; [reflexivity|].
  cbn. f_equal. apply cursor_of_length.
Qed.

Lemma paged_server_sent records count k :
  paged_server records count (sent_cursor (cursor_at k))
  = paged_server records count (cursor_at k).
Proof.
  unfold paged_server. rewrite page_index_sent.
  destruct k; cbn [cursor_at page_index]; rewrite ?cursor_of_length; reflexivity.
Qed.

Lemma paged_server_next records count k :
  next_cursor (paged_server records count (cursor_at k))
  = if (S k <? count)%nat then Some (cursor_of (S k)) else None.
Proof.
  assert (Hk : page_index (cursor_at k) = k).
  { destruct k; cbn [cursor_at page_index]; rewrite ?cursor_of_length; reflexivity. }
  unfold next_cursor, paged_server. cbn [paging]. rewrite Hk.
  destruct (S k <? count)%nat; reflexivity.
Qed.

(** The pages of a paged server chain from each of its cursors to the
    last page. *)
Lemma paged_server_chain records count n : forall k,
  (count - k = S n)%nat ->
  chain (paged_server records count) (cursor_at k) (pages_from records count k).
Proof.
  unfold pages_from.
  induction n as [|n IH]; intros k Hk; rewrite Hk; cbn [seq map].
  - apply chain_last; [apply paged_server_sent|].
    rewrite paged_server_next.
    destruct (Nat.ltb_spec (S k) count) as [Hlt|_]; [lia|reflexivity].
  - apply chain_next with (c' := cursor_of (S k)); [apply paged_server_sent| |].
    + rewrite paged_server_next.
      destruct (Nat.ltb_spec (S k) count) as [_|Hge]; [reflexivity|lia].
    + specialize (IH (S k)). replace (count - S k)%nat with (S n) in IH by lia.
      apply IH. reflexivity.
Qed.

End ExampleFacts.

Module FullRunExamples.
Import Examples ExampleFacts.

(** Three pages of two deals each, the won one of which qualifies. *)
Lemma full_run_three_pages :
  exists tr s',
    get_hubspot_deals (quiet_env (paged_server two_per_page 3)) only_won None fresh_client
    = (tr, s', Stopped ExitCompleted)
    /\ yielded tr
       = rows_of_pages (quiet_env (paged_server two_per_page 3)) only_won
           (pages_of two_per_page 3) 0 0 0
    /\ length (fetched tr) = length (pages_of two_per_page 3)
    /\ ends_with_checkpoint tr
         (completed_checkpoint (Z.of_nat (length (pages_of two_per_page 3)))
            (Z.of_nat (length (yielded tr))))
    /\ cursor (completed_checkpoint (Z.of_nat (length (pages_of two_per_page 3)))
                 (Z.of_nat (length (yielded tr)))) = None.
Proof.
  apply (full_run_within_ceiling (quiet_env (paged_server two_per_page 3)) only_won
           (paged_server two_per_page 3) accepting).
  - reflexivity.
  - exact I.
  - exact I.
  - apply reliable_net_reliable.
  - apply (paged_server_chain two_per_page 3 2 0). reflexivity.
  - vm_compute. lia.
  - apply all_convertible_sound. vm_compute. reflexivity.
Defined.

(** C1 as stated fails beyond the page ceiling.  The server holds a chain
    of 1001 pages, the last of which has one qualifying deal; nothing
    interrupts the run and every request is answered.  The run stops at
    the loop condition after 1000 fetches: the deal of the last page is
    not emitted, and the 200 checkpoints saved are all processing
    checkpoints, none is a completed one. *)
Lemma page_ceiling_cuts_long_chain :
  chain (paged_server only_last_page 1001) None (pages_of only_last_page 1001)
  /\ length (pages_of only_last_page 1001) = 1001%nat
  /\ all_convertible (pages_of only_last_page 1001) = true
  /\ reliable (paged_server only_last_page 1001)
       (net (quiet_env (paged_server only_last_page 1001)))
  /\ never_true (check_cancel_callback (quiet_env (paged_server only_last_page 1001)))
  /\ never_true (check_pause_callback (quiet_env (paged_server only_last_page 1001)))
  /\ snd (get_hubspot_deals (quiet_env (paged_server only_last_page 1001))
            only_won None fresh_client) = Stopped ExitPageLimit
  /\ length (fetched (fst (fst (get_hubspot_deals
               (quiet_env (paged_server only_last_page 1001))
               only_won None fresh_client)))) = 1000%nat
  /\ yielded (fst (fst (get_hubspot_deals
               (quiet_env (paged_server only_last_page 1001))
               only_won None fresh_client))) = []
  /\ length (rows_of_pages (quiet_env (paged_server only_last_page 1001)) only_won
               (pages_of only_last_page 1001) 0 0 0) = 1%nat
  /\ List.map cp_phase
       (checkpoints (fst (fst (get_hubspot_deals
          (quiet_env (paged_server only_last_page 1001))
          only_won None fresh_client))))
     = repeat PhProcessing 200.
Proof.
  split; [apply (paged_server_chain only_last_page 1001 1000 0); reflexivity|].
  split; [vm_compute; reflexivity|].
  split; [vm_compute; reflexivity|].
  split; [apply reliable_net_reliable|].
  split; [exact I|]. split; [exact I|].
  evaluate_each.
Qed.

End FullRunExamples.

Module ResumeExamples.
Import Examples ExampleFacts.

(** Seven pages with one qualifying deal each: the fifth iteration saves
    a processing checkpoint that names the sixth page, and the run
    resumed from it goes through the two pages left. *)
Lemma resume_after_fifth_page :
  records_processed fifth_page_checkpoint
  = total_records fresh
    + Z.of_nat (length (yielded (fst four_pages_in ++ fst (fst fifth_iteration))))
  /\ page_number fifth_page_checkpoint
     = page_count fresh
       + Z.of_nat (length (fetched (fst four_pages_in ++ fst (fst fifth_iteration))))
  /\ iterates seven_pages only_won fresh
       (fst four_pages_in ++ fst (fst fifth_iteration)) (snd (fst fifth_iteration))
  /\ after (snd (fst fifth_iteration)) = Some (cursor_of 5)
  /\ exists tr s',
       get_hubspot_deals seven_pages only_won
         (Some (resume_from_checkpoint fifth_page_checkpoint)) fresh_client
       = (tr, s', Stopped ExitCompleted)
       /\ yielded tr
          = rows_of_pages seven_pages only_won (pages_from two_per_page 7 5)
              (page_number fifth_page_checkpoint) 0 0
       /\ length (fetched tr) = length (pages_from two_per_page 7 5)
       /\ total_records s'
          = records_processed fifth_page_checkpoint + Z.of_nat (length (yielded tr))
       /\ ends_with_checkpoint tr
            (completed_checkpoint
               (page_number fifth_page_checkpoint
                + Z.of_nat (length (pages_from two_per_page 7 5)))
               (records_processed fifth_page_checkpoint
                + Z.of_nat (length (yielded tr)))).
Proof.
  apply (resume_from_processing_checkpoint seven_pages only_won
           (paged_server two_per_page 7) accepting fresh
           (fst four_pages_in) (snd four_pages_in)
           (fst (fst fifth_iteration)) (snd (fst fifth_iteration)) (snd fifth_iteration)
           fifth_page_checkpoint (Ok tt) (cursor_of 5) (pages_from two_per_page 7 5)
           fresh_client).
  - reflexivity.
  - exact I.
  - exact I.
  - apply reliable_net_reliable.
  - apply head_after_iterates. vm_compute. reflexivity.
  - vm_compute. reflexivity.
  - unfold fifth_iteration.
    destruct (loop_body seven_pages only_won (snd four_pages_in)) as [[evs s1] out].
    reflexivity.
  - refine (nth_error_In (fst (fst fifth_iteration)) 4 _). evaluate.
  - reflexivity.
  - reflexivity.
  - apply (paged_server_chain two_per_page 7 1 5). reflexivity.
  - vm_compute. discriminate.
  - apply all_convertible_sound. vm_compute. reflexivity.
Defined.

(** C2 as stated fails for the checkpoint saved after the last page.
    With five pages of one qualifying deal each, the run saves a
    processing checkpoint after page 5 which counts 5 records and whose
    cursor is null (no page is left), and then the completed checkpoint.
    A run seeded with that checkpoint starts again at the first page: it
    fetches the five pages and emits the five deals once more, and ends
    with 10 records, not with the 5 records of the checkpoint. *)
Lemma resume_from_last_page_checkpoint_recounts :
  checkpoints (fst (fst (get_hubspot_deals five_pages only_won None fresh_client)))
  = [last_page_checkpoint; completed_checkpoint 5 5]
  /\ length (yielded (fst (fst (get_hubspot_deals five_pages only_won None
                                  fresh_client)))) = 5%nat
  /\ snd (get_hubspot_deals five_pages only_won
            (Some (resume_from_checkpoint last_page_checkpoint)) fresh_client)
     = Stopped ExitCompleted
  /\ fetched (fst (fst (get_hubspot_deals five_pages only_won
                          (Some (resume_from_checkpoint last_page_checkpoint))
                          fresh_client)))
     = List.map cursor_at (seq 0 5)
  /\ List.map deal_id
       (yielded (fst (fst (get_hubspot_deals five_pages only_won
                             (Some (resume_from_checkpoint last_page_checkpoint))
                             fresh_client))))
     = List.map (fun k => Some (cursor_of k)) (seq 0 5)
  /\ total_records
       (snd (fst (get_hubspot_deals five_pages only_won
                    (Some (resume_from_checkpoint last_page_checkpoint))
                    fresh_client)))
     = 10.
Proof.
  evaluate_each.
Qed.

End ResumeExamples.

Module InterruptionExamples.
Import Examples ExampleFacts.

(** A fresh run on a chain of 1001 pages stops at the ceiling, after
    1000 fetches. *)
Lemma fresh_run_reaches_ceiling :
  length (fetched (fst (fst (get_hubspot_deals long_chain only_won None fresh_client))))
  = 1000%nat
  /\ snd (get_hubspot_deals long_chain only_won None fresh_client) <> OutOfFuel
  /\ Z.of_nat (length (fetched (fst (fst (get_hubspot_deals long_chain only_won None
                                            fresh_client)))))
     <= Z.max 0 (page_limit - page_count (initial_state None fresh_client))
  /\ (0 <= page_count (initial_state None fresh_client) ->
      (length (fetched (fst (fst (get_hubspot_deals long_chain only_won None
                                    fresh_client))))
       <= 1000)%nat).
Proof.
  split; [evaluate|].
  apply (page_ceiling long_chain only_won None fresh_client
           (fst (fst (get_hubspot_deals long_chain only_won None fresh_client)))
           (snd (fst (get_hubspot_deals long_chain only_won None fresh_client)))).
  destruct (get_hubspot_deals long_chain only_won None fresh_client) as [[tr s'] res].
  reflexivity.
Defined.

(** C9 as stated fails for a seed with a negative page number.  The
    caller resumes with page number -1 (and no cursor) on a chain of 1001
    pages that nothing interrupts.  The loop condition
    [page_count < 1000] holds 1001 times: the run fetches all 1001 pages
    and completes. *)
Lemma negative_seed_fetches_1001_pages :
  page_count (initial_state (Some negative_seed) fresh_client) = -1
  /\ snd (get_hubspot_deals long_chain only_won (Some negative_seed) fresh_client)
     = Stopped ExitCompleted
  /\ length (fetched (fst (fst (get_hubspot_deals long_chain only_won
                                  (Some negative_seed) fresh_client))))
     = 1001%nat
  /\ page_count (snd (fst (get_hubspot_deals long_chain only_won
                             (Some negative_seed) fresh_client)))
     = 1000.
Proof.
  evaluate_each.
Qed.

(** Both predicates would answer true before the second page: the run
    is cancelled there. *)
Lemma cancel_before_second_page :
  exists saved s',
    run cancel_env only_won fresh
    = (fst before_cancel ++ EvCancelCheck (Ok true) :: saved, s', Stopped ExitCancelled)
    /\ saved_as cancel_env saved
         {| cp_phase := PhCancelled;
            records_processed :=
              total_records fresh + Z.of_nat (length (yielded (fst before_cancel)));
            cursor := after (snd before_cancel);
            page_number :=
              page_count fresh + Z.of_nat (length (fetched (fst before_cancel)));
            batch_size_of := batch_size;
            checkpoint_data :=
              CancelledData
                (page_count fresh
                 + Z.of_nat (length (fetched (fst before_cancel)))) |}
    /\ yielded (fst (fst (run cancel_env only_won fresh))) = yielded (fst before_cancel)
    /\ fetched (fst (fst (run cancel_env only_won fresh))) = fetched (fst before_cancel)
    /\ same_vars (snd before_cancel) s'.
Proof.
  apply (cancel_before_page cancel_env only_won fresh (fst before_cancel)
           (snd before_cancel) (at_call 1)).
  - apply head_after_iterates. vm_compute. reflexivity.
  - vm_compute. reflexivity.
  - reflexivity.
  - evaluate.
Defined.

(** C4 as stated fails without a checkpoint callback.  The same run, when
    the caller supplies no checkpoint callback ([None] is the default):
    it is cancelled before the second page, after one fetch, and no
    cancelled checkpoint (no checkpoint at all) is produced. *)
Lemma cancelled_run_without_callback :
  checkpoint_callback (without_callback cancel_env) = None
  /\ snd (run (without_callback cancel_env) only_won fresh) = Stopped ExitCancelled
  /\ fetched (fst (fst (run (without_callback cancel_env) only_won fresh))) = [None]
  /\ checkpoints (fst (fst (run (without_callback cancel_env) only_won fresh))) = [].
Proof.
  evaluate_each.
Qed.

(** The three attempts for the second page fail. *)
Lemma second_page_unreachable :
  exists polls io saved s',
    run flaky_env only_won fresh
    = (fst before_failure ++ polls
         ++ EvFetch (after (snd before_failure)) io (Raise connection_reset) :: saved,
       s', Failed connection_reset)
    /\ polls_only polls
    /\ length (requests_sent io) = 3%nat
    /\ saved_as flaky_env saved
         {| cp_phase := PhError;
            records_processed :=
              total_records fresh + Z.of_nat (length (yielded (fst before_failure)));
            cursor := after (snd before_failure);
            page_number :=
              page_count fresh + Z.of_nat (length (fetched (fst before_failure)));
            batch_size_of := batch_size;
            checkpoint_data :=
              ErrorData connection_reset
                (page_count fresh
                 + Z.of_nat (length (fetched (fst before_failure))) + 1)
                (after (snd before_failure)) |}
    /\ same_vars (snd before_failure) s'.
Proof.
  apply (fetch_failure_checkpoint flaky_env only_won fresh (fst before_failure)
           (snd before_failure) connection_reset connection_reset connection_reset).
  - apply head_after_iterates. vm_compute. reflexivity.
  - vm_compute. reflexivity.
  - reflexivity.
  - reflexivity.
  - evaluate.
Defined.

(** C7 as stated fails without a checkpoint callback.  The same run, when
    the caller supplies no checkpoint callback: the fetch of the second
    page fails after three requests and the run fails with the
    connection error, but no error checkpoint (no checkpoint at all) is
    produced. *)
Lemma failed_fetch_without_callback :
  checkpoint_callback (without_callback flaky_env) = None
  /\ snd (run (without_callback flaky_env) only_won fresh) = Failed connection_reset
  /\ fetched (fst (fst (run (without_callback flaky_env) only_won fresh)))
     = [None; Some "x"]
  /\ checkpoints (fst (fst (run (without_callback flaky_env) only_won fresh))) = [].
Proof.
  evaluate_each.
Qed.

(** The second record of the second page does not convert, after the
    first record of that page was emitted. *)
Lemma bad_record_fails_the_run :
  exists evs0 saved s',
    run bad_env only_won fresh
    = (fst before_bad_page ++ evs0 ++ saved, s', Failed not_a_number)
    /\ checkpoints evs0 = []
    /\ yielded evs0
       = rows_of_deals bad_env only_won [won "a"]
           (page_count (snd before_bad_page) + 1) (n_uuid (snd before_bad_page))
           (n_now (snd before_bad_page))
    /\ saved_as bad_env saved
         {| cp_phase := PhError;
            records_processed :=
              total_records fresh + Z.of_nat (length (yielded (fst before_bad_page)));
            cursor := after (snd before_bad_page);
            page_number :=
              page_count fresh + Z.of_nat (length (fetched (fst before_bad_page)));
            batch_size_of := batch_size;
            checkpoint_data :=
              ErrorData not_a_number
                (page_count fresh
                 + Z.of_nat (length (fetched (fst before_bad_page))) + 1)
                (after (snd before_bad_page)) |}
    /\ yielded (fst (fst (run bad_env only_won fresh)))
       = yielded (fst before_bad_page) ++ yielded evs0
    /\ same_vars (snd before_bad_page) s'.
Proof.
  apply (error_checkpoint_leaves_page_out bad_env only_won fresh (fst before_bad_page)
           (snd before_bad_page) not_a_number [won "a"]).
  - apply head_after_iterates. vm_compute. reflexivity.
  - vm_compute. reflexivity.
  - destruct (get_deals_reliable (paged_server second_page_bad 3) (net bad_env)
                batch_size (after (snd before_bad_page)) (properties only_won)
                (archived_filter only_won) (api_service (snd before_bad_page))
                (reliable_net_reliable _)) as (io & cl & Hget).
    apply (transformation_raises bad_env only_won (snd before_bad_page) not_a_number
             io cl
             (paged_server second_page_bad 3 (sent_cursor (after (snd before_bad_page))))
             [won "a"] (bad_forecast "b") [won "c"]).
    + exact I.
    + intros i _. exact I.
    + exact Hget.
    + evaluate.
    + constructor; [vm_compute; reflexivity|constructor].
    + evaluate.
Defined.

(** C10 as stated fails without a checkpoint callback.  The same run,
    when the caller supplies no checkpoint callback: the second record of
    the second page raises after one row of that page was emitted (two
    rows in all), the run fails with that exception, and no error
    checkpoint (no checkpoint at all) is produced. *)
Lemma failed_record_without_callback :
  checkpoint_callback (without_callback bad_env) = None
  /\ snd (run (without_callback bad_env) only_won fresh) = Failed not_a_number
  /\ length (yielded (fst (fst (run (without_callback bad_env) only_won fresh))))
     = 2%nat
  /\ checkpoints (fst (fst (run (without_callback bad_env) only_won fresh))) = [].
Proof.
  evaluate_each.
Qed.

(** The pause predicate answers true before the second record of the
    second page. *)
Lemma pause_before_second_record :
  exists polls before saved s',
    run pause_env only_won fresh
    = (fst before_pause ++ polls
         ++ EvFetch (after (snd before_pause)) (fst (fst paused_page_fetch))
              (Ok (three_pages (sent_cursor (after (snd before_pause)))))
         :: before ++ EvRecordPauseCheck (Ok true) :: saved,
       s', Stopped ExitPausedMidPage)
    /\ polls_only polls
    /\ transformed before = [won "x"]
    /\ record_checks before = repeat (Ok false) (length [won "x"])
    /\ yielded before
       = rows_of_deals pause_env only_won [won "x"]
           (page_count (snd before_pause) + 1) (n_uuid (snd before_pause))
           (n_now (snd before_pause))
    /\ saved_as pause_env saved
         {| cp_phase := PhPausedMidPage;
            records_processed :=
              total_records fresh + Z.of_nat (length (yielded (fst before_pause)))
              + Z.of_nat (length (yielded before));
            cursor := after (snd before_pause);
            page_number :=
              page_count fresh + Z.of_nat (length (fetched (fst before_pause)));
            batch_size_of := batch_size;
            checkpoint_data :=
              MidPageData
                (page_count fresh + Z.of_nat (length (fetched (fst before_pause))))
                (Z.of_nat (length (yielded before)))
                (isoformat (datetime_now pause_env
                              (n_now (snd before_pause) + length [won "x"]))) |}
    /\ yielded (fst (fst (run pause_env only_won fresh)))
       = yielded (fst before_pause) ++ yielded before
    /\ transformed (fst (fst (run pause_env only_won fresh)))
       = transformed (fst before_pause) ++ [won "x"]
    /\ same_vars (snd before_pause) s'.
Proof.
  assert (Hn : n_pause (snd before_pause) = 3%nat) by evaluate.
  apply (mid_page_pause pause_env only_won fresh (fst before_pause) (snd before_pause)
           (at_call 5) (fst (fst paused_page_fetch)) (snd (fst paused_page_fetch))
           (three_pages (sent_cursor (after (snd before_pause))))
           [won "x"] (lost "x") []).
  - apply head_after_iterates. vm_compute. reflexivity.
  - vm_compute. reflexivity.
  - exact I.
  - reflexivity.
  - intros i Hi. rewrite Hn. cbn [length] in Hi.
    destruct i as [|[|i]]; [reflexivity|reflexivity|lia].
  - rewrite Hn. reflexivity.
  - unfold paused_page_fetch.
    destruct (get_deals_reliable three_pages (net pause_env) batch_size
                (after (snd before_pause)) (properties only_won)
                (archived_filter only_won) (api_service (snd before_pause))
                (reliable_net_reliable _)) as (io & cl & Hget).
    rewrite Hget. reflexivity.
  - evaluate.
  - constructor; [vm_compute; reflexivity|constructor].
Defined.

(** C3 as stated fails without a checkpoint callback.  The same run, when
    the caller supplies no checkpoint callback: the generator returns
    before the second record of the second page, after two rows were
    emitted, and no paused_mid_page checkpoint (no checkpoint at all) is
    produced. *)
Lemma mid_page_pause_without_callback :
  checkpoint_callback (without_callback pause_env) = None
  /\ snd (run (without_callback pause_env) only_won fresh) = Stopped ExitPausedMidPage
  /\ length (yielded (fst (fst (run (without_callback pause_env) only_won fresh))))
     = 2%nat
  /\ checkpoints (fst (fst (run (without_callback pause_env) only_won fresh))) = [].
Proof.
  evaluate_each.
Qed.

End InterruptionExamples.

Module RetryExamples.
Import Examples ExampleFacts.



End RetryExamples.

Module TransformationExamples.
Import Examples ExampleFacts.

(** An amount that is not a number gives a row without amount. *)
Lemma unparseable_amount_degrades :
  option_map amount
    (match transform_hubspot_deal (lost "7") "scan" None 1 "u" "2024-01-01" with
     | Ok row => Some row
     | Raise _ => None
     end)
  = Some None.
Proof. evaluate. Qed.

(** A forecast amount that is not a number makes the transformation
    raise. *)
Lemma unparseable_forecast_amount_raises :
  transform_hubspot_deal (bad_forecast "b") "scan" None 1 "u" "2024-01-01"
  = Raise not_a_number.
Proof. evaluate. Qed.

End TransformationExamples.

Module FurtherExampleFacts.
Import Examples ExampleFacts FurtherExamples.

Lemma reliable_clock_monotone server : clock_monotone (reliable_net server).
Proof. intros i j Hij. cbn. rewrite <- Zle_Qle. lia. Qed.

Lemma paged_server_entry records count k :
  next_entry (paged_server records count (cursor_at k))
  = if (S k <? count)%nat then Some {| next_after := Some (cursor_of (S k)) |} else None.
Proof.
  assert (Hk : page_index (cursor_at k) = k).
  { destruct k; cbn [cursor_at page_index]; rewrite ?cursor_of_length; reflexivity. }
  unfold next_entry, paged_server. cbn [paging]. rewrite Hk.
  destruct (S k <? count)%nat; reflexivity.
Qed.

Lemma paged_server_results records count k :
  results (paged_server records count (cursor_at k)) = records k.
Proof.
  unfold paged_server. cbn [results].
  destruct k; cbn [cursor_at page_index]; rewrite ?cursor_of_length; reflexivity.
Qed.

(** The pages of a paged server without empty pages are the chain
    [get_all_deals] follows. *)
Lemma paged_server_listing_chain records count n : forall k,
  (forall i, records i <> []) ->
  (count - k = S n)%nat ->
  listing_chain (paged_server records count) (cursor_at k) (pages_from records count k).
Proof.
  unfold pages_from.
  induction n as [|n IH]; intros k Hrec Hk; rewrite Hk; cbn [seq map].
  - apply listing_last; [apply paged_server_sent|].
    rewrite paged_server_entry.
    destruct (Nat.ltb_spec (S k) count) as [Hlt|_]; [lia|reflexivity].
  - apply listing_next with (next := {| next_after := Some (cursor_of (S k)) |})
                            (a := cursor_of (S k)).
    + apply paged_server_sent.
    + rewrite paged_server_results. apply Hrec.
    + rewrite paged_server_entry.
      destruct (Nat.ltb_spec (S k) count) as [_|Hge]; [reflexivity|lia].
    + reflexivity.
    + specialize (IH (S k) Hrec). replace (count - S k)%nat with (S n) in IH by lia.
      apply IH. reflexivity.
Qed.

(** The properties a deal of the examples carries. *)
Lemma deal_properties id stage extra key :
  is_Some (properties_of (deal id stage extra) !! key) ->
  In key ("dealstage" :: List.map fst extra).
Proof.
  intros Hs.
  destruct (decide (key ∈ (("dealstage", stage) :: extra).*1)) as [Hin|Hout].
  - apply list_elem_of_In in Hin. exact Hin.
  - exfalso. destruct Hs as (v & Hv).
    pose proof (not_elem_of_list_to_map_1 (M := gmap string)
                  (("dealstage", stage) :: extra) key Hout) as Hnone.
    change (properties_of (deal id stage extra))
      with (list_to_map (("dealstage", stage) :: extra) : gmap string string) in Hv.
    rewrite Hnone in Hv. discriminate.
Qed.

End FurtherExampleFacts.

Module ClientExamples.
Import Examples ExampleFacts FurtherExamples FurtherExampleFacts.

(** A 429 whose [Retry-After] is a date ends the request at once. *)
Lemma retry_after_date_aborts :
  exists evs cl',
    _make_request throttled_until_date list_params fresh_client
    = (evs, cl', Raise (ValueError ("invalid literal for int(): " +:+ http_date)))
    /\ requests_sent evs = [(list_params, Responded (rate_limited (Some http_date)))]
    /\ policy_sleeps evs = [].
Proof.
  apply (unreadable_retry_after_aborts throttled_until_date list_params fresh_client
           (rate_limited (Some http_date)) http_date).
  - reflexivity.
  - reflexivity.
  - reflexivity.
  - vm_compute. reflexivity.
Defined.

(** The first request of a fresh client on a clock that counts
    seconds. *)
Lemma first_request_keeps_floor :
  Forall floor_sleep_bounded
    (fst (fst (_make_request (reliable_net empty_server) list_params fresh_client)))
  /\ clock_ahead (reliable_net empty_server)
       (snd (fst (_make_request (reliable_net empty_server) list_params fresh_client))).
Proof.
  apply (rate_floor_sleeps_are_short (reliable_net empty_server)
           (reliable_clock_monotone empty_server) list_params fresh_client).
  unfold clock_ahead. cbn. apply Qle_refl.
Defined.

(** A won deal of the examples carries only default properties. *)
Lemma won_deal_transforms :
  exists row,
    transform_hubspot_deal (won "1") "scan" (Some "tenant") 1 "u" "2024-01-01" = Ok row
    /\ num_associated_contacts row = 0
    /\ forecast_amount row = None
    /\ forecast_probability row = None.
Proof.
  apply (@default_properties_always_transform decimal_builtins (won "1") "scan"
           (Some "tenant") 1 "u" "2024-01-01").
  intros key Hs. apply deal_properties in Hs. cbn [List.map fst In] in Hs.
  unfold default_properties. cbn [In].
  destruct Hs as [<- |[<- |[<- |[]]]]; auto 12.
Defined.

End ClientExamples.

Module CadenceExamples.
Import Examples ExampleFacts FurtherExamples FurtherExampleFacts.

(** The fifth iteration of a run of seven pages saves a checkpoint. *)
Lemma fifth_of_seven_is_checkpointed :
  exists io data r,
    In (EvFetch (after (snd four_pages_in)) io (Ok data)) (fst (fst fifth_iteration))
    /\ In (EvCheckpoint
             {| cp_phase := PhProcessing;
                records_processed :=
                  total_records fresh
                  + Z.of_nat (length (yielded (fst four_pages_in
                                               ++ fst (fst fifth_iteration))));
                cursor := next_cursor data;
                page_number :=
                  page_count fresh
                  + Z.of_nat (length (fetched (fst four_pages_in
                                               ++ fst (fst fifth_iteration))));
                batch_size_of := batch_size;
                checkpoint_data :=
                  ProcessingData
                    (page_count fresh
                     + Z.of_nat (length (fetched (fst four_pages_in
                                                  ++ fst (fst fifth_iteration)))))
                    (Z.of_nat (length (yielded (fst (fst fifth_iteration)))))
                    (bool_decide (next_cursor data <> None)) |} r)
         (fst (fst fifth_iteration)).
Proof.
  apply (fifth_page_is_checkpointed seven_pages only_won fresh (fst four_pages_in)
           (snd four_pages_in) accepting (fst (fst fifth_iteration))
           (snd (fst fifth_iteration)) (snd fifth_iteration)).
  - apply head_after_iterates. vm_compute. reflexivity.
  - vm_compute. reflexivity.
  - reflexivity.
  - unfold fifth_iteration.
    destruct (loop_body seven_pages only_won (snd four_pages_in)) as [[evs s'] out].
    reflexivity.
  - left. evaluate.
  - evaluate.
Defined.

(** A pause asked for between the first and the second page. *)
Lemma pause_before_second_page :
  exists polls saved s',
    run boundary_pause_env only_won fresh
    = (fst before_boundary_pause ++ polls ++ EvPauseCheck (Ok true) :: saved,
       s', Stopped ExitPaused)
    /\ polls_only polls
    /\ saved_as boundary_pause_env saved
         {| cp_phase := PhPaused;
            records_processed :=
              total_records fresh
              + Z.of_nat (length (yielded (fst before_boundary_pause)));
            cursor := after (snd before_boundary_pause);
            page_number :=
              page_count fresh
              + Z.of_nat (length (fetched (fst before_boundary_pause)));
            batch_size_of := batch_size;
            checkpoint_data :=
              PausedData
                (page_count fresh
                 + Z.of_nat (length (fetched (fst before_boundary_pause))))
                (isoformat (datetime_now boundary_pause_env
                              (n_now (snd before_boundary_pause)))) |}
    /\ (checkpoint_callback boundary_pause_env = None ->
        n_now s' = n_now (snd before_boundary_pause))
    /\ yielded (fst (fst (run boundary_pause_env only_won fresh)))
       = yielded (fst before_boundary_pause)
    /\ fetched (fst (fst (run boundary_pause_env only_won fresh)))
       = fetched (fst before_boundary_pause)
    /\ page_count s' = page_count (snd before_boundary_pause)
    /\ total_records s' = total_records (snd before_boundary_pause).
Proof.
  apply (pause_before_page boundary_pause_env only_won fresh
           (fst before_boundary_pause) (snd before_boundary_pause) (at_call 3)).
  - apply head_after_iterates. vm_compute. reflexivity.
  - vm_compute. reflexivity.
  - exact I.
  - reflexivity.
  - evaluate.
Defined.

(** Three pages of a won and a lost deal each, with and without the
    stage filter. *)
Lemma stage_filter_selects_won_deals :
  yielded (fst (fst (run (quiet_env (paged_server two_per_page 3)) only_won fresh)))
  = List.filter (qualifies only_won)
      (yielded (fst (fst (run (quiet_env (paged_server two_per_page 3))
                            (without_filters only_won) fresh)))).
Proof.
  apply (filters_only_select (quiet_env (paged_server two_per_page 3)) only_won
           (paged_server two_per_page 3) accepting (pages_of two_per_page 3) fresh).
  - reflexivity.
  - exact I.
  - exact I.
  - apply reliable_net_reliable.
  - apply (paged_server_chain two_per_page 3 2 0). reflexivity.
  - vm_compute. discriminate.
  - apply all_convertible_sound. vm_compute. reflexivity.
Defined.

End CadenceExamples.

Module ListingExamples.
Import Examples ExampleFacts FurtherExamples FurtherExampleFacts.

(** Three pages of two deals each are listed with three requests. *)
Lemma three_pages_are_listed :
  exists evs cl',
    get_all_deals_from (reliable_net three_pages) None false 3 None fresh_client
    = (evs, cl', ListingDone)
    /\ listed evs = concat (List.map results (pages_of two_per_page 3))
    /\ length (asked evs) = length (pages_of two_per_page 3)
    /\ n_request cl' = (n_request fresh_client + length (pages_of two_per_page 3))%nat.
Proof.
  apply (listing_follows_chain (reliable_net three_pages) None false three_pages
           (reliable_net_reliable three_pages) (pages_of two_per_page 3) 3 None
           fresh_client).
  - apply (paged_server_listing_chain two_per_page 3 2 0); [|reflexivity].
    intros i. discriminate.
  - vm_compute. lia.
Defined.



End ListingExamples.

Module ServiceExamples.
Import Examples ExampleFacts FurtherExamples FurtherExampleFacts.

(** Every validation request is answered 401. *)
Lemma unauthorized_token_is_tried_three_times :
  exists evs cl' d1 d2,
    Service.validate_credentials rejecting_wire example_service new_client
    = (evs, cl', Ok false)
    /\ List.map fst (wire_requests evs) = repeat (validation_request example_service) 3
    /\ omap (fun ev => match ev with
                       | WSleep Backoff d => Some d
                       | _ => None
                       end) evs = [d1; d2]
    /\ (1 <= d1)%Q /\ (2 <= d2)%Q.
Proof.
  apply (rejected_token_is_tried_three_times rejecting_wire example_service new_client).
  intros k. exists unauthorized. split; [reflexivity|]. cbn. lia.
Defined.

End ServiceExamples.
